(** * Task manager: access control and document reconciliation

    A shallow embedding of the backend of the task manager
    (backend/controllers/taskController.js and backend/services/taskService.js)
    together with the properties its specification states about task
    mutation, attachment reconciliation and authorization. The upload
    filter, the role guard, the deletion of accounts and the task reducer
    of the frontend are embedded as well, for the properties that relate
    them to the task handlers.

    The persistent store (MongoDB through Mongoose) and the upload directory
    are modelled as an explicit world that every handler threads; JavaScript
    exceptions are modelled by an outcome type, [try]/[catch] by a handler
    combinator. An identifier is the text of an ObjectId, 24 hexadecimal
    digits in lower case, and the identifier of a task in a route is taken
    to be one (the route validators, which are not part of the sources,
    reject the others through the [req_valid] flag). A string that stands
    for an account, in a body, in a query or in a route, is cast as
    Mongoose casts it, and is rejected when it is no ObjectId. [populate]
    is modelled where the code goes on to read what it put in place: on
    the query of getTaskById, whose access check reads the populated
    references, and on the saved document of createTask and updateTask,
    where the chained call depends on the version of Mongoose. On the
    query of getTasks it only changes how the two user references of the
    response are presented, and is left out. The database answers every
    operation it is sent: an operation that it rejects for a reason of its
    own, such as a lost connection, is not modelled. *)

From stdpp Require Import base strings gmap list.
From Stdlib Require Import ZArith QArith Qround Ascii String Sorted.

Open Scope string_scope.
Open Scope Z_scope.

(** ** backend/config/constants.js *)

Module constants.
Definition USER : string := "user".
Definition ADMIN : string := "admin".
Definition TASK_STATUSES : list string := ["To Do"; "In Progress"; "Done"].
Definition TASK_PRIORITIES : list string := ["Low"; "Medium"; "High"].
Definition MAX_DOCUMENTS_PER_TASK : nat := 3.
Definition ALLOWED_DOCUMENT_MIMETYPES : list string := ["application/pdf"].
End constants.

(** ** JavaScript values of request fields

    A body or query field is either absent ([None], JavaScript [undefined])
    or a string. The empty string is the only falsy string. *)

Definition truthy (v : option string) : bool :=
  match v with
  | Some s => negb (bool_decide (s = ""))
  | None => false
  end.

(** [v || d] where [d] is a string. *)
Definition or_else (v : option string) (d : string) : string :=
  match v with
  | Some s => if bool_decide (s = "") then d else s
  | None => d
  end.

(** Strings are the UTF-8 bytes of the JavaScript string. *)

(** The white space and the line terminators that [String.prototype.trim]
    removes (U+0009 to U+000D, U+0020, U+00A0, U+1680, U+2000 to U+200A,
    U+2028, U+2029, U+202F, U+205F, U+3000, U+FEFF), each as its bytes. *)
Definition white_space : list (list ascii) :=
  map (map ascii_of_nat)
    [ [9]; [10]; [11]; [12]; [13]; [32]; [194; 160]; [225; 154; 128];
      [226; 128; 128]; [226; 128; 129]; [226; 128; 130]; [226; 128; 131];
      [226; 128; 132]; [226; 128; 133]; [226; 128; 134]; [226; 128; 135];
      [226; 128; 136]; [226; 128; 137]; [226; 128; 138]; [226; 128; 168];
      [226; 128; 169]; [226; 128; 175]; [226; 129; 159]; [227; 128; 128];
      [239; 187; 191] ]%nat.

Fixpoint strip_prefix (p l : list ascii) : option (list ascii) :=
  match p, l with
  | [], _ => Some l
  | a :: p', b :: l' => if Ascii.eqb a b then strip_prefix p' l' else None
  | _ :: _, [] => None
  end.

Fixpoint first_stripped (spaces : list (list ascii)) (l : list ascii)
  : option (list ascii) :=
  match spaces with
  | [] => None
  | p :: r =>
      match strip_prefix p l with
      | Some rest => Some rest
      | None => first_stripped r l
      end
  end.

Fixpoint strip (fuel : nat) (spaces : list (list ascii)) (l : list ascii)
  : list ascii :=
  match fuel with
  | O => l
  | S k =>
      match first_stripped spaces l with
      | Some rest => strip k spaces rest
      | None => l
      end
  end.

(** [s.trim()] *)
Definition trim (s : string) : string :=
  let l := list_ascii_of_string s in
  let n := List.length l in
  string_of_list_ascii
    (rev (strip n (map (@rev ascii) white_space) (rev (strip n white_space l)))).

(** The UTF-16 code units of the character a byte starts: none for a
    continuation byte, two for the first byte of a four-byte sequence. *)
Definition utf16_units (c : ascii) : nat :=
  let n := nat_of_ascii c in
  if (n <? 128)%nat then 1%nat
  else if (n <? 192)%nat then 0%nat
  else if (n <? 240)%nat then 1%nat
  else 2%nat.

(** [s.length] *)
Definition utf16_length (s : string) : nat :=
  sum_list (map utf16_units (list_ascii_of_string s)).

(** A JavaScript number, as far as [Number(s)] of a string gives one. *)
Inductive JsNumber :=
| NaN
| Infinity (negative : bool)
| Finite (q : Q).

(** [new Date(n)] of a finite number: the time value is clipped and
    truncated; [None] is Invalid Date. *)
Definition Date_of_number (q : Q) : option Z :=
  if Qle_bool (inject_Z (-8640000000000000)) q
     && Qle_bool q (inject_Z 8640000000000000)
  then Some (if Qle_bool (inject_Z 0) q then Qfloor q else Qceiling q)
  else None.

(** The environment of the process: library functions whose results the
    handlers consume, the version of Mongoose as far as the handlers
    depend on it, and the paths the download handler is configured
    with. *)
Class Runtime := {
  (** [new Date(s)] as milliseconds since the epoch; [None] is Invalid Date *)
  new_Date : string → option Z;
  (** [parseInt(s)]; [None] is NaN *)
  parseInt : string → option Z;
  (** [Number(s)] *)
  Number : string → JsNumber;
  (** a field matched against [{ $regex: pattern, $options: 'i' }] *)
  regex_i : string → string → bool;
  (** whether MongoDB compiles the pattern of a [$regex] *)
  regex_valid : string → bool;
  (** the n-th ObjectId minted by the driver, as its string *)
  ObjectId : nat → string;
  (** whether Mongoose casts the string to an ObjectId; a string that it
      casts is taken to be the text of that ObjectId *)
  isValidObjectId : string → bool;
  (** [doc.toString()] of the user document that [populate] puts in place
      of the identifier of an account *)
  inspect_user : string → string;
  (** whether [doc.populate(..)] on a document returns the document, so
      that a second [.populate(..)] can be chained on it (Mongoose 5); from
      Mongoose 6 on it returns a promise, which has no such method *)
  populate_chains : bool;
  (** [__dirname] of the controllers (and of the services) directory *)
  dirname : string;
  (** [process.env.UPLOAD_PATH] *)
  UPLOAD_PATH : option string;
}.

(** ** Data model *)

Record Document := mkDocument {
  doc_id : string;
  filename : string;
  path : string;
  mimetype : string;
}.

Record Task := mkTask {
  _id : string;
  title : string;
  description : string;
  status : string;
  priority : string;
  dueDate : Z;
  assignedTo : string;
  createdBy : string;
  attachedDocuments : list Document;
  createdAt : Z;
  updatedAt : Z;
}.

(** A file as Multer hands it to the handler. *)
Record File := mkFile {
  originalname : string;
  file_path : string;
  file_mimetype : string;
}.

(** An element of an [attachedDocuments] array before Mongoose casts it:
    a stored subdocument, or a plain object built from an upload, which
    receives its [_id] when it is cast. *)
Inductive DocSpec :=
| Existing (d : Document)
| Fresh (name : string) (location : string) (mime : string).

Definition fresh_of_file (f : File) : DocSpec :=
  Fresh (originalname f) (file_path f) (file_mimetype f).

(** A value produced by [JSON.parse], as far as the handlers look at it:
    [null] (reading [._id] of it throws), or any other value, of which only
    a string [_id] property can compare equal to an identifier. *)
Inductive JsonValue :=
| JNull
| JValue (id : option string).

Record Body := mkBody {
  b_title : option string;
  b_description : option string;
  b_status : option string;
  b_priority : option string;
  b_dueDate : option string;
  b_assignedTo : option string;
  b_createdBy : option string;
  (** [None]: the field is absent (or the empty string). [Some l]: one
      entry per string received, given by what [JSON.parse] does on it:
      [None] when it throws, the parsed value otherwise. *)
  b_existingAttachedDocuments : option (list (option JsonValue));
}.

Record QueryString := mkQueryString {
  q_status : option string;
  q_priority : option string;
  q_dueDate : option string;
  q_assignedTo : option string;
  q_search : option string;
  q_sortBy : option string;
  q_sortOrder : option string;
  q_page : option string;
  q_limit : option string;
}.

Record Request := mkRequest {
  user_id : string;
  user_role : string;
  (** [validationResult(req).isEmpty()] *)
  req_valid : bool;
  params_id : string;
  params_filename : string;
  query : QueryString;
  body : Body;
  (** [req.files]; an absent array behaves as the empty one in every use *)
  files : list File;
}.

Inductive ResponseBody :=
| Message (m : string)
| TaskJson (t : Task)
| TasksJson (l : list Task)
| Download (location : string) (name : string).

Record Response := mkResponse {
  statusCode : Z;
  payload : ResponseBody;
}.

Definition json_message (code : Z) (m : string) : Response :=
  mkResponse code (Message m).

(** ** The world and the effect monad *)

Record World := mkWorld {
  tasks : list Task;
  users : gset string;
  disk : gset string;
  next_oid : nat;
  now : Z;
}.

Definition set_tasks (l : list Task) (w : World) : World :=
  mkWorld l (users w) (disk w) (next_oid w) (now w).
Definition set_disk (d : gset string) (w : World) : World :=
  mkWorld (tasks w) (users w) d (next_oid w) (now w).
Definition set_next_oid (n : nat) (w : World) : World :=
  mkWorld (tasks w) (users w) (disk w) n (now w).
Definition set_users (u : gset string) (w : World) : World :=
  mkWorld (tasks w) u (disk w) (next_oid w) (now w).

Inductive Exn :=
| ENOENT
| SyntaxError
| TypeError
| ValidationError
| CastError (kind : string)
| MongoError
| HttpError (code : Z) (message : string).

Inductive Outcome (A : Type) :=
| Val (a : A)
| Thrown (e : Exn).
Arguments Val {A} a.
Arguments Thrown {A} e.

Definition M (A : Type) : Type := World → Outcome A * World.

Definition bind {A B} (m : M A) (k : A → M B) : M B := λ w,
  match m w with
  | (Val a, w') => k a w'
  | (Thrown e, w') => (Thrown e, w')
  end.

#[global] Instance M_ret : MRet M := λ A a w, (Val a, w).
#[global] Instance M_bind : MBind M := λ A B k m, bind m k.

Notation "'let!' x ':=' m 'in' k" := (bind m (λ x, k))
  (at level 10, x name, m at level 100, k at level 200, only parsing).

Definition throw {A} (e : Exn) : M A := λ w, (Thrown e, w).

Definition try_catch {A} (m : M A) (handler : Exn → M A) : M A := λ w,
  match m w with
  | (Val a, w') => (Val a, w')
  | (Thrown e, w') => handler e w'
  end.

Definition lift {A} (o : Outcome A) : M A := λ w, (o, w).

(** [l.forEach(f)]: stops at the first exception, keeping the effects of
    the calls already made. *)
Fixpoint forEach {A} (l : list A) (f : A → M unit) : M unit :=
  match l with
  | [] => mret tt
  | x :: r => f x ;; forEach r f
  end.

(** ** File system *)

Definition fs_existsSync (p : string) : M bool := λ w,
  (Val (bool_decide (p ∈ disk w)), w).

Definition fs_unlinkSync (p : string) : M unit := λ w,
  if bool_decide (p ∈ disk w)
  then (Val tt, set_disk (disk w ∖ {[p]}) w)
  else (Thrown ENOENT, w).

(** [req.files.forEach(file => fs.unlinkSync(file.path))] *)
Definition discard_uploads (fs : list File) : M unit :=
  forEach fs (λ f, fs_unlinkSync (file_path f)).

(** [if (fs.existsSync(doc.path)) fs.unlinkSync(doc.path)] over documents *)
Definition remove_stored (docs : list Document) : M unit :=
  forEach docs (λ d,
    let! e := fs_existsSync (path d) in
    if e then fs_unlinkSync (path d) else mret tt).

(** ** Node's [path] module (POSIX) *)

Module node_path.

Fixpoint split_slash (s : string) : list string :=
  match s with
  | EmptyString => [""]
  | String a r =>
      if Ascii.eqb a "/" then "" :: split_slash r
      else match split_slash r with
           | h :: t => String a h :: t
           | [] => [String a ""]
           end
  end.

Fixpoint join_slash (l : list string) : string :=
  match l with
  | [] => ""
  | [x] => x
  | x :: r => x ++ "/" ++ join_slash r
  end.

(** [normalizeString]: [acc] holds the segments kept so far, last first. *)
Fixpoint normalize_segments (allowAboveRoot : bool) (segs acc : list string)
  : list string :=
  match segs with
  | [] => rev acc
  | seg :: r =>
      if bool_decide (seg = "") || bool_decide (seg = ".") then
        normalize_segments allowAboveRoot r acc
      else if bool_decide (seg = "..") then
        match acc with
        | top :: acc' =>
            if bool_decide (top = "..")
            then normalize_segments allowAboveRoot r (".." :: acc)
            else normalize_segments allowAboveRoot r acc'
        | [] =>
            if allowAboveRoot
            then normalize_segments allowAboveRoot r [".."]
            else normalize_segments allowAboveRoot r []
        end
      else normalize_segments allowAboveRoot r (seg :: acc)
  end.

Definition ends_with_slash (s : string) : bool :=
  match rev (list_ascii_of_string s) with
  | c :: _ => Ascii.eqb c "/"
  | [] => false
  end.

Definition normalize (p : string) : string :=
  if bool_decide (p = "") then "."
  else
    let isAbsolute := String.prefix "/" p in
    let trailingSeparator := ends_with_slash p in
    let body :=
      join_slash (normalize_segments (negb isAbsolute) (split_slash p) []) in
    if bool_decide (body = "") then
      if isAbsolute then "/" else if trailingSeparator then "./" else "."
    else
      let body := if trailingSeparator then body ++ "/" else body in
      if isAbsolute then "/" ++ body else body.

(** [path.join(...args)] *)
Definition join (args : list string) : string :=
  match List.filter (λ a, negb (bool_decide (a = ""))) args with
  | [] => "."
  | parts => normalize (join_slash parts)
  end.

(** [s.startsWith(p)] *)
Definition startsWith (s p : string) : bool := String.prefix p s.

End node_path.

Section Backend.

Context `{RT : Runtime}.

(** ** Mongoose: documents, casting and validation *)

(** Subdocument casting: a plain object receives a freshly minted [_id]. *)
Fixpoint cast_documents (n : nat) (l : list DocSpec) : list Document * nat :=
  match l with
  | [] => ([], n)
  | Existing d :: r =>
      let '(ds, n') := cast_documents n r in (d :: ds, n')
  | Fresh name location mime :: r =>
      let '(ds, n') := cast_documents (S n) r in
      (mkDocument (ObjectId n) name location mime :: ds, n')
  end.

Definition cast_subdocuments (l : list DocSpec) : M (list Document) := λ w,
  let '(ds, n) := cast_documents (next_oid w) l in
  (Val ds, set_next_oid n w).

(** The [required] validator of a string path. *)
Definition required (s : string) : bool := negb (bool_decide (s = "")).

(** The three paths of a subdocument of [attachedDocuments] are required. *)
Definition valid_document (d : Document) : bool :=
  required (filename d) && required (path d) && required (mimetype d).

(** The validators of TaskSchema (models/Task.js), on a document whose
    paths have been set: [title] and [description] are required and at
    most 100 and 1000 long, [status] and [priority] range over their
    enumerations, the two user references are required, and every
    attached document has its three paths. The required [dueDate] and the
    two references are checked where a string is cast to them
    ([cast_date], [cast_reference]). *)
Definition validateSync (t : Task) : bool :=
  required (title t)
  && bool_decide (utf16_length (title t) ≤ 100)%nat
  && required (description t)
  && bool_decide (utf16_length (description t) ≤ 1000)%nat
  && bool_decide (status t ∈ constants.TASK_STATUSES)
  && bool_decide (priority t ∈ constants.TASK_PRIORITIES)
  && required (assignedTo t)
  && required (createdBy t)
  && forallb valid_document (attachedDocuments t).

(** Casting a string to a Date path, as Mongoose does: the empty string is
    cast to [null]; a numeric string whose number is at least 275761 or
    below -271820 is read as milliseconds, any other string goes through
    [new Date(s)]. [None] is [null] or a failed cast; on the required
    [dueDate] both fail validation. *)
Definition cast_date (v : option string) : option Z :=
  match v with
  | Some s =>
      if bool_decide (s = "") then None
      else match Number s with
           | NaN => new_Date s
           | Infinity _ => None
           | Finite q =>
               if Qle_bool (inject_Z 275761) q
                  || negb (Qle_bool (inject_Z (-271820)) q)
               then Date_of_number q
               else new_Date s
           end
  | None => None
  end.

(** Casting a string to an ObjectId path; [None] is an absent value or a
    failed cast, and fails validation on a required path either way. *)
Definition cast_reference (v : option string) : option string :=
  match v with
  | Some s => if isValidObjectId s then Some s else None
  | None => None
  end.

Record TaskInit := mkTaskInit {
  i_title : option string;
  i_description : option string;
  i_status : option string;
  i_priority : option string;
  i_dueDate : option string;
  i_assignedTo : option string;
  i_createdBy : option string;
  i_attachedDocuments : list DocSpec;
}.

(** [new Task(init)] followed by [save()], with the schema of
    models/Task.js: [title] and [description] are trimmed when they are
    set, [status] defaults to To Do and [priority] to Low, [createdAt]
    defaults to the current time and the [save] hook stamps [updatedAt].
    Identifiers are minted at construction, validation runs at [save], and
    only a valid document is inserted. *)
Definition Task_create (i : TaskInit) : M Task := λ w,
  let tid := ObjectId (next_oid w) in
  let '(docs, n) := cast_documents (S (next_oid w)) (i_attachedDocuments i) in
  let w1 := set_next_oid n w in
  match cast_date (i_dueDate i),
        cast_reference (i_assignedTo i), cast_reference (i_createdBy i) with
  | Some due, Some assignee, Some creator =>
      let t := mkTask tid
                 (trim (default "" (i_title i)))
                 (trim (default "" (i_description i)))
                 (default "To Do" (i_status i))
                 (default "Low" (i_priority i))
                 due assignee creator
                 docs (now w) (now w) in
      if validateSync t
      then (Val t, set_tasks (tasks w1 ++ [t])%list w1)
      else (Thrown ValidationError, w1)
  | _, _, _ => (Thrown ValidationError, w1)
  end.

Fixpoint replace_task (t : Task) (l : list Task) : list Task :=
  match l with
  | [] => []
  | x :: r =>
      if bool_decide (_id x = _id t) then t :: r else x :: replace_task t r
  end.

(** The [updatedAt] timestamp written by the [save] hook of the schema. *)
Definition touch (stamp : Z) (t : Task) : Task :=
  mkTask (_id t) (title t) (description t) (status t) (priority t)
    (dueDate t) (assignedTo t) (createdBy t) (attachedDocuments t)
    (createdAt t) stamp.

(** [task.save()] on a document that was loaded from the collection. *)
Definition Task_save (t : Task) : M Task := λ w,
  if validateSync t
  then (Val (touch (now w) t),
        set_tasks (replace_task (touch (now w) t) (tasks w)) w)
  else (Thrown ValidationError, w).

Definition find_task (id : string) (w : World) : option Task :=
  List.find (λ t, bool_decide (_id t = id)) (tasks w).

Definition Task_findById (id : string) : M (option Task) := λ w,
  (Val (find_task id w), w).

(** The account an identifier resolves to: the identifier casts to an
    ObjectId and an account has it. *)
Definition find_user (id : option string) (w : World) : option string :=
  match id with
  | Some u =>
      if isValidObjectId u && bool_decide (u ∈ users w) then Some u else None
  | None => None
  end.

(** [User.findById(id)]: an absent [id] finds nothing, a string that does
    not cast to an ObjectId is rejected with a CastError. *)
Definition User_findById (id : option string) : M (option string) := λ w,
  match id with
  | Some u =>
      if isValidObjectId u then (Val (find_user id w), w)
      else (Thrown (CastError "ObjectId"), w)
  | None => (Val None, w)
  end.

(** What [populate] puts in place of a user reference, as the access check
    of getTaskById reads it through [toString()]: the text of the user
    document, or [None] for the [null] of a reference to no account. *)
Definition populated (id : string) (w : World) : option string :=
  if bool_decide (id ∈ users w) then Some (inspect_user id) else None.

(** [Task.findById(id).populate('assignedTo', ..).populate('createdBy', ..)]:
    the task with its populated assignee and creator. *)
Definition Task_findById_populated (id : string)
  : M (option (Task * option string * option string)) := λ w,
  (Val ((λ t, (t, populated (assignedTo t) w, populated (createdBy t) w))
          <$> List.find (λ t, bool_decide (_id t = id)) (tasks w)), w).

(** [await doc.populate(..).populate(..)] on a saved document. Where the
    first call returns the document the chain only registers the two
    paths; where it returns a promise the second call is a TypeError. *)
Definition populate_chain : M unit := λ w,
  if populate_chains then (Val tt, w) else (Thrown TypeError, w).

Fixpoint remove_first (id : string) (l : list Task) : list Task :=
  match l with
  | [] => []
  | x :: r => if bool_decide (_id x = id) then r else x :: remove_first id r
  end.

(** [Task.deleteOne({ _id: id })] *)
Definition Task_deleteOne (id : string) : M unit := λ w,
  (Val tt, set_tasks (remove_first id (tasks w)) w).

Definition has_filename (name : string) (t : Task) : bool :=
  existsb (λ d, bool_decide (filename d = name)) (attachedDocuments t).

Definition find_by_filename (name : string) (w : World) : option Task :=
  List.find (has_filename name) (tasks w).

(** [Task.findOne({ 'attachedDocuments.filename': name })] *)
Definition Task_findOne_by_filename (name : string) : M (option Task) := λ w,
  (Val (find_by_filename name w), w).

(** ** Mongoose: queries *)

Inductive Clause :=
| TitleRegex (pattern : string)
| DescriptionRegex (pattern : string)
| CreatedByIs (id : string)
| AssignedToIs (id : string).

(** The query objects the handlers build. [m_dueDate] is the operand of
    [$lte]; [Some None] is an Invalid Date. [m_or] is the [$or] array. *)
Record MongoQuery := mkMongoQuery {
  m_status : option string;
  m_priority : option string;
  m_dueDate : option (option Z);
  m_assignedTo : option string;
  m_or : option (list Clause);
}.

Definition clause_holds (t : Task) (c : Clause) : bool :=
  match c with
  | TitleRegex p => regex_i p (title t)
  | DescriptionRegex p => regex_i p (description t)
  | CreatedByIs id => bool_decide (createdBy t = id)
  | AssignedToIs id => bool_decide (assignedTo t = id)
  end.

(** Top-level fields of a query are conjoined; [$or] holds when one of its
    clauses does. *)
Definition matches (q : MongoQuery) (t : Task) : bool :=
  from_option (λ s, bool_decide (status t = s)) true (m_status q)
  && from_option (λ s, bool_decide (priority t = s)) true (m_priority q)
  && match m_dueDate q with
     | Some (Some d) => dueDate t <=? d
     | Some None => false
     | None => true
     end
  && from_option (λ s, bool_decide (assignedTo t = s)) true (m_assignedTo q)
  && from_option (existsb (clause_holds t)) true (m_or q).

Definition field_leb (field : string) (a b : Task) : bool :=
  if bool_decide (field = "dueDate") then dueDate a <=? dueDate b
  else if bool_decide (field = "priority") then String.leb (priority a) (priority b)
  else if bool_decide (field = "status") then String.leb (status a) (status b)
  else if bool_decide (field = "title") then String.leb (title a) (title b)
  else createdAt a <=? createdAt b.

Fixpoint insert_by (le : Task → Task → bool) (t : Task) (l : list Task)
  : list Task :=
  match l with
  | [] => [t]
  | x :: r => if le t x then t :: l else x :: insert_by le t r
  end.

(** [.sort({ [field]: 1 })] when [ascending], [-1] otherwise. *)
Definition sort_by (field : string) (ascending : bool) (l : list Task)
  : list Task :=
  foldr (insert_by (λ a b, if ascending then field_leb field a b
                           else field_leb field b a)) [] l.

(** [.limit(n)]: zero is no limit, a negative limit counts as its absolute
    value. *)
Definition limit_to (n : Z) (l : list Task) : list Task :=
  if n =? 0 then l else take (Z.abs_nat n) l.

Definition clause_casts (c : Clause) : bool :=
  match c with
  | CreatedByIs id | AssignedToIs id => isValidObjectId id
  | TitleRegex _ | DescriptionRegex _ => true
  end.

Definition clause_compiles (c : Clause) : bool :=
  match c with
  | TitleRegex p | DescriptionRegex p => regex_valid p
  | CreatedByIs _ | AssignedToIs _ => true
  end.

(** Every string of the query that stands for an ObjectId casts to one. *)
Definition query_casts (q : MongoQuery) : bool :=
  from_option isValidObjectId true (m_assignedTo q)
  && forallb clause_casts (default [] (m_or q)).

(** The server compiles every regular expression of the query. *)
Definition query_compiles (q : MongoQuery) : bool :=
  forallb clause_compiles (default [] (m_or q)).

(** [Task.find(q).sort(...).skip(skip).limit(limit)]; an Invalid Date or a
    string that is no ObjectId in the query, a NaN [skip] or [limit] are
    rejected by Mongoose, a negative [skip] and a regular expression that
    does not compile by the server. *)
Definition Task_find (q : MongoQuery) (field : string) (ascending : bool)
    (skip limit : option Z) : M (list Task) := λ w,
  match m_dueDate q, skip, limit with
  | Some None, _, _ => (Thrown (CastError "date"), w)
  | _, Some s, Some n =>
      if negb (query_casts q) then (Thrown (CastError "ObjectId"), w)
      else if (s <? 0) || negb (query_compiles q) then (Thrown MongoError, w)
      else (Val (limit_to n (drop (Z.to_nat s)
                   (sort_by field ascending (List.filter (matches q) (tasks w))))), w)
  | _, _, _ => (Thrown (CastError "number"), w)
  end.

Definition keep_truthy (v : option string) : option string :=
  if truthy v then v else None.

(** The query of [getTasks], built the same way by the controller
    (taskController.js, lines 291-325) and by the service (taskService.js,
    lines 57-78). *)
Definition list_query (q : QueryString) (userId userRole : string)
  : MongoQuery :=
  let status := keep_truthy (q_status q) in
  let priority := keep_truthy (q_priority q) in
  let dueDate :=
    if truthy (q_dueDate q) then Some (new_Date (or_else (q_dueDate q) ""))
    else None in
  let assignedTo := keep_truthy (q_assignedTo q) in
  let or_search :=
    if truthy (q_search q)
    then Some [TitleRegex (or_else (q_search q) "");
               DescriptionRegex (or_else (q_search q) "")]
    else None in
  if negb (bool_decide (userRole = constants.ADMIN)) then
    mkMongoQuery status priority dueDate assignedTo
      (Some (default [] or_search ++ [CreatedByIs userId; AssignedToIs userId])%list)
  else
    mkMongoQuery status priority dueDate assignedTo or_search.

(** [sort[sortBy] = sortOrder === 'asc' ? 1 : -1], or the default sort. *)
Definition sort_options (sortBy sortOrder : string) : string * bool :=
  if bool_decide (sortBy ∈ ["createdAt"; "dueDate"; "priority"; "status"; "title"])
  then (sortBy, bool_decide (sortOrder = "asc"))
  else ("createdAt", false).

(** [(parseInt(page) - 1) * parseInt(limit)] with NaN propagated. *)
Definition skip_of (page limit : option Z) : option Z :=
  match page, limit with
  | Some p, Some n => Some ((p - 1) * n)
  | _, _ => None
  end.

(** A query parameter with a numeric default, then [parseInt]. *)
Definition parse_number (v : option string) (d : Z) : option Z :=
  match v with
  | Some s => parseInt s
  | None => Some d
  end.

End Backend.

(** ** backend/controllers/taskController.js *)

Module taskController.
Section Handlers.

Context `{RT : Runtime}.

Definition max_documents_message : string := "Maximum 3 documents allowed.".

Definition createTask (req : Request) : M Response :=
  if negb (req_valid req) then
    discard_uploads (files req) ;;
    mret (json_message 400 "Validation failed")
  else
    let b := body req in
    let createdBy := Some (user_id req) in
    if bool_decide (0 < List.length (files req))%nat
       && bool_decide (constants.MAX_DOCUMENTS_PER_TASK < List.length (files req))%nat
    then
      discard_uploads (files req) ;;
      mret (json_message 400 max_documents_message)
    else
      let attachedDocuments := map fresh_of_file (files req) in
      try_catch
        (let! assignee := User_findById (b_assignedTo b) in
         match assignee with
         | None =>
             discard_uploads (files req) ;;
             mret (json_message 400 "Assigned user not found.")
         | Some _ =>
             let! task :=
               Task_create (mkTaskInit (b_title b) (b_description b)
                              (b_status b) (b_priority b) (b_dueDate b)
                              (b_assignedTo b) createdBy attachedDocuments) in
             populate_chain ;;
             mret (mkResponse 201 (TaskJson task))
         end)
        (λ err,
           discard_uploads (files req) ;;
           mret (json_message 500 "Server error during task creation.")).

Definition getTasks (req : Request) : M Response :=
  try_catch
    (let q := query req in
     let sortBy := default "createdAt" (q_sortBy q) in
     let sortOrder := default "desc" (q_sortOrder q) in
     let page := parse_number (q_page q) 1 in
     let limit := parse_number (q_limit q) 10 in
     let mq := list_query q (user_id req) (user_role req) in
     let '(field, ascending) := sort_options sortBy sortOrder in
     let skip := skip_of page limit in
     let! found := Task_find mq field ascending skip limit in
     mret (mkResponse 200 (TasksJson found)))
    (λ err, mret (json_message 500 "Server error fetching tasks.")).

Definition is_ObjectId_error (err : Exn) : bool :=
  match err with
  | CastError kind => bool_decide (kind = "ObjectId")
  | _ => false
  end.

(** [role !== ADMIN && creator.toString() !== id && assignee.toString() !==
    id] on populated references: [toString()] of [null] is a TypeError,
    and the operands are read from left to right as far as needed. *)
Definition view_denied (role uid : string) (creator assignee : option string)
  : M bool :=
  if negb (bool_decide (role = constants.ADMIN)) then
    match creator with
    | None => throw TypeError
    | Some c =>
        if negb (bool_decide (c = uid)) then
          match assignee with
          | None => throw TypeError
          | Some a => mret (negb (bool_decide (a = uid)))
          end
        else mret false
    end
  else mret false.

(** The task of the answer is shown with the identifiers of its two users;
    the response carries the populated documents in their place. *)
Definition getTaskById (req : Request) : M Response :=
  try_catch
    (let! found := Task_findById_populated (params_id req) in
     match found with
     | None => mret (json_message 404 "Task not found.")
     | Some (task, assignee, creator) =>
         let! denied :=
           view_denied (user_role req) (user_id req) creator assignee in
         if denied
         then mret (json_message 403 "Not authorized to view this task.")
         else mret (mkResponse 200 (TaskJson task))
     end)
    (λ err,
       if is_ObjectId_error err then mret (json_message 404 "Task not found.")
       else mret (json_message 500 "Server error fetching task.")).

(** [v || d] assigned to a path with [trim: true]. A value [d] read from
    the stored document went through the same setter when it was written
    and is taken over as it is. *)
Definition or_else_trimmed (v : option string) (d : string) : string :=
  match v with
  | Some s => if bool_decide (s = "") then d else trim s
  | None => d
  end.

(** The assignments of [updateTask] to the loaded task (lines 592-598):
    each field keeps its stored value when the request value is falsy;
    [createdBy], [_id] and the timestamps are not assigned. [due] and
    [docs] are [dueDate] and [attachedDocuments] after casting. An
    [assignedTo] that is assigned has been cast by the lookup that
    precedes the assignments. *)
Definition assign_fields (b : Body) (task : Task) (due : Z)
    (docs : list Document) : Task :=
  mkTask (_id task)
    (or_else_trimmed (b_title b) (title task))
    (or_else_trimmed (b_description b) (description task))
    (or_else (b_status b) (status task))
    (or_else (b_priority b) (priority task))
    due
    (or_else (b_assignedTo b) (assignedTo task))
    (createdBy task)
    docs (createdAt task) (updatedAt task).

(** [JSON.parse] mapped over the entries received. *)
Fixpoint parse_entries (l : list (option JsonValue)) : Outcome (list JsonValue) :=
  match l with
  | [] => Val []
  | None :: _ => Thrown SyntaxError
  | Some v :: r =>
      match parse_entries r with
      | Val vs => Val (v :: vs)
      | Thrown e => Thrown e
      end
  end.

(** [parsed.some(parsedDoc => parsedDoc._id === id)] *)
Fixpoint some_has_id (parsed : list JsonValue) (id : string) : Outcome bool :=
  match parsed with
  | [] => Val false
  | JNull :: _ => Thrown TypeError
  | JValue v :: r =>
      if bool_decide (v = Some id) then Val true else some_has_id r id
  end.

(** [docs.filter(doc => keep === parsed.some(...))] *)
Fixpoint filter_by_id (keep : bool) (parsed : list JsonValue)
    (docs : list Document) : Outcome (list Document) :=
  match docs with
  | [] => Val []
  | d :: r =>
      match some_has_id parsed (doc_id d) with
      | Thrown e => Thrown e
      | Val b =>
          match filter_by_id keep parsed r with
          | Thrown e => Thrown e
          | Val ds => Val (if bool_decide (b = keep) then d :: ds else ds)
          end
      end
  end.

(** The document handling of [updateTask] up to [docsToRetain]. *)
Definition retain_documents (current : list Document)
    (existingAttachedDocuments : option (list (option JsonValue)))
  : M (list Document) :=
  match existingAttachedDocuments with
  | Some entries =>
      let! parsedExistingDocs := lift (parse_entries entries) in
      let! documentsToRemove :=
        lift (filter_by_id false parsedExistingDocs current) in
      remove_stored documentsToRemove ;;
      lift (filter_by_id true parsedExistingDocs current)
  | None =>
      remove_stored current ;;
      mret []
  end.

Definition updateTask (req : Request) : M Response :=
  if negb (req_valid req) then
    discard_uploads (files req) ;;
    mret (json_message 400 "Validation failed")
  else
    let b := body req in
    try_catch
      (let! found := Task_findById (params_id req) in
       match found with
       | None =>
           discard_uploads (files req) ;;
           mret (json_message 404 "Task not found.")
       | Some task =>
           if negb (bool_decide (user_role req = constants.ADMIN))
              && negb (bool_decide (createdBy task = user_id req))
           then
             discard_uploads (files req) ;;
             mret (json_message 403 "Not authorized to update this task.")
           else
             let! assignee_missing :=
               (if truthy (b_assignedTo b) then
                  let! assignee := User_findById (b_assignedTo b) in
                  mret (negb (bool_decide (is_Some assignee)))
                else mret false) in
             match assignee_missing with
             | true =>
                 discard_uploads (files req) ;;
                 mret (json_message 400 "Assigned user not found.")
             | false =>
                 let currentTaskDocuments := attachedDocuments task in
                 let! docsToRetain :=
                   retain_documents currentTaskDocuments
                     (b_existingAttachedDocuments b) in
                 let newAttachedDocuments := map fresh_of_file (files req) in
                 let combinedDocuments :=
                   (map Existing docsToRetain ++ newAttachedDocuments)%list in
                 if bool_decide (constants.MAX_DOCUMENTS_PER_TASK
                                 < List.length combinedDocuments)%nat
                 then
                   discard_uploads (files req) ;;
                   mret (json_message 400 max_documents_message)
                 else
                   let due :=
                     if truthy (b_dueDate b) then cast_date (b_dueDate b)
                     else Some (dueDate task) in
                   let! docs := cast_subdocuments combinedDocuments in
                   match due with
                   | None => throw ValidationError
                   | Some due =>
                       let! updatedTask :=
                         Task_save (assign_fields b task due docs) in
                       populate_chain ;;
                       mret (mkResponse 200 (TaskJson updatedTask))
                   end
             end
       end)
      (λ err,
         discard_uploads (files req) ;;
         if is_ObjectId_error err then mret (json_message 404 "Task not found.")
         else mret (json_message 500 "Server error during task update.")).

Definition deleteTask (req : Request) : M Response :=
  try_catch
    (let! found := Task_findById (params_id req) in
     match found with
     | None => mret (json_message 404 "Task not found.")
     | Some task =>
         if negb (bool_decide (user_role req = constants.ADMIN))
            && negb (bool_decide (createdBy task = user_id req))
         then mret (json_message 403 "Not authorized to delete this task.")
         else
           (if bool_decide (0 < List.length (attachedDocuments task))%nat
            then remove_stored (attachedDocuments task)
            else mret tt) ;;
           Task_deleteOne (params_id req) ;;
           mret (json_message 200 "Task deleted successfully.")
     end)
    (λ err,
       if is_ObjectId_error err then mret (json_message 404 "Task not found.")
       else mret (json_message 500 "Server error during task deletion.")).

(** [path.join(__dirname, '..', 'uploads')] *)
Definition uploads_root : string := node_path.join [dirname; ".."; "uploads"].

Definition download_path (name : string) : string :=
  node_path.join
    [ (if truthy UPLOAD_PATH then or_else UPLOAD_PATH "" else uploads_root);
      name ].

Definition downloadDocument (req : Request) : M Response :=
  let filename := params_filename req in
  let filePath := download_path filename in
  if negb (node_path.startsWith filePath uploads_root) then
    mret (json_message 400 "Invalid file path.")
  else
    try_catch
      (let! found := Task_findOne_by_filename filename in
       match found with
       | None =>
           mret (json_message 404
                   "Document not found or not associated with any task.")
       | Some task =>
           if negb (bool_decide (user_role req = constants.ADMIN))
              && negb (bool_decide (createdBy task = user_id req))
              && negb (bool_decide (assignedTo task = user_id req))
           then
             mret (json_message 403 "Not authorized to download this document.")
           else
             let! present := fs_existsSync filePath in
             if present then mret (mkResponse 200 (Download filePath filename))
             else mret (json_message 404 "File not found on server.")
       end)
      (λ err, mret (json_message 500 "Server error during document download.")).

End Handlers.
End taskController.

(** ** backend/services/taskService.js *)

Module taskService.
Section Service.

Context `{RT : Runtime}.

(** [filters], [sortOptions] and [paginationOptions] are read from one
    record; no default applies to an absent option here. *)
Definition getTasks (filters : QueryString) (userId userRole : string)
  : M (list Task) :=
  let '(field, ascending) :=
    sort_options (default "" (q_sortBy filters))
                 (default "" (q_sortOrder filters)) in
  let page := from_option parseInt None (q_page filters) in
  let limit := from_option parseInt None (q_limit filters) in
  Task_find (list_query filters userId userRole) field ascending
            (skip_of page limit) limit.

(** A loaded document being assigned to, path by path. A value that cannot
    be cast to its path is remembered and fails validation at [save]. *)
Record Draft := mkDraft {
  draft : Task;
  cast_failed : bool;
}.

Definition with_title (v : string) (t : Task) : Task :=
  mkTask (_id t) v (description t) (status t) (priority t) (dueDate t)
    (assignedTo t) (createdBy t) (attachedDocuments t) (createdAt t) (updatedAt t).
Definition with_description (v : string) (t : Task) : Task :=
  mkTask (_id t) (title t) v (status t) (priority t) (dueDate t)
    (assignedTo t) (createdBy t) (attachedDocuments t) (createdAt t) (updatedAt t).
Definition with_status (v : string) (t : Task) : Task :=
  mkTask (_id t) (title t) (description t) v (priority t) (dueDate t)
    (assignedTo t) (createdBy t) (attachedDocuments t) (createdAt t) (updatedAt t).
Definition with_priority (v : string) (t : Task) : Task :=
  mkTask (_id t) (title t) (description t) (status t) v (dueDate t)
    (assignedTo t) (createdBy t) (attachedDocuments t) (createdAt t) (updatedAt t).
Definition with_dueDate (v : Z) (t : Task) : Task :=
  mkTask (_id t) (title t) (description t) (status t) (priority t) v
    (assignedTo t) (createdBy t) (attachedDocuments t) (createdAt t) (updatedAt t).
Definition with_assignedTo (v : string) (t : Task) : Task :=
  mkTask (_id t) (title t) (description t) (status t) (priority t) (dueDate t)
    v (createdBy t) (attachedDocuments t) (createdAt t) (updatedAt t).
Definition with_createdBy (v : string) (t : Task) : Task :=
  mkTask (_id t) (title t) (description t) (status t) (priority t) (dueDate t)
    (assignedTo t) v (attachedDocuments t) (createdAt t) (updatedAt t).
Definition with_createdAt (v : Z) (t : Task) : Task :=
  mkTask (_id t) (title t) (description t) (status t) (priority t) (dueDate t)
    (assignedTo t) (createdBy t) (attachedDocuments t) v (updatedAt t).
Definition with_attachedDocuments (v : list Document) (t : Task) : Task :=
  mkTask (_id t) (title t) (description t) (status t) (priority t) (dueDate t)
    (assignedTo t) (createdBy t) v (createdAt t) (updatedAt t).

(** [task[key] = value] inside the loop over [Object.keys(updateData)],
    with the guard of the source on the two document keys. Every path of
    TaskSchema is assignable (models/Task.js declares none immutable):
    [title] and [description] are trimmed, a date path takes the cast
    value, and a value that does not cast is remembered. [assignedTo]
    receives a string that the lookup before the loop has cast, the text
    of the stored reference, or the empty string, which the [required]
    validator rejects. The [save] hook overwrites [updatedAt], so only a
    value that does not cast leaves a trace there. An empty string on
    [createdAt], which is cast to [null], has no place in [Task] and is
    recorded like a value that does not cast. Keys that name no path of
    TaskSchema are dropped; [updateData] is taken without the keys [_id]
    and [__v], which every schema has. *)
Definition assign_key (key value : string) (d : Draft) : Draft :=
  if bool_decide (key ≠ "attachedDocuments")
     && bool_decide (key ≠ "existingAttachedDocuments") then
    if bool_decide (key = "title") then
      mkDraft (with_title (trim value) (draft d)) (cast_failed d)
    else if bool_decide (key = "description") then
      mkDraft (with_description (trim value) (draft d)) (cast_failed d)
    else if bool_decide (key = "status") then
      mkDraft (with_status value (draft d)) (cast_failed d)
    else if bool_decide (key = "priority") then
      mkDraft (with_priority value (draft d)) (cast_failed d)
    else if bool_decide (key = "dueDate") then
      match cast_date (Some value) with
      | Some due => mkDraft (with_dueDate due (draft d)) (cast_failed d)
      | None => mkDraft (draft d) true
      end
    else if bool_decide (key = "assignedTo") then
      mkDraft (with_assignedTo value (draft d)) (cast_failed d)
    else if bool_decide (key = "createdBy") then
      match cast_reference (Some value) with
      | Some creator => mkDraft (with_createdBy creator (draft d)) (cast_failed d)
      | None => mkDraft (draft d) true
      end
    else if bool_decide (key = "createdAt") then
      match cast_date (Some value) with
      | Some at_ => mkDraft (with_createdAt at_ (draft d)) (cast_failed d)
      | None => mkDraft (draft d) true
      end
    else if bool_decide (key = "updatedAt") then
      match cast_date (Some value) with
      | Some _ => d
      | None => if bool_decide (value = "") then d else mkDraft (draft d) true
      end
    else d
  else d.

(** [updateData] is a JavaScript object with string values. *)
Definition updateTask (taskId : string) (updateData : gmap string string)
    (newFiles : list File) (existingDocsToRetain : list JsonValue)
    (userId userRole : string) : M Task :=
  let! found := Task_findById taskId in
  match found with
  | None => throw (HttpError 404 "Task not found.")
  | Some task =>
      if negb (bool_decide (userRole = constants.ADMIN))
         && negb (bool_decide (createdBy task = userId))
      then throw (HttpError 403 "Not authorized to update this task.")
      else
        (if truthy (updateData !! "assignedTo")
            && negb (bool_decide (updateData !! "assignedTo" = Some (assignedTo task)))
         then
           let! assignee := User_findById (updateData !! "assignedTo") in
           match assignee with
           | None => throw (HttpError 400 "Assigned user not found.")
           | Some _ => mret tt
           end
         else mret tt) ;;
        let! oldDocumentsToCleanUp :=
          lift (taskController.filter_by_id false existingDocsToRetain
                  (attachedDocuments task)) in
        remove_stored oldDocumentsToCleanUp ;;
        let! retained :=
          lift (taskController.filter_by_id true existingDocsToRetain
                  (attachedDocuments task)) in
        let combinedDocuments :=
          (map Existing retained ++ map fresh_of_file newFiles)%list in
        if bool_decide (constants.MAX_DOCUMENTS_PER_TASK
                        < List.length combinedDocuments)%nat
        then throw (HttpError 400 taskController.max_documents_message)
        else
          let d := map_fold assign_key (mkDraft task false) updateData in
          let! docs := cast_subdocuments combinedDocuments in
          if cast_failed d then throw ValidationError
          else
            let! updatedTask :=
              Task_save (with_attachedDocuments docs (draft d)) in
            populate_chain ;;
            mret updatedTask
  end.

Definition getDocumentPath (filename userId userRole : string) : M string :=
  let filePath := node_path.join [dirname; ".."; "uploads"; filename] in
  if negb (node_path.startsWith filePath (node_path.join [dirname; ".."; "uploads"]))
  then throw (HttpError 400 "Invalid file path.")
  else
    let! found := Task_findOne_by_filename filename in
    match found with
    | None =>
        throw (HttpError 404 "Document not found or not associated with any task.")
    | Some task =>
        if negb (bool_decide (userRole = constants.ADMIN))
           && negb (bool_decide (createdBy task = userId))
           && negb (bool_decide (assignedTo task = userId))
        then throw (HttpError 403 "Not authorized to download this document.")
        else
          let! present := fs_existsSync filePath in
          if present then mret filePath
          else throw (HttpError 404 "File not found on server.")
    end.

(** [taskData] carries the fields of the task, [createdBy] included; no
    lookup and no count is made before the document is saved. *)
Definition createTask (taskData : Body) (uploadedFiles : list File) : M Task :=
  let attachedDocuments := map fresh_of_file uploadedFiles in
  let! savedTask :=
    Task_create (mkTaskInit (b_title taskData) (b_description taskData)
                   (b_status taskData) (b_priority taskData)
                   (b_dueDate taskData) (b_assignedTo taskData)
                   (b_createdBy taskData) attachedDocuments) in
  populate_chain ;;
  mret savedTask.

Definition getTaskById (taskId userId userRole : string) : M Task :=
  let! found := Task_findById_populated taskId in
  match found with
  | None => throw (HttpError 404 "Task not found.")
  | Some (task, assignee, creator) =>
      let! denied :=
        taskController.view_denied userRole userId creator assignee in
      if denied
      then throw (HttpError 403 "Not authorized to view this task.")
      else mret task
  end.

Definition deleteTask (taskId userId userRole : string) : M string :=
  let! found := Task_findById taskId in
  match found with
  | None => throw (HttpError 404 "Task not found.")
  | Some task =>
      if negb (bool_decide (userRole = constants.ADMIN))
         && negb (bool_decide (createdBy task = userId))
      then throw (HttpError 403 "Not authorized to delete this task.")
      else
        (if bool_decide (0 < List.length (attachedDocuments task))%nat
         then remove_stored (attachedDocuments task)
         else mret tt) ;;
        Task_deleteOne taskId ;;
        mret "Task deleted successfully."
  end.

End Service.
End taskService.

(** ** backend/middleware/uploadMiddleware.js *)

Module uploadMiddleware.

(** [fileFilter]: whether Multer keeps the file. *)
Definition fileFilter (file : File) : bool :=
  bool_decide (file_mimetype file ∈ constants.ALLOWED_DOCUMENT_MIMETYPES).

End uploadMiddleware.

(** ** backend/middleware/roleMiddleware.js *)

Module roleMiddleware.

(** [authorizeRoles(roles)] applied to a request: the response it sends, or
    [None] when it calls [next()]. The request carries the user that the
    authentication middleware attached; an empty role is falsy. *)
Definition authorizeRoles (roles : list string) (req : Request)
  : option Response :=
  if bool_decide (user_role req = "") then
    Some (json_message 401 "Authentication required. User role not found.")
  else if negb (bool_decide (user_role req ∈ roles)) then
    Some (json_message 403
            "Access denied. You do not have the necessary permissions.")
  else None.

End roleMiddleware.

(** ** backend/controllers/userController.js *)

Module userController.
Section Handlers.

Context `{RT : Runtime}.

(** [User.deleteOne({ _id: id })] *)
Definition User_deleteOne (id : string) : M unit := λ w,
  (Val tt, set_users (users w ∖ {[id]}) w).

Definition deleteUser (req : Request) : M Response :=
  if negb (bool_decide (user_role req = constants.ADMIN)) then
    mret (json_message 403
            "Access denied. Only administrators can delete users.")
  else if bool_decide (user_id req = params_id req) then
    mret (json_message 400 "Administrators cannot delete their own account.")
  else
    try_catch
      (let! user := User_findById (Some (params_id req)) in
       match user with
       | None => mret (json_message 404 "User not found.")
       | Some _ =>
           User_deleteOne (params_id req) ;;
           mret (json_message 200 "User deleted successfully.")
       end)
      (λ err,
         if taskController.is_ObjectId_error err
         then mret (json_message 404 "User not found.")
         else mret (json_message 500 "Server error during user deletion.")).

(** The route of userRoutes.js that puts [authorizeRoles] with the
    administrator role before the handler. *)
Definition delete_route (req : Request) : M Response :=
  match roleMiddleware.authorizeRoles [constants.ADMIN] req with
  | Some res => mret res
  | None => deleteUser req
  end.

End Handlers.
End userController.

(** ** frontend/src/redux/reducers/taskReducer.js *)

Module taskReducer.

Record State := mkState {
  s_tasks : list Task;
  selectedTask : option Task;
  loading : bool;
  error : option string;
}.

Inductive Action :=
| GET_TASKS (payload : list Task)
| GET_TASK_BY_ID (payload : Task)
| ADD_TASK (payload : Task)
| UPDATE_TASK (payload : Task)
| DELETE_TASK (payload : string)
| TASK_ERROR (payload : string)
| CLEAR_TASK_ERROR
| TASK_LOADING_START
| TASK_LOADING_END
| CLEAR_TASK_STATE
| OTHER.

Definition initialState : State := mkState [] None false None.

Definition taskReducer (state : State) (action : Action) : State :=
  match action with
  | TASK_LOADING_START =>
      mkState (s_tasks state) (selectedTask state) true None
  | TASK_LOADING_END =>
      mkState (s_tasks state) (selectedTask state) false (error state)
  | GET_TASKS payload => mkState payload (selectedTask state) false None
  | GET_TASK_BY_ID payload => mkState (s_tasks state) (Some payload) false None
  | ADD_TASK payload =>
      mkState (payload :: s_tasks state) (selectedTask state) false None
  | UPDATE_TASK payload =>
      mkState
        (map (λ task, if bool_decide (_id task = _id payload)
                      then payload else task) (s_tasks state))
        (match selectedTask state with
         | Some selected =>
             if bool_decide (_id selected = _id payload)
             then Some payload else Some selected
         | None => None
         end)
        false None
  | DELETE_TASK payload =>
      mkState
        (List.filter (λ task, negb (bool_decide (_id task = payload)))
           (s_tasks state))
        (selectedTask state) false None
  | TASK_ERROR payload =>
      mkState (s_tasks state) (selectedTask state) false (Some payload)
  | CLEAR_TASK_ERROR =>
      mkState (s_tasks state) (selectedTask state) (loading state) None
  | CLEAR_TASK_STATE => mkState [] None false None
  | OTHER => state
  end.

End taskReducer.

(** ** A concrete runtime and sample data

    Used to run the handlers on explicit requests. Dates are read in the
    form YYYY-MM-DD, [parseInt] reads an optional sign and decimal digits,
    [Number] a string of decimal digits, a pattern of letters, digits and
    spaces matches the strings that contain it (letters compared without
    case), identifiers are 24 hexadecimal digits in lower case, and a
    populated account is printed with its identifier. [runtime] is a
    process on Mongoose 6 or later, the version the comments of the
    sources name; [legacy] is the same process on Mongoose 5. *)

Module sample.

Definition digit_of (c : ascii) : option Z :=
  let n := Z.of_nat (nat_of_ascii c) in
  if (48 <=? n) && (n <=? 57) then Some (n - 48) else None.

Fixpoint digits (s : string) (acc : Z) (seen : bool) : option Z :=
  match s with
  | EmptyString => if seen then Some acc else None
  | String c r =>
      match digit_of c with
      | Some d => digits r (acc * 10 + d) true
      | None => if seen then Some acc else None
      end
  end.

Definition read_int (s : string) : option Z :=
  match s with
  | String "-" r => Z.opp <$> digits r 0 false
  | String "+" r => digits r 0 false
  | _ => digits s 0 false
  end.

Fixpoint all_digits (s : string) (acc : Z) : option Z :=
  match s with
  | EmptyString => Some acc
  | String c r =>
      match digit_of c with
      | Some d => all_digits r (acc * 10 + d)
      | None => None
      end
  end.

(** Days since 1970-01-01 of a civil date, in milliseconds. *)
Definition epoch_ms (y m d : Z) : Z :=
  let y' := if m <=? 2 then y - 1 else y in
  let era := y' / 400 in
  let yoe := y' - era * 400 in
  let doy := (153 * (if 2 <? m then m - 3 else m + 9) + 2) / 5 + d - 1 in
  let doe := yoe * 365 + yoe / 4 - yoe / 100 + doy in
  (era * 146097 + doe - 719468) * 86400000.

Definition read_date (s : string) : option Z :=
  match node_path.split_slash
          (string_of_list_ascii
             (map (λ c, if Ascii.eqb c "-" then "/"%char else c)
                  (list_ascii_of_string s))) with
  | [ys; ms; ds] =>
      match all_digits ys 0, all_digits ms 0, all_digits ds 0 with
      | Some y, Some m, Some d =>
          if (String.length ys =? 4)%nat && (1 <=? m) && (m <=? 12)
             && (1 <=? d) && (d <=? 31)
          then Some (epoch_ms y m d) else None
      | _, _, _ => None
      end
  | _ => None
  end.

Definition lower (c : ascii) : ascii :=
  let n := nat_of_ascii c in
  if (65 <=? n)%nat && (n <=? 90)%nat then ascii_of_nat (n + 32) else c.

Definition lowercase (s : string) : string :=
  string_of_list_ascii (map lower (list_ascii_of_string s)).

Fixpoint contains (pattern s : string) : bool :=
  String.prefix pattern s
  || match s with
     | EmptyString => false
     | String _ r => contains pattern r
     end.

Definition search_i (pattern s : string) : bool :=
  contains (lowercase pattern) (lowercase s).

Definition hex_digit (n : nat) : ascii :=
  if (n <? 10)%nat then ascii_of_nat (48 + n) else ascii_of_nat (87 + n).

Fixpoint hex (width n : nat) : string :=
  match width with
  | O => ""
  | S k => hex k (n / 16) ++ String (hex_digit (n mod 16)) ""
  end.

Definition read_number (s : string) : JsNumber :=
  match s with
  | EmptyString => Finite (inject_Z 0)
  | _ => from_option (λ n, Finite (inject_Z n)) NaN (all_digits s 0)
  end.

Definition plain (c : ascii) : bool :=
  let n := nat_of_ascii c in
  ((48 <=? n) && (n <=? 57) || (65 <=? n) && (n <=? 90)
   || (97 <=? n) && (n <=? 122) || (n =? 32))%nat.

Definition plain_pattern (s : string) : bool :=
  forallb plain (list_ascii_of_string s).

Definition lower_hex (c : ascii) : bool :=
  let n := nat_of_ascii c in
  ((48 <=? n) && (n <=? 57) || (97 <=? n) && (n <=? 102))%nat.

Definition object_id_text (s : string) : bool :=
  (String.length s =? 24)%nat && forallb lower_hex (list_ascii_of_string s).

Definition printed_user (id : string) : string :=
  "{ _id: new ObjectId('" ++ id ++ "'), email: 'user@example.com' }".

#[export] Instance runtime : Runtime := {|
  new_Date := read_date;
  parseInt := read_int;
  Number := read_number;
  regex_i := search_i;
  regex_valid := plain_pattern;
  ObjectId := hex 24;
  isValidObjectId := object_id_text;
  inspect_user := printed_user;
  populate_chains := false;
  dirname := "/app/backend/controllers";
  UPLOAD_PATH := None;
|}.

Definition alice : string := "64b000000000000000000a11".
Definition bob : string := "64b000000000000000000b0b".
Definition carol : string := "64b000000000000000000ca7".
Definition root : string := "64b000000000000000000ad0".

Definition no_query : QueryString :=
  mkQueryString None None None None None None None None None.

Definition no_body : Body :=
  mkBody None None None None None None None None.

Definition upload (n : string) : File :=
  mkFile (n ++ ".pdf")
    ("/app/backend/uploads/attachedDocuments-" ++ n ++ ".pdf")
    "application/pdf".

Definition stored (id n : string) : Document :=
  mkDocument id (n ++ ".pdf")
    ("/app/backend/uploads/attachedDocuments-" ++ n ++ ".pdf")
    "application/pdf".

Definition report_id : string := "64c000000000000000000001".
Definition plan_id : string := "64c000000000000000000002".

Definition doc_a : string := "64d000000000000000000001".
Definition doc_b : string := "64d000000000000000000002".
Definition doc_e : string := "64d000000000000000000005".

(** Created by bob for himself, with three attachments. *)
Definition report : Task :=
  mkTask report_id "Quarterly report" "Figures of the quarter" "To Do" "High"
    1767139200000 bob bob
    [stored doc_a "a"; stored doc_b "b"; stored doc_e "e"]
    1000 1000.

(** Created by alice and assigned to carol, whose account was deleted
    since; its attachment has the original name of one of [report]. *)
Definition plan : Task :=
  mkTask plan_id "Plan" "Next steps" "In Progress" "Low"
    1767139200000 carol alice
    [mkDocument "64d000000000000000000003" "a.pdf"
       "/app/backend/uploads/attachedDocuments-a2.pdf" "application/pdf"]
    2000 2000.

(** Two tasks, three accounts, the four stored attachments and two
    uploads that Multer has just written. *)
Definition world : World :=
  mkWorld [report; plan] {[alice; bob; root]}
    {[ "/app/backend/uploads/attachedDocuments-a.pdf";
       "/app/backend/uploads/attachedDocuments-b.pdf";
       "/app/backend/uploads/attachedDocuments-e.pdf";
       "/app/backend/uploads/attachedDocuments-a2.pdf";
       "/app/backend/uploads/attachedDocuments-c.pdf";
       "/app/backend/uploads/attachedDocuments-d.pdf" ]}
    7 5000.

Definition request (uid role id : string) (b : Body) (fs : list File)
  : Request :=
  mkRequest uid role true id "" no_query b fs.

Definition download (uid role name : string) : Request :=
  mkRequest uid role true "" name no_query no_body [].

Definition search (uid role pattern : string) : Request :=
  mkRequest uid role true "" ""
    (mkQueryString None None None None (Some pattern) None None
       (Some "1") (Some "10"))
    no_body [].

Definition retain (ids : list string) : option (list (option JsonValue)) :=
  Some (map (λ i, Some (JValue (Some i))) ids).

Definition with_retain (r : option (list (option JsonValue))) : Body :=
  mkBody None None None None None None None r.

(** The sample world after the stored file of "b.pdf" was lost. *)
Definition damaged : World :=
  set_disk (disk world ∖ {[ "/app/backend/uploads/attachedDocuments-b.pdf" ]})
    world.

(** The status of a response, when there is one. *)
Definition status_of (o : Outcome Response) : option Z :=
  match o with
  | Val r => Some (statusCode r)
  | Thrown _ => None
  end.

(** The same process with the upload directory configured elsewhere. *)
Definition relocated : Runtime := {|
  new_Date := read_date;
  parseInt := read_int;
  Number := read_number;
  regex_i := search_i;
  regex_valid := plain_pattern;
  ObjectId := hex 24;
  isValidObjectId := object_id_text;
  inspect_user := printed_user;
  populate_chains := false;
  dirname := "/app/backend/controllers";
  UPLOAD_PATH := Some "/srv/uploads";
|}.

(** The same process on Mongoose 5. *)
Definition legacy : Runtime := {|
  new_Date := read_date;
  parseInt := read_int;
  Number := read_number;
  regex_i := search_i;
  regex_valid := plain_pattern;
  ObjectId := hex 24;
  isValidObjectId := object_id_text;
  inspect_user := printed_user;
  populate_chains := true;
  dirname := "/app/backend/controllers";
  UPLOAD_PATH := None;
|}.

End sample.

(** ** Notions used by the statements *)

(** The uploads of a request are on storage under distinct names, as
    Multer leaves them. *)
Definition uploads_stored (fs : list File) (w : World) : Prop :=
  NoDup (map file_path fs) ∧ ∀ f, f ∈ fs → file_path f ∈ disk w.

Definition paths_of (docs : list Document) : gset string :=
  list_to_set (map path docs).

Definition upload_paths (fs : list File) : gset string :=
  list_to_set (map file_path fs).

(** Multer writes the uploads of the next request to storage. *)
Definition receive (fs : list File) (w : World) : World :=
  set_disk (disk w ∪ upload_paths fs) w.

(** The pure part of [retain_documents]: the documents kept and the
    documents whose files are removed. *)
Definition reconciled (current : list Document)
    (existing : option (list (option JsonValue)))
  : Outcome (list Document * list Document) :=
  match existing with
  | Some entries =>
      match taskController.parse_entries entries with
      | Thrown e => Thrown e
      | Val parsed =>
          match taskController.filter_by_id false parsed current,
                taskController.filter_by_id true parsed current with
          | Val removed, Val kept => Val (kept, removed)
          | Thrown e, _ => Thrown e
          | _, Thrown e => Thrown e
          end
      end
  | None => Val ([], current)
  end.

Section Listing.

Context `{RT : Runtime}.

(** The filters a caller supplies, as the specification words them: each
    filter that is present must hold, the search text matching the title
    or the description. *)
Definition spec_caller_filters (q : QueryString) (t : Task) : bool :=
  (if truthy (q_status q)
   then bool_decide (Some (status t) = q_status q) else true)
  && (if truthy (q_priority q)
      then bool_decide (Some (priority t) = q_priority q) else true)
  && (if truthy (q_dueDate q)
      then match new_Date (or_else (q_dueDate q) "") with
           | Some d => dueDate t <=? d
           | None => false
           end
      else true)
  && (if truthy (q_assignedTo q)
      then bool_decide (Some (assignedTo t) = q_assignedTo q) else true)
  && (if truthy (q_search q)
      then regex_i (or_else (q_search q) "") (title t)
           || regex_i (or_else (q_search q) "") (description t)
      else true).

(** The query string with its search text dropped. *)
Definition without_search (q : QueryString) : QueryString :=
  mkQueryString (q_status q) (q_priority q) (q_dueDate q) (q_assignedTo q)
    None (q_sortBy q) (q_sortOrder q) (q_page q) (q_limit q).

(** What the specification lets a non-admin actor list. *)
Definition spec_listed (q : QueryString) (actor : string) (t : Task) : bool :=
  (bool_decide (createdBy t = actor) || bool_decide (assignedTo t = actor))
  && spec_caller_filters q t.

End Listing.


(** An entry of [existingAttachedDocuments] as the client sends it: the
    JSON of a document, of which the handler reads the identifier. *)
Definition retain_entry (i : string) : option JsonValue :=
  Some (JValue (Some i)).

(** A run of a service function against a run of the controller: same
    final world; a returned value is answered with [ok]; an error that
    carries a status code is answered with that code and its message. *)
Definition corresponds {A} (ok : A → Response)
    (service : Outcome A * World) (controller : Outcome Response * World)
  : Prop :=
  service.2 = controller.2
  ∧ match service.1 with
    | Val a => controller.1 = Val (ok a)
    | Thrown (HttpError code message) =>
        controller.1 = Val (json_message code message)
    | Thrown _ => False
    end.


(** Every stored document has a MIME type the upload filter lets in. *)
Definition documents_allowed (w : World) : Prop :=
  ∀ t d, t ∈ tasks w → d ∈ attachedDocuments t →
    mimetype d ∈ constants.ALLOWED_DOCUMENT_MIMETYPES.

(** [a] may come right before [b] in a listing sorted by [field]. *)
Definition listed_before (field : string) (ascending : bool) (a b : Task)
  : Prop :=
  (if ascending then field_leb field a b else field_leb field b a) = true.

(** The tasks of the collection that match the query of a listing. *)
Definition visible_tasks `{RT : Runtime} (req : Request) (w : World)
  : list Task :=
  List.filter (matches (list_query (query req) (user_id req) (user_role req)))
    (tasks w).

(** A string without a separator. *)
Definition single_segment (s : string) : Prop := node_path.split_slash s = [s].

(** The stacks [normalize_segments] builds, last segment first: no empty
    segment and no ".", and ".." only on top of nothing but "..", when the
    path may climb above its start. *)
Fixpoint normal_stack (allowAboveRoot : bool) (acc : list string) : Prop :=
  match acc with
  | [] => True
  | s :: r =>
      s ≠ "" ∧ s ≠ "."
      ∧ (s = ".." → allowAboveRoot = true ∧ Forall (eq "..") r)
      ∧ normal_stack allowAboveRoot r
  end.

(** The segments [normalize] keeps of a path. *)
Definition kept_segments (p : string) : list string :=
  node_path.normalize_segments (negb (String.prefix "/" p))
    (node_path.split_slash p) [].

(** A path that names a directory: not empty, no trailing separator, and
    not normalized to "." or "/". *)
Definition rooted (root : string) : Prop :=
  root ≠ "" ∧ node_path.ends_with_slash root = false
  ∧ node_path.join_slash (kept_segments root) ≠ "".

(** * Properties *)

#[local] Set Warnings "-clear-no-such-hyp".

Section Properties.
Context `{RT : Runtime}.
Import taskController.

Ltac run :=
  unfold mbind, M_bind, mret, M_ret, bind, try_catch, throw, lift,
    Task_findById, Task_findOne_by_filename,
    Task_findById_populated, populate_chain in *.
Ltac run_all := run; unfold User_findById in *.

(** Destructs a scrutinee of hypothesis [H] that contains no match. *)
Ltac inner_destruct H :=
  match type of H with
  | context [match ?x with _ => _ end] =>
      lazymatch x with
      | context [match _ with _ => _ end] => fail
      | _ => destruct x eqn:?
      end
  end.
Ltac inner_destruct_goal :=
  match goal with
  | |- context [match ?x with _ => _ end] =>
      lazymatch x with
      | context [match _ with _ => _ end] => fail
      | _ => destruct x eqn:?
      end
  end.
Lemma set_disk_same w : set_disk (disk w) w = w.
Proof. by destruct w. Qed.

Lemma discard_uploads_stored fs w :
  uploads_stored fs w →
  discard_uploads fs w = (Val tt, set_disk (disk w ∖ upload_paths fs) w).
Proof.
  unfold discard_uploads, upload_paths.
  revert w. induction fs as [|f fs IH]; intros w [Hnd Hin]; simpl.
  - run. f_equal. rewrite <- (set_disk_same w) at 1. f_equal. set_solver.
  - run. unfold fs_unlinkSync at 1.
    rewrite bool_decide_eq_true_2 by (apply Hin; set_solver).
    inversion Hnd as [|? ? Hnotin Hnd']; subst.
    rewrite IH.
    + f_equal. unfold set_disk; simpl. f_equal. set_solver.
    + split; [done|]. intros g Hg. unfold set_disk; simpl.
      apply elem_of_difference. split; [apply Hin; set_solver|].
      intros Heq%elem_of_singleton. apply Hnotin. rewrite <- Heq.
      apply list_elem_of_fmap. eauto.
Qed.

Lemma remove_stored_run docs w :
  remove_stored docs w = (Val tt, set_disk (disk w ∖ paths_of docs) w).
Proof.
  unfold remove_stored, paths_of.
  revert w. induction docs as [|d docs IH]; intros w; simpl.
  - run. f_equal. rewrite <- (set_disk_same w) at 1. f_equal. set_solver.
  - run. unfold fs_existsSync at 1, fs_unlinkSync at 1.
    case_bool_decide as Hd.
    + rewrite bool_decide_eq_true_2 by done. rewrite IH.
      f_equal. unfold set_disk; simpl. f_equal. set_solver.
    + rewrite IH. f_equal. unfold set_disk; simpl. f_equal. set_solver.
Qed.

Lemma filter_by_id_total parsed docs keep l :
  filter_by_id keep parsed docs = Val l →
  ∃ l', filter_by_id (negb keep) parsed docs = Val l'.
Proof.
  revert l. induction docs as [|d docs IH]; simpl; intros l H; [eauto|].
  destruct (some_has_id parsed (doc_id d)); [|done].
  destruct (filter_by_id keep parsed docs); [|done].
  destruct (IH _ eq_refl) as [l' ->]. eauto.
Qed.

Lemma retain_documents_run current existing w :
  retain_documents current existing w =
  match reconciled current existing with
  | Val (kept, removed) => (Val kept, set_disk (disk w ∖ paths_of removed) w)
  | Thrown e => (Thrown e, w)
  end.
Proof.
  unfold retain_documents, reconciled. destruct existing as [entries|].
  - run. destruct (parse_entries entries) as [parsed|e]; [|done].
    destruct (filter_by_id false parsed current) as [removed|e] eqn:Hrm.
    + destruct (filter_by_id_total _ _ _ _ Hrm) as [kept Hk].
      simpl in Hk. rewrite Hk, remove_stored_run. done.
    + done.
  - run. by rewrite remove_stored_run.
Qed.

Lemma cast_documents_fst_length n l :
  List.length (cast_documents n l).1 = List.length l.
Proof.
  revert n. induction l as [|[d|a b c] l IH]; intros n; simpl; [done| |].
  - specialize (IH n). destruct (cast_documents n l). simpl in *. lia.
  - specialize (IH (S n)). destruct (cast_documents (S n) l). simpl in *. lia.
Qed.

Ltac step H :=
  repeat (cbv beta iota in H; try discriminate H;
          first [ rewrite retain_documents_run in H
                | rewrite remove_stored_run in H
                | inner_destruct H ]).


Lemma discard_uploads_frame fs w o w' :
  discard_uploads fs w = (o, w') → tasks w' = tasks w.
Proof.
  unfold discard_uploads. revert w.
  induction fs as [|f fs IH]; simpl; intros w H.
  - by inversion H.
  - run. unfold fs_unlinkSync at 1 in H.
    destruct (bool_decide _); [|by inversion H].
    by apply IH in H.
Qed.

Ltac frame :=
  repeat match goal with
         | H : discard_uploads _ _ = (_, _) |- _ =>
             apply discard_uploads_frame in H;
             cbn [tasks set_disk set_next_oid set_tasks] in H
         end.

Lemma not_admin_nor_creator req task :
  negb (bool_decide (user_role req = constants.ADMIN))
  && negb (bool_decide (createdBy task = user_id req)) = true
  ↔ ¬ (user_role req = constants.ADMIN ∨ user_id req = createdBy task).
Proof.
  rewrite andb_true_iff, !negb_true_iff, !bool_decide_eq_false. naive_solver.
Qed.

Lemma allowed_not_denied req task :
  user_role req = constants.ADMIN ∨ user_id req = createdBy task →
  negb (bool_decide (user_role req = constants.ADMIN))
  && negb (bool_decide (createdBy task = user_id req)) = false.
Proof.
  intros H. apply not_true_is_false. rewrite not_admin_nor_creator. tauto.
Qed.

Lemma not_denied_allowed req task :
  negb (bool_decide (user_role req = constants.ADMIN))
  && negb (bool_decide (createdBy task = user_id req)) = false →
  user_role req = constants.ADMIN ∨ user_id req = createdBy task.
Proof.
  intros H.
  destruct (decide (user_role req = constants.ADMIN
                    ∨ user_id req = createdBy task)) as [|Hn]; [done|].
  apply not_admin_nor_creator in Hn. congruence.
Qed.

Lemma found_of_lookup (v : option string) w :
  negb (bool_decide (is_Some (find_user v w))) = false →
  is_Some (find_user v w).
Proof. intros H%negb_false_iff. by apply bool_decide_eq_true in H. Qed.

Lemma within_cap (kept : list Document) (fs : list File) :
  bool_decide (constants.MAX_DOCUMENTS_PER_TASK
               < List.length (map Existing kept ++ map fresh_of_file fs))%nat
  = false →
  (List.length kept + List.length fs ≤ 3)%nat.
Proof.
  intros H%bool_decide_eq_false. rewrite length_app, !length_map in H.
  unfold constants.MAX_DOCUMENTS_PER_TASK in H. lia.
Qed.

Lemma find_user_id v w u : find_user v w = Some u → v = Some u.
Proof.
  unfold find_user. destruct v as [s|]; [|done].
  destruct (_ && _); congruence.
Qed.

Lemma User_findById_found v w :
  is_Some (find_user v w) → User_findById v w = (Val (find_user v w), w).
Proof.
  intros [u Hu]. unfold User_findById. destruct v as [s|]; [|done].
  unfold find_user in Hu. by destruct (isValidObjectId s).
Qed.

Lemma User_findById_missing u w :
  isValidObjectId u = true → find_user (Some u) w = None →
  User_findById (Some u) w = (Val None, w).
Proof. intros Hu Hnone. unfold User_findById. by rewrite Hu, Hnone. Qed.

(** The collection after updateTask: as it was, or with the record of the
    request replaced by the loaded task with the fields of the request
    assigned, which then passed every check up to validation. *)
Lemma updateTask_saved req w :
  tasks (updateTask req w).2 = tasks w
  ∨ ∃ task kept removed due,
      req_valid req = true
      ∧ find_task (params_id req) w = Some task
      ∧ (user_role req = constants.ADMIN ∨ user_id req = createdBy task)
      ∧ (truthy (b_assignedTo (body req)) = true →
         is_Some (find_user (b_assignedTo (body req)) w))
      ∧ reconciled (attachedDocuments task)
          (b_existingAttachedDocuments (body req)) = Val (kept, removed)
      ∧ (List.length kept + List.length (files req) ≤ 3)%nat
      ∧ (if truthy (b_dueDate (body req)) then cast_date (b_dueDate (body req))
         else Some (dueDate task)) = Some due
      ∧ validateSync
          (assign_fields (body req) task due
             (cast_documents (next_oid w)
                (map Existing kept ++ map fresh_of_file (files req))).1) = true
      ∧ tasks (updateTask req w).2
        = replace_task
            (touch (now w)
               (assign_fields (body req) task due
                  (cast_documents (next_oid w)
                     (map Existing kept ++ map fresh_of_file (files req))).1))
            (tasks w).
Proof.
  destruct (updateTask req w) as [o w'] eqn:Hrun. cbn [snd].
  unfold updateTask in Hrun. run_all.
  unfold cast_subdocuments, Task_save in Hrun.
  step Hrun; inversion Hrun; subst; clear Hrun; frame.
  all: cbn [tasks set_disk set_next_oid set_tasks now next_oid] in *.
  all: try (left; congruence).
  all: right.
  all: match goal with
       | H : negb (req_valid _) = false |- _ => apply negb_false_iff in H
       end.
  all: match goal with
       | H : negb _ && negb _ = false |- _ => apply not_denied_allowed in H
       end.
  all: match goal with H : bool_decide (_ < _)%nat = false |- _ =>
         apply within_cap in H end.
  all: repeat match goal with
       | H : negb (bool_decide (is_Some _)) = false |- _ =>
           apply found_of_lookup in H
       end.
  all: eexists _, _, _, _; split_and!; try done; try eassumption.
  all: match goal with H : cast_documents _ _ = _ |- _ => rewrite H end.
  all: cbn [fst]; congruence.
Qed.

(** What updateTask does once the request has passed every check up to
    validation: the record is saved, and the answer depends on whether
    [populate] can be chained on the saved document. *)
Lemma updateTask_saves req w task kept removed due :
  req_valid req = true →
  find_task (params_id req) w = Some task →
  user_role req = constants.ADMIN ∨ user_id req = createdBy task →
  (truthy (b_assignedTo (body req)) = true →
   is_Some (find_user (b_assignedTo (body req)) w)) →
  reconciled (attachedDocuments task)
    (b_existingAttachedDocuments (body req)) = Val (kept, removed) →
  (List.length kept + List.length (files req) ≤ 3)%nat →
  (if truthy (b_dueDate (body req)) then cast_date (b_dueDate (body req))
   else Some (dueDate task)) = Some due →
  validateSync
    (assign_fields (body req) task due
       (cast_documents (next_oid w)
          (map Existing kept ++ map fresh_of_file (files req))).1) = true →
  updateTask req w
    = let t := touch (now w)
                 (assign_fields (body req) task due
                    (cast_documents (next_oid w)
                       (map Existing kept ++ map fresh_of_file (files req))).1) in
      let saved := set_tasks (replace_task t (tasks w))
                     (set_next_oid
                        (cast_documents (next_oid w)
                           (map Existing kept
                            ++ map fresh_of_file (files req))).2
                        (set_disk (disk w ∖ paths_of removed) w)) in
      if populate_chains then (Val (mkResponse 200 (TaskJson t)), saved)
      else match discard_uploads (files req) saved with
           | (Val _, w') =>
               (Val (json_message 500 "Server error during task update."), w')
           | (Thrown e, w') => (Thrown e, w')
           end.
Proof.
  intros Hvalid Hfind Hallowed Hassignee Hrec Hlen Hdue Hschema.
  unfold updateTask. rewrite Hvalid. cbn [negb]. run.
  rewrite Hfind. cbv beta iota.
  rewrite (allowed_not_denied _ _ Hallowed).
  destruct (truthy (b_assignedTo (body req))) eqn:Ht;
    [rewrite (User_findById_found _ _ (Hassignee eq_refl));
     rewrite bool_decide_eq_true_2 by auto; cbn [negb]|];
    cbv beta iota.
  all: rewrite retain_documents_run, Hrec.
  all: rewrite bool_decide_eq_false_2
    by (rewrite length_app, !length_map;
        unfold constants.MAX_DOCUMENTS_PER_TASK; lia).
  all: unfold cast_subdocuments; cbn [next_oid set_disk].
  all: destruct (cast_documents _ _) as [docs n] eqn:Hcast; cbn [fst snd] in *.
  all: rewrite Hdue; cbv beta iota; unfold Task_save; rewrite Hschema.
  all: cbn [now tasks set_next_oid set_disk].
  all: destruct populate_chains; [done|].
  all: cbv beta iota; cbn [is_ObjectId_error].
  all: destruct (discard_uploads _ _) as [[[]|e] w']; done.
Qed.

(** The collection after createTask: as it was, or with the document the
    handler built appended, which then passed every check up to
    validation. *)
Lemma createTask_saved req w :
  tasks (createTask req w).2 = tasks w
  ∨ ∃ due assignee,
      req_valid req = true
      ∧ (List.length (files req) ≤ 3)%nat
      ∧ b_assignedTo (body req) = Some assignee
      ∧ find_user (Some assignee) w = Some assignee
      ∧ isValidObjectId (user_id req) = true
      ∧ cast_date (b_dueDate (body req)) = Some due
      ∧ validateSync
          (mkTask (ObjectId (next_oid w))
             (trim (default "" (b_title (body req))))
             (trim (default "" (b_description (body req))))
             (default "To Do" (b_status (body req)))
             (default "Low" (b_priority (body req)))
             due assignee (user_id req)
             (cast_documents (S (next_oid w))
                (map fresh_of_file (files req))).1
             (now w) (now w)) = true
      ∧ tasks (createTask req w).2
        = (tasks w ++
           [mkTask (ObjectId (next_oid w))
              (trim (default "" (b_title (body req))))
              (trim (default "" (b_description (body req))))
              (default "To Do" (b_status (body req)))
              (default "Low" (b_priority (body req)))
              due assignee (user_id req)
              (cast_documents (S (next_oid w))
                 (map fresh_of_file (files req))).1
              (now w) (now w)])%list.
Proof.
  destruct (createTask req w) as [o w'] eqn:Hrun. cbn [snd].
  unfold createTask in Hrun. run_all. unfold Task_create, cast_reference in Hrun.
  step Hrun; inversion Hrun; subst; clear Hrun; frame.
  all: cbn [tasks set_disk set_next_oid set_tasks now next_oid
            i_title i_description i_status i_priority i_dueDate i_assignedTo
            i_createdBy i_attachedDocuments] in *.
  all: try (left; congruence).
  all: right.
  all: match goal with
       | H : negb (req_valid _) = false |- _ => apply negb_false_iff in H
       end.
  all: match goal with
       | H : bool_decide (0 < _)%nat && _ = false |- _ =>
           apply andb_false_iff in H as [H|H]; apply bool_decide_eq_false in H
       end.
  all: simplify_eq.
  all: eexists _, _; split_and!; try done; try eassumption.
  all: try (unfold constants.MAX_DOCUMENTS_PER_TASK in *; lia).
  all: try (match goal with H : cast_documents _ _ = _ |- _ => rewrite H end; done).
  all: match goal with
       | H : find_user (Some ?s) ?w = Some ?u |- _ =>
           pose proof (find_user_id _ _ _ H); by simplify_eq
       end.
Qed.

Lemma replace_task_found t task w :
  find_task (_id t) w = Some task →
  t ∈ replace_task t (tasks w)
  ∧ find_task (_id t) (set_tasks (replace_task t (tasks w)) w) = Some t.
Proof.
  unfold find_task. cbn [tasks set_tasks].
  induction (tasks w) as [|x l IH]; simpl; [done|].
  case_bool_decide as Hx.
  - intros _. split; [set_solver|]. simpl. by rewrite bool_decide_eq_true_2.
  - intros H. destruct (IH H) as [Hin Hf]. split; [set_solver|].
    simpl. by rewrite bool_decide_eq_false_2.
Qed.

Lemma find_task_id id w task :
  find_task id w = Some task → _id task = id.
Proof.
  unfold find_task. intros H%find_some. destruct H as [_ H].
  by apply bool_decide_eq_true in H.
Qed.

Lemma find_task_elem id w task :
  find_task id w = Some task → task ∈ tasks w.
Proof.
  unfold find_task. intros [H _]%find_some. by apply list_elem_of_In.
Qed.

Lemma replace_task_elem t l x :
  x ∈ replace_task t l → x = t ∨ x ∈ l.
Proof.
  induction l as [|y l IH]; simpl; [set_solver|].
  case_bool_decide; rewrite !elem_of_cons; naive_solver.
Qed.

(** The task stored under the identifier of the request after updateTask
    ran: the task that was there, or that task with the fields of the
    request assigned, validated and stamped. *)
Lemma updateTask_stored req w task t' :
  find_task (params_id req) w = Some task →
  find_task (params_id req) (updateTask req w).2 = Some t' →
  t' = task
  ∨ ∃ kept removed due,
      req_valid req = true
      ∧ (user_role req = constants.ADMIN ∨ user_id req = createdBy task)
      ∧ (truthy (b_assignedTo (body req)) = true →
         is_Some (find_user (b_assignedTo (body req)) w))
      ∧ reconciled (attachedDocuments task)
          (b_existingAttachedDocuments (body req)) = Val (kept, removed)
      ∧ (List.length kept + List.length (files req) ≤ 3)%nat
      ∧ (if truthy (b_dueDate (body req)) then cast_date (b_dueDate (body req))
         else Some (dueDate task)) = Some due
      ∧ validateSync
          (assign_fields (body req) task due
             (cast_documents (next_oid w)
                (map Existing kept ++ map fresh_of_file (files req))).1) = true
      ∧ t' = touch (now w)
               (assign_fields (body req) task due
                  (cast_documents (next_oid w)
                     (map Existing kept ++ map fresh_of_file (files req))).1).
Proof.
  intros Hfind Hafter.
  destruct (updateTask_saved req w) as [Hsame|Hsaved].
  - left. unfold find_task in *. rewrite Hsame in Hafter. congruence.
  - right. destruct Hsaved as (task' & kept & removed & due & Hvalid & Hfind'
      & Hallowed & Hassignee & Hrec & Hlen & Hdue & Hschema & Htasks).
    simplify_eq. eexists kept, removed, due. split_and!; try done.
    set (t := touch _ _) in *.
    pose proof (find_task_id _ _ _ Hfind) as Hid.
    assert (Hidt : _id t = params_id req) by done.
    rewrite <- Hidt in Hfind, Hafter.
    destruct (replace_task_found t task w Hfind) as [_ Hfound].
    unfold find_task in *. cbn [tasks set_tasks] in Hfound.
    rewrite Htasks in Hafter. congruence.
Qed.

Lemma fresh_documents_fields n fs :
  map (λ d, (filename d, path d, mimetype d))
      (cast_documents n (map fresh_of_file fs)).1
  = map (λ f, (originalname f, file_path f, file_mimetype f)) fs.
Proof.
  revert n. induction fs as [|f fs IH]; intros n; simpl; [done|].
  specialize (IH (S n)).
  destruct (cast_documents (S n) (map fresh_of_file fs)). simpl in *.
  by rewrite IH.
Qed.

Lemma discard_uploads_shrinks fs w o w' :
  discard_uploads fs w = (o, w') → disk w' ⊆ disk w.
Proof.
  unfold discard_uploads. revert w.
  induction fs as [|f fs IH]; simpl; intros w H.
  - by inversion H.
  - run. unfold fs_unlinkSync at 1 in H.
    destruct (bool_decide _); [|by inversion H].
    apply IH in H. cbn [disk set_disk] in H. set_solver.
Qed.

(** C3: a task that createTask or updateTask has put in the collection, one
    that was not there before the call, carries at most three attached
    documents, whatever the retained documents and the uploaded files
    were and whatever the handler goes on to answer. *)
Theorem attachment_cap req w t :
  t ∈ tasks (createTask req w).2 ∨ t ∈ tasks (updateTask req w).2 →
  t ∉ tasks w →
  (List.length (attachedDocuments t) ≤ constants.MAX_DOCUMENTS_PER_TASK)%nat.
Proof.
  unfold constants.MAX_DOCUMENTS_PER_TASK. intros [Hin|Hin] Hnew.
  - destruct (createTask_saved req w)
      as [Hsame|(due & assignee & _ & Hlen & _ & _ & _ & _ & _ & Htasks)];
      [by rewrite Hsame in Hin|].
    rewrite Htasks in Hin.
    apply elem_of_app in Hin as [Hin| ->%list_elem_of_singleton]; [done|].
    cbn [attachedDocuments]. by rewrite cast_documents_fst_length, length_map.
  - destruct (updateTask_saved req w)
      as [Hsame|(task & kept & removed & due & _ & _ & _ & _ & _ & Hlen & _
                 & _ & Htasks)];
      [by rewrite Hsame in Hin|].
    rewrite Htasks in Hin. apply replace_task_elem in Hin as [->|Hin]; [|done].
    cbn [attachedDocuments touch assign_fields].
    rewrite cast_documents_fst_length, length_app, !length_map. lia.
Qed.

(** The handlers of the controller never reassign the creator: a task that
    createTask puts in the collection has the acting user as its creator,
    whatever [createdBy] the body carries, and the task stored after
    updateTask has the creator it had before. *)
Lemma controller_createdBy req w :
  (∀ t, t ∈ tasks (createTask req w).2 → t ∉ tasks w →
        createdBy t = user_id req)
  ∧ (∀ task t',
       find_task (params_id req) w = Some task →
       find_task (params_id req) (updateTask req w).2 = Some t' →
       createdBy t' = createdBy task).
Proof.
  split.
  - intros t Hin Hnew.
    destruct (createTask_saved req w)
      as [Hsame|(due & assignee & _ & _ & _ & _ & _ & _ & _ & Htasks)];
      [by rewrite Hsame in Hin|].
    rewrite Htasks in Hin.
    by apply elem_of_app in Hin as [Hin| ->%list_elem_of_singleton].
  - intros task t' Hfind Hafter.
    by destruct (updateTask_stored _ _ _ _ Hfind Hafter)
      as [->|(kept & removed & due & _ & _ & _ & _ & _ & _ & _ & ->)].
Qed.

(** Once the request has passed the checks that precede the
    reconciliation, the files of the documents it drops are gone whatever
    happens next. *)
Lemma updateTask_removes req w task kept removed :
  req_valid req = true →
  find_task (params_id req) w = Some task →
  user_role req = constants.ADMIN ∨ user_id req = createdBy task →
  (truthy (b_assignedTo (body req)) = true →
   is_Some (find_user (b_assignedTo (body req)) w)) →
  reconciled (attachedDocuments task)
    (b_existingAttachedDocuments (body req)) = Val (kept, removed) →
  disk (updateTask req w).2 ⊆ disk w ∖ paths_of removed.
Proof.
  intros Hvalid Hfind Hallowed Hassignee Hrec.
  destruct (updateTask req w) as [o w'] eqn:Hrun. cbn [snd].
  unfold updateTask in Hrun. rewrite Hvalid in Hrun. cbn [negb] in Hrun.
  run. rewrite Hfind in Hrun. cbv beta iota in Hrun.
  rewrite (allowed_not_denied _ _ Hallowed) in Hrun.
  destruct (truthy (b_assignedTo (body req))) eqn:Ht;
    [rewrite (User_findById_found _ _ (Hassignee eq_refl)) in Hrun;
     rewrite bool_decide_eq_true_2 in Hrun by auto; cbn [negb] in Hrun|];
    cbv beta iota in Hrun.
  all: rewrite retain_documents_run, Hrec in Hrun.
  all: unfold cast_subdocuments, Task_save in Hrun.
  all: step Hrun; inversion Hrun; subst; clear Hrun.
  all: repeat match goal with
       | H : discard_uploads _ _ = (_, _) |- _ =>
           apply discard_uploads_shrinks in H
       end.
  all: cbn [disk set_disk set_next_oid set_tasks] in *.
  all: try done.
  all: etrans; eassumption.
Qed.

(** C5: when the retain set is absent, the task stored after an update that
    saved it has exactly the documents built from the uploaded files, in
    order, and the stored file of every document the task had is gone. For
    a valid request by an actor who may update the task, with an assignee
    that resolves when one is supplied, those files are gone whether or
    not the task is saved: it is saved when the uploads are at most three
    and the assigned fields pass the casts and the validators of the
    schema, and otherwise the record is the one that was stored. *)
Theorem retain_set_absent req w task t' :
  b_existingAttachedDocuments (body req) = None →
  find_task (params_id req) w = Some task →
  find_task (params_id req) (updateTask req w).2 = Some t' →
  (t' ≠ task →
   map (λ d, (filename d, path d, mimetype d)) (attachedDocuments t')
   = map (λ f, (originalname f, file_path f, file_mimetype f)) (files req)
   ∧ List.length (attachedDocuments t') = List.length (files req)
   ∧ (∀ d, d ∈ attachedDocuments task → path d ∉ disk (updateTask req w).2))
  ∧ (req_valid req = true →
     user_role req = constants.ADMIN ∨ user_id req = createdBy task →
     (truthy (b_assignedTo (body req)) = true →
      is_Some (find_user (b_assignedTo (body req)) w)) →
     (∀ d, d ∈ attachedDocuments task → path d ∉ disk (updateTask req w).2)
     ∧ (∀ due,
          (List.length (files req) ≤ constants.MAX_DOCUMENTS_PER_TASK)%nat →
          (if truthy (b_dueDate (body req))
           then cast_date (b_dueDate (body req))
           else Some (dueDate task)) = Some due →
          validateSync
            (assign_fields (body req) task due
               (cast_documents (next_oid w)
                  (map fresh_of_file (files req))).1) = true →
          t' = touch (now w)
                 (assign_fields (body req) task due
                    (cast_documents (next_oid w)
                       (map fresh_of_file (files req))).1))
     ∧ (t' = task
        ∨ ∃ due,
            (List.length (files req) ≤ constants.MAX_DOCUMENTS_PER_TASK)%nat
            ∧ (if truthy (b_dueDate (body req))
               then cast_date (b_dueDate (body req))
               else Some (dueDate task)) = Some due
            ∧ validateSync
                (assign_fields (body req) task due
                   (cast_documents (next_oid w)
                      (map fresh_of_file (files req))).1) = true
            ∧ t' = touch (now w)
                     (assign_fields (body req) task due
                        (cast_documents (next_oid w)
                           (map fresh_of_file (files req))).1))).
Proof.
  intros Habsent Hfind Hafter.
  assert (Hrec : reconciled (attachedDocuments task)
                   (b_existingAttachedDocuments (body req))
                 = Val ([], attachedDocuments task)) by (by rewrite Habsent).
  assert (Hgone : req_valid req = true →
            user_role req = constants.ADMIN ∨ user_id req = createdBy task →
            (truthy (b_assignedTo (body req)) = true →
             is_Some (find_user (b_assignedTo (body req)) w)) →
            ∀ d, d ∈ attachedDocuments task →
                 path d ∉ disk (updateTask req w).2).
  { intros Hvalid Hallowed Hassignee d Hd Hin.
    apply (updateTask_removes _ _ _ _ _ Hvalid Hfind Hallowed Hassignee Hrec)
      in Hin.
    apply elem_of_difference in Hin as [_ Hn]. apply Hn.
    apply elem_of_list_to_set, list_elem_of_fmap. eauto. }
  assert (Hcases : t' = task
            ∨ ∃ due,
                req_valid req = true
                ∧ (user_role req = constants.ADMIN
                   ∨ user_id req = createdBy task)
                ∧ (truthy (b_assignedTo (body req)) = true →
                   is_Some (find_user (b_assignedTo (body req)) w))
                ∧ (List.length (files req) ≤ 3)%nat
                ∧ (if truthy (b_dueDate (body req))
                   then cast_date (b_dueDate (body req))
                   else Some (dueDate task)) = Some due
                ∧ validateSync
                    (assign_fields (body req) task due
                       (cast_documents (next_oid w)
                          (map fresh_of_file (files req))).1) = true
                ∧ t' = touch (now w)
                         (assign_fields (body req) task due
                            (cast_documents (next_oid w)
                               (map fresh_of_file (files req))).1)).
  { destruct (updateTask_stored _ _ _ _ Hfind Hafter)
      as [->|(kept & removed & due & Hvalid & Hallowed & Hassignee & Hrec'
              & Hlen & Hdue & Hschema & ->)]; [by left|].
    rewrite Hrec in Hrec'. simplify_eq. right. exists due.
    by split_and!. }
  split.
  - intros Hne. destruct Hcases as [->|(due & Hvalid & Hallowed & Hassignee
      & Hlen & Hdue & Hschema & ->)]; [done|].
    cbn [attachedDocuments touch assign_fields].
    split_and!.
    + apply fresh_documents_fields.
    + by rewrite cast_documents_fst_length, length_map.
    + by apply Hgone.
  - intros Hvalid Hallowed Hassignee. split_and!.
    + by apply Hgone.
    + intros due Hlen Hdue Hschema.
      pose proof (updateTask_saves req w task [] (attachedDocuments task) due
                    Hvalid Hfind Hallowed Hassignee Hrec Hlen Hdue Hschema)
        as Hrun.
      assert (Htasks : tasks (updateTask req w).2
                = replace_task
                    (touch (now w)
                       (assign_fields (body req) task due
                          (cast_documents (next_oid w)
                             (map fresh_of_file (files req))).1))
                    (tasks w)).
      { rewrite Hrun. cbn zeta. destruct populate_chains; [done|].
        destruct (discard_uploads _ _) as [[[]|e] w'] eqn:Hd; cbn [snd];
          by apply discard_uploads_frame in Hd. }
      set (t := touch _ _) in *.
      pose proof (find_task_id _ _ _ Hfind) as Hid.
      assert (Hidt : _id t = params_id req) by done.
      rewrite <- Hidt in Hfind, Hafter.
      destruct (replace_task_found t task w Hfind) as [_ Hfound].
      unfold find_task in *. cbn [tasks set_tasks] in Hfound.
      rewrite Htasks in Hafter. congruence.
    + destruct Hcases as [->|(due & _ & _ & _ & Hlen & Hdue & Hschema & ->)];
        [by left|].
      right. by exists due.
Qed.

Lemma or_else_falsy v d : truthy v = false → or_else v d = d.
Proof.
  destruct v as [s|]; simpl; [|done]. by case_bool_decide.
Qed.

Lemma or_else_trimmed_falsy v d : truthy v = false → or_else_trimmed v d = d.
Proof.
  destruct v as [s|]; simpl; [|done]. by case_bool_decide.
Qed.

Lemma or_else_empty v d : or_else v d = "" → d = "".
Proof.
  destruct v as [s|]; simpl; [|done]. by case_bool_decide.
Qed.

Lemma validateSync_required t :
  validateSync t = true →
  title t ≠ "" ∧ description t ≠ "" ∧ assignedTo t ≠ "" ∧ createdBy t ≠ "".
Proof.
  unfold validateSync, required. rewrite !andb_true_iff, !negb_true_iff.
  rewrite !bool_decide_eq_false. naive_solver.
Qed.

(** C10: whatever updateTask answers, a field whose request value is
    falsy (absent, or the empty string) has its stored value afterwards;
    hence no string field that held a non-empty value is empty after an
    update. *)
Theorem falsy_field_keeps_value req w task t' :
  find_task (params_id req) w = Some task →
  find_task (params_id req) (updateTask req w).2 = Some t' →
  let b := body req in
  (truthy (b_title b) = false → title t' = title task)
  ∧ (truthy (b_description b) = false → description t' = description task)
  ∧ (truthy (b_status b) = false → status t' = status task)
  ∧ (truthy (b_priority b) = false → priority t' = priority task)
  ∧ (truthy (b_dueDate b) = false → dueDate t' = dueDate task)
  ∧ (truthy (b_assignedTo b) = false → assignedTo t' = assignedTo task)
  ∧ (title t' = "" → title task = "")
  ∧ (description t' = "" → description task = "")
  ∧ (status t' = "" → status task = "")
  ∧ (priority t' = "" → priority task = "")
  ∧ (assignedTo t' = "" → assignedTo task = "").
Proof.
  intros Hfind Hafter b.
  destruct (updateTask_stored _ _ _ _ Hfind Hafter)
    as [->|(kept & removed & due & _ & _ & _ & _ & _ & Hdue & Hschema & ->)];
    [by split_and!|].
  apply validateSync_required in Hschema as (Htitle & Hdescription & _ & _).
  cbn [touch assign_fields title description status priority
       dueDate assignedTo] in *. fold b in Hdue, Htitle, Hdescription |- *.
  split_and!; try apply or_else_falsy; try apply or_else_trimmed_falsy;
    try apply or_else_empty; try done.
  intros Hf. rewrite Hf in Hdue. by simplify_eq.
Qed.

Ltac step_goal :=
  repeat (cbv beta iota;
          first [ rewrite retain_documents_run
                | rewrite remove_stored_run
                | inner_destruct_goal ]).

(** C2: for a valid request on an existing task, updateTask and deleteTask
    answer 403 exactly when the actor is neither an administrator nor the
    creator of the task, whatever the body, the retain set and the files
    are; being the assignee plays no part. A denied request changes no
    task. *)
Theorem update_delete_access req w task :
  req_valid req = true →
  find_task (params_id req) w = Some task →
  uploads_stored (files req) w →
  let allowed :=
    user_role req = constants.ADMIN ∨ user_id req = createdBy task in
  ((updateTask req w).1
     = Val (json_message 403 "Not authorized to update this task.")
   ↔ ¬ allowed)
  ∧ ((deleteTask req w).1
       = Val (json_message 403 "Not authorized to delete this task.")
     ↔ ¬ allowed)
  ∧ (¬ allowed →
     tasks (updateTask req w).2 = tasks w ∧ (deleteTask req w).2 = w).
Proof.
  intros Hvalid Hfind Hup allowed. subst allowed.
  rewrite <- not_admin_nor_creator.
  unfold updateTask, deleteTask. rewrite Hvalid. cbn [negb]. run_all.
  rewrite Hfind. cbv beta iota.
  destruct (negb _ && negb _) eqn:Hauth.
  - rewrite (discard_uploads_stored _ _ Hup). cbn. done.
  - split_and!; [split; [|done] | split; [|done] | done].
    + unfold cast_subdocuments, Task_save.
      step_goal; cbn [fst]; unfold json_message; discriminate.
    + unfold Task_deleteOne. step_goal; cbn [fst]; unfold json_message; discriminate.
Qed.

(** C6: when the documents kept by the reconciliation and the uploaded
    files are more than three, updateTask answers 400 with the maximum
    message, the uploaded files are removed from storage, no task is
    changed, and the files of the documents dropped by the reconciliation
    stay removed. *)
Theorem too_many_documents req w task kept removed :
  req_valid req = true →
  find_task (params_id req) w = Some task →
  user_role req = constants.ADMIN ∨ user_id req = createdBy task →
  (truthy (b_assignedTo (body req)) = true →
   is_Some (find_user (b_assignedTo (body req)) w)) →
  reconciled (attachedDocuments task)
    (b_existingAttachedDocuments (body req)) = Val (kept, removed) →
  (constants.MAX_DOCUMENTS_PER_TASK
   < List.length kept + List.length (files req))%nat →
  uploads_stored (files req) w →
  (∀ f, f ∈ files req → file_path f ∉ paths_of removed) →
  ∃ w',
    updateTask req w = (Val (json_message 400 "Maximum 3 documents allowed."), w')
    ∧ tasks w' = tasks w
    ∧ disk w' = disk w ∖ paths_of removed ∖ upload_paths (files req)
    ∧ (∀ f, f ∈ files req → file_path f ∉ disk w')
    ∧ (∀ d, d ∈ removed → path d ∉ disk w').
Proof.
  intros Hvalid Hfind Hallowed Hassignee Hrec Hmany Hup Hfresh.
  eexists. split.
  - unfold updateTask. rewrite Hvalid. cbn [negb]. run.
    rewrite Hfind. cbv beta iota.
    rewrite (allowed_not_denied _ _ Hallowed).
    destruct (truthy (b_assignedTo (body req))) eqn:Ht;
      [rewrite (User_findById_found _ _ (Hassignee eq_refl));
       rewrite bool_decide_eq_true_2 by auto; cbn [negb]|];
      cbv beta iota.
    all: rewrite retain_documents_run, Hrec.
    all: rewrite bool_decide_eq_true_2
      by (rewrite length_app, !length_map; lia).
    all: rewrite discard_uploads_stored; [reflexivity|].
    all: destruct Hup as [Hnd Hin]; split; [done|]; intros f Hf.
    all: cbn [disk set_disk]; apply elem_of_difference; auto.
  - cbn [tasks disk set_disk]. split_and!; [done|done| |].
    + intros f Hf [_ Hn]%elem_of_difference. apply Hn.
      apply elem_of_list_to_set, list_elem_of_fmap. eauto.
    + intros d Hd [[_ Hn]%elem_of_difference _]%elem_of_difference. apply Hn.
      apply elem_of_list_to_set, list_elem_of_fmap. eauto.
Qed.

Lemma truthy_Some v : truthy v = true → ∃ u, v = Some u ∧ u ≠ "".
Proof.
  destruct v as [u|]; simpl; [|done]. case_bool_decide; [done|]. eauto.
Qed.

(** C7 (amended): for a request that passes validation, whose uploads are
    on storage and whose [assignedTo], when supplied and not empty, is a
    well-formed identifier: with at most three uploads and an [assignedTo]
    that is not the empty string, createTask answers "Assigned user not
    found" whenever [assignedTo] resolves to no user; updateTask, on an
    existing task and for an allowed actor, answers it exactly when
    [assignedTo] is present, non-empty and resolves to no user, whether or
    not it differs from the current assignee. In each of these failures
    the uploaded files are removed from storage and nothing else
    changes. *)
Theorem assigned_user_not_found req w :
  req_valid req = true →
  uploads_stored (files req) w →
  (∀ u, b_assignedTo (body req) = Some u → u ≠ "" →
        isValidObjectId u = true) →
  let not_found := json_message 400 "Assigned user not found." in
  let cleaned := set_disk (disk w ∖ upload_paths (files req)) w in
  tasks cleaned = tasks w
  ∧ (∀ f, f ∈ files req → file_path f ∉ disk cleaned)
  ∧ ((List.length (files req) ≤ constants.MAX_DOCUMENTS_PER_TASK)%nat →
     b_assignedTo (body req) ≠ Some "" →
     find_user (b_assignedTo (body req)) w = None →
     createTask req w = (Val not_found, cleaned))
  ∧ (∀ task,
       find_task (params_id req) w = Some task →
       user_role req = constants.ADMIN ∨ user_id req = createdBy task →
       ((updateTask req w).1 = Val not_found
        ↔ truthy (b_assignedTo (body req)) = true
          ∧ find_user (b_assignedTo (body req)) w = None)
       ∧ ((updateTask req w).1 = Val not_found →
          updateTask req w = (Val not_found, cleaned))).
Proof.
  intros Hvalid Hup Hwell not_found cleaned. split_and!.
  - done.
  - intros f Hf [_ Hn]%elem_of_difference. apply Hn.
    apply elem_of_list_to_set, list_elem_of_fmap. eauto.
  - intros Hlen Hnonempty Hnone. unfold createTask. rewrite Hvalid. cbn [negb].
    unfold constants.MAX_DOCUMENTS_PER_TASK in *.
    rewrite (bool_decide_eq_false_2 (3 < _)%nat) by lia.
    rewrite andb_false_r. run.
    assert (Hlookup : User_findById (b_assignedTo (body req)) w = (Val None, w)).
    { destruct (b_assignedTo (body req)) as [u|] eqn:Hto; [|done].
      apply User_findById_missing; [|done].
      apply Hwell; [done|]. intros ->. done. }
    rewrite Hlookup. cbv beta iota.
    by rewrite (discard_uploads_stored _ _ Hup).
  - intros task Hfind Hallowed.
    destruct (updateTask req w) as [o w'] eqn:Hrun. cbn [fst].
    unfold updateTask in Hrun. rewrite Hvalid in Hrun. cbn [negb] in Hrun.
    run. rewrite Hfind in Hrun. cbv beta iota in Hrun.
    rewrite (allowed_not_denied _ _ Hallowed) in Hrun.
    unfold cast_subdocuments, Task_save in Hrun.
    destruct (truthy (b_assignedTo (body req))) eqn:Ht;
      [destruct (find_user (b_assignedTo (body req)) w) as [u|] eqn:Hu|];
      cbv beta iota in Hrun.
    2:{ destruct (truthy_Some _ Ht) as (u & Hto & Hne).
        rewrite Hto in Hrun, Hu.
        rewrite (User_findById_missing u w) in Hrun by auto.
        cbn [negb] in Hrun.
        rewrite bool_decide_eq_false_2 in Hrun by apply is_Some_None.
        cbn [negb] in Hrun. cbv beta iota in Hrun.
        rewrite (discard_uploads_stored _ _ Hup) in Hrun.
        by inversion Hrun. }
    1: rewrite (User_findById_found (b_assignedTo (body req)) w) in Hrun
         by (rewrite Hu; eauto);
       rewrite Hu in Hrun;
       rewrite bool_decide_eq_true_2 in Hrun by eauto; cbn [negb] in Hrun.
    all: step Hrun; inversion Hrun; subst; clear Hrun.
    all: unfold not_found, json_message, max_documents_message.
    all: split; [split; [intros [=] | intros [? ?]; discriminate] | intros [=]].
Qed.

Lemma find_all_false {A} (f : A → bool) (l : list A) :
  (∀ x, x ∈ l → f x = false) → List.find f l = None.
Proof.
  induction l as [|x l IH]; simpl; intros H; [done|].
  rewrite (H x) by set_solver. apply IH. intros y Hy. apply H. set_solver.
Qed.

Lemma remove_first_rest id l task :
  NoDup (map _id l) →
  List.find (λ t, bool_decide (_id t = id)) l = Some task →
  ∀ t', t' ∈ remove_first id l → t' ∈ l ∧ _id t' ≠ id.
Proof.
  induction l as [|x l IH]; simpl; intros Hnd Hfind t' Hin; [done|].
  inversion Hnd as [|? ? Hx Hnd']; subst.
  case_bool_decide as Hid.
  - split; [set_solver|]. intros Heq. apply Hx.
    rewrite Hid, <- Heq. apply list_elem_of_fmap. eauto.
  - apply elem_of_cons in Hin as [->|Hin]; [split; [set_solver|done]|].
    destruct (IH Hnd' Hfind t' Hin). split; [set_solver|done].
Qed.

Lemma download_allowed_not_denied (role uid : string) task :
  role = constants.ADMIN ∨ uid = createdBy task ∨ uid = assignedTo task →
  negb (bool_decide (role = constants.ADMIN))
  && negb (bool_decide (createdBy task = uid))
  && negb (bool_decide (assignedTo task = uid)) = false.
Proof.
  intros H. rewrite !andb_false_iff, !negb_false_iff, !bool_decide_eq_true.
  naive_solver.
Qed.

(** C8 (amended): for an allowed actor deleteTask removes the stored file
    of every attached document, a missing file being skipped, and deletes
    the record from the world so obtained. Afterwards downloadDocument
    answers "Document not found" for a file name of the deleted task,
    provided identifiers are unique, no task with another identifier
    attaches a document of that name, and the name passes the path check
    of the handler. *)
Theorem cascade_delete req w task :
  find_task (params_id req) w = Some task →
  user_role req = constants.ADMIN ∨ user_id req = createdBy task →
  ∃ w1 w',
    remove_stored (attachedDocuments task) w = (Val tt, w1)
    ∧ Task_deleteOne (params_id req) w1 = (Val tt, w')
    ∧ deleteTask req w
      = (Val (json_message 200 "Task deleted successfully."), w')
    ∧ tasks w1 = tasks w
    ∧ (∀ d, d ∈ attachedDocuments task →
            (path d ∉ disk w1) ∧ (path d ∉ disk w'))
    ∧ (NoDup (map _id (tasks w)) →
       find_task (params_id req) w' = None
       ∧ (∀ d get,
            d ∈ attachedDocuments task →
            params_filename get = filename d →
            (∀ t', t' ∈ tasks w → _id t' ≠ params_id req →
                   has_filename (filename d) t' = false) →
            node_path.startsWith (download_path (filename d)) uploads_root
            = true →
            downloadDocument get w'
            = (Val (json_message 404
                      "Document not found or not associated with any task."),
               w'))).
Proof.
  intros Hfind Hallowed.
  eexists _, _. split; [apply remove_stored_run|]. split; [reflexivity|].
  cbn [snd tasks disk set_disk set_tasks].
  assert (Hgone : ∀ d, d ∈ attachedDocuments task →
            path d ∉ disk w ∖ paths_of (attachedDocuments task)).
  { intros d Hd [_ Hn]%elem_of_difference. apply Hn.
    apply elem_of_list_to_set, list_elem_of_fmap. eauto. }
  split_and!; [|done|by auto|].
  - unfold deleteTask. run. rewrite Hfind. cbv beta iota.
    rewrite (allowed_not_denied _ _ Hallowed).
    unfold Task_deleteOne. case_bool_decide as Hlen; cbv beta iota.
    + by rewrite remove_stored_run.
    + destruct (attachedDocuments task) as [|d l]; [|simpl in Hlen; lia].
      do 3 f_equal. rewrite <- (set_disk_same w) at 1. unfold paths_of.
      f_equal. set_solver.
  - intros Hnd.
    pose proof (remove_first_rest _ _ _ Hnd Hfind) as Hrest.
    split.
    + unfold find_task. cbn [tasks set_tasks set_disk].
      apply find_all_false. intros t' Ht'.
      apply bool_decide_eq_false. by apply Hrest.
    + intros d get Hd Hname Hothers Hpath.
      unfold downloadDocument. rewrite Hname, Hpath. cbn [negb]. run.
      unfold find_by_filename. cbn [tasks set_tasks set_disk].
      rewrite find_all_false; [done|].
      intros t' Ht'. destruct (Hrest t' Ht') as [Hin Hid].
      by apply Hothers.
Qed.

(** C9 (amended): for a file name that passes the path check of the
    handler, downloadDocument answers "Document not found" when no task
    attaches a document of that name, whatever the storage holds; and when
    a task does, the actor may download, the stored file of the document
    is not on storage and the upload directory holds no file under the
    requested name either, it answers "File not found on server", a
    different answer. The service function getDocumentPath raises the
    matching errors. *)
Theorem download_errors req w :
  let name := params_filename req in
  let not_found :=
    "Document not found or not associated with any task." in
  let missing := "File not found on server." in
  not_found ≠ missing
  ∧ (node_path.startsWith (download_path name) uploads_root = true →
     (find_by_filename name w = None →
      ∀ d, downloadDocument req (set_disk d w)
           = (Val (json_message 404 not_found), set_disk d w))
     ∧ (∀ task,
          find_by_filename name w = Some task →
          user_role req = constants.ADMIN
          ∨ user_id req = createdBy task ∨ user_id req = assignedTo task →
          (∀ d, d ∈ attachedDocuments task → filename d = name →
                path d ∉ disk w) →
          download_path name ∉ disk w →
          downloadDocument req w = (Val (json_message 404 missing), w)))
  ∧ (let filePath := node_path.join [dirname; ".."; "uploads"; name] in
     node_path.startsWith filePath
       (node_path.join [dirname; ".."; "uploads"]) = true →
     (find_by_filename name w = None →
      ∀ d, taskService.getDocumentPath name (user_id req) (user_role req)
             (set_disk d w)
           = (Thrown (HttpError 404 not_found), set_disk d w))
     ∧ (∀ task,
          find_by_filename name w = Some task →
          user_role req = constants.ADMIN
          ∨ user_id req = createdBy task ∨ user_id req = assignedTo task →
          (∀ d, d ∈ attachedDocuments task → filename d = name →
                path d ∉ disk w) →
          filePath ∉ disk w →
          taskService.getDocumentPath name (user_id req) (user_role req) w
          = (Thrown (HttpError 404 missing), w))).
Proof.
  intros name not_found missing. split_and!; [done| |].
  - intros Hpath. unfold downloadDocument. fold name. rewrite Hpath.
    cbn [negb]. run. split.
    + intros Hnone d. unfold find_by_filename in *. cbn [tasks set_disk].
      by rewrite Hnone.
    + intros task Hsome Hallowed _ Habsent. rewrite Hsome. cbv beta iota.
      rewrite (download_allowed_not_denied _ _ _ Hallowed).
      unfold fs_existsSync. by rewrite bool_decide_eq_false_2.
  - intros filePath Hpath. unfold taskService.getDocumentPath.
    fold filePath. rewrite Hpath. cbn [negb]. run. split.
    + intros Hnone d. unfold find_by_filename in *. cbn [tasks set_disk].
      by rewrite Hnone.
    + intros task Hsome Hallowed _ Habsent. rewrite Hsome. cbv beta iota.
      rewrite (download_allowed_not_denied _ _ _ Hallowed).
      unfold fs_existsSync. by rewrite bool_decide_eq_false_2.
Qed.

(** *** Listing *)

Lemma elem_of_insert_by le t l x :
  x ∈ insert_by le t l ↔ x = t ∨ x ∈ l.
Proof.
  induction l as [|y l IH]; simpl; [set_solver|].
  destruct (le t y); [set_solver|]. rewrite !elem_of_cons, IH. naive_solver.
Qed.

Lemma elem_of_sort_by field ascending l x :
  x ∈ sort_by field ascending l ↔ x ∈ l.
Proof.
  unfold sort_by. induction l as [|y l IH]; simpl; [done|].
  rewrite elem_of_insert_by, IH. set_solver.
Qed.

Lemma elem_of_limit_to n l x : x ∈ limit_to n l → x ∈ l.
Proof.
  unfold limit_to. destruct (n =? 0); [done|].
  apply subseteq_take.
Qed.

(** Every task that getTasks returns is in the collection and matches the
    query the handler built. *)
Lemma getTasks_listed req w w' l :
  getTasks req w = (Val (mkResponse 200 (TasksJson l)), w') →
  ∀ t, t ∈ l →
    t ∈ tasks w
    ∧ matches (list_query (query req) (user_id req) (user_role req)) t = true.
Proof.
  unfold getTasks, Task_find. run. intros Hrun t Ht.
  step Hrun; inversion Hrun; subst; clear Hrun.
  all: apply elem_of_limit_to, subseteq_drop, elem_of_sort_by in Ht.
  all: apply list_elem_of_In, filter_In in Ht as [Hin Hm].
  all: by apply list_elem_of_In in Hin.
Qed.

Lemma equals_filter (v : option string) (x : string) :
  from_option (λ s, bool_decide (x = s)) true (keep_truthy v)
  = if truthy v then bool_decide (Some x = v) else true.
Proof.
  unfold keep_truthy. destruct (truthy v) eqn:Hv; [|done].
  destruct v as [s|]; [|done]. simpl.
  apply bool_decide_ext. naive_solver.
Qed.

(** Without a search text the query of a non-admin actor is the
    restriction of the specification conjoined with the filters. *)
Lemma list_query_without_search q actor role t :
  role ≠ constants.ADMIN →
  truthy (q_search q) = false →
  matches (list_query q actor role) t = spec_listed q actor t.
Proof.
  intros Hrole Hsearch. unfold list_query, spec_listed, spec_caller_filters.
  rewrite bool_decide_eq_false_2 by done. rewrite Hsearch.
  unfold matches.
  cbn [negb m_status m_priority m_dueDate m_assignedTo m_or].
  rewrite !equals_filter.
  cbn [from_option default app existsb clause_holds].
  destruct (truthy (q_dueDate q)); [destruct (new_Date _)|];
    rewrite orb_false_r, andb_true_r;
    repeat match goal with |- context [if ?c then _ else _] => destruct c end;
    repeat match goal with |- context [bool_decide ?P] =>
             destruct (bool_decide P) end;
    repeat match goal with |- context [?a <=? ?b] => destruct (a <=? b) end;
    reflexivity.
Qed.

(** With a search text the two regular expressions join the two ownership
    clauses in one disjunction. *)
Lemma list_query_with_search q actor role t :
  role ≠ constants.ADMIN →
  truthy (q_search q) = true →
  matches (list_query q actor role) t
  = spec_caller_filters (without_search q) t
    && (regex_i (or_else (q_search q) "") (title t)
        || regex_i (or_else (q_search q) "") (description t)
        || bool_decide (createdBy t = actor)
        || bool_decide (assignedTo t = actor)).
Proof.
  intros Hrole Hsearch. unfold list_query, spec_caller_filters, without_search.
  rewrite bool_decide_eq_false_2 by done. rewrite Hsearch.
  unfold matches.
  cbn [negb m_status m_priority m_dueDate m_assignedTo m_or
       truthy q_status q_priority q_dueDate q_assignedTo q_search].
  rewrite !equals_filter.
  cbn [from_option default app existsb clause_holds].
  unfold id. cbn [app existsb clause_holds].
  rewrite orb_false_r, andb_true_r, !orb_assoc.
  destruct (truthy (q_dueDate q)); [destruct (new_Date _)|]; reflexivity.
Qed.

(** A non-admin actor who supplies no search text is only shown tasks the
    specification lets them list. *)
Lemma listing_without_search req w w' l :
  user_role req ≠ constants.ADMIN →
  truthy (q_search (query req)) = false →
  getTasks req w = (Val (mkResponse 200 (TasksJson l)), w') →
  ∀ t, t ∈ l → spec_listed (query req) (user_id req) t = true.
Proof.
  intros Hrole Hsearch Hrun t Ht.
  destruct (getTasks_listed _ _ _ _ Hrun t Ht) as [_ Hm].
  by rewrite list_query_without_search in Hm.
Qed.

(** *** Checks by computation *)

Lemma uploads_stored_check fs w :
  bool_decide (NoDup (map file_path fs))
  && forallb (λ f, bool_decide (file_path f ∈ disk w)) fs = true →
  uploads_stored fs w.
Proof.
  intros [Hnd Hall]%andb_true_iff. split; [by apply bool_decide_eq_true in Hnd|].
  intros f Hf. rewrite forallb_forall in Hall.
  apply list_elem_of_In, Hall in Hf. by apply bool_decide_eq_true in Hf.
Qed.

Lemma name_unshared_check (name id : string) (l : list Task) :
  forallb (λ t, bool_decide (_id t = id) || negb (has_filename name t)) l
  = true →
  ∀ t, t ∈ l → _id t ≠ id → has_filename name t = false.
Proof.
  intros Hall t Ht Hid. rewrite forallb_forall in Hall.
  apply list_elem_of_In, Hall in Ht.
  rewrite bool_decide_eq_false_2 in Ht by done.
  by apply negb_true_iff in Ht.
Qed.

Lemma restamped_check (t : Task) (l : list Task) :
  forallb (λ x, negb (bool_decide (_id x = _id t))
                || negb (updatedAt x =? updatedAt t)) l = true →
  t ∉ l.
Proof.
  intros Hall Hin. rewrite forallb_forall in Hall.
  apply list_elem_of_In, Hall in Hin.
  rewrite bool_decide_eq_true_2, Z.eqb_refl in Hin by done. done.
Qed.

Lemma files_absent_check (name : string) (docs : list Document) w :
  forallb (λ d, negb (bool_decide (filename d = name))
                || bool_decide (path d ∉ disk w)) docs = true →
  ∀ d, d ∈ docs → filename d = name → path d ∉ disk w.
Proof.
  intros Hall d Hd Hname. rewrite forallb_forall in Hall.
  apply list_elem_of_In, Hall in Hd.
  rewrite bool_decide_eq_true_2 in Hd by done.
  by apply bool_decide_eq_true in Hd.
Qed.

Lemma uploads_apart_check fs (docs : list Document) :
  forallb (λ f, bool_decide (file_path f ∉ paths_of docs)) fs = true →
  ∀ f, f ∈ fs → file_path f ∉ paths_of docs.
Proof.
  intros Hall f Hf. rewrite forallb_forall in Hall.
  apply list_elem_of_In, Hall in Hf. by apply bool_decide_eq_true in Hf.
Qed.


(** ** Further properties of the handlers *)

(** *** Reading handlers *)

Lemma view_denied_run role uid creator assignee w :
  view_denied role uid creator assignee w
  = (if bool_decide (role = constants.ADMIN) then Val false
     else match creator with
          | None => Thrown TypeError
          | Some c =>
              if bool_decide (c = uid) then Val false
              else match assignee with
                   | None => Thrown TypeError
                   | Some a => Val (negb (bool_decide (a = uid)))
                   end
          end, w).
Proof.
  unfold view_denied. run.
  destruct (bool_decide (role = constants.ADMIN)); [done|]. cbn [negb].
  destruct creator as [c|]; [|done].
  destruct (bool_decide (c = uid)); [done|]. cbn [negb].
  by destruct assignee.
Qed.

Lemma getTaskById_run req w :
  getTaskById req w
  = (match find_task (params_id req) w with
     | None => Val (json_message 404 "Task not found.")
     | Some task =>
         match (view_denied (user_role req) (user_id req)
                  (populated (createdBy task) w)
                  (populated (assignedTo task) w) w).1 with
         | Val true => Val (json_message 403 "Not authorized to view this task.")
         | Val false => Val (mkResponse 200 (TaskJson task))
         | Thrown _ => Val (json_message 500 "Server error fetching task.")
         end
     end, w).
Proof.
  unfold getTaskById. run. fold (find_task (params_id req) w).
  destruct (find_task (params_id req) w) as [task|]; [|done].
  cbn [fmap option_fmap option_map]. cbv beta iota.
  rewrite view_denied_run. cbn [fst].
  repeat (inner_destruct_goal; try done).
Qed.

(** X1: getTaskById answers 404 when no task has the identifier and 200
    with the task to an administrator. For any other actor the check
    compares the identifier of the actor with what [populate] has put in
    place of the creator and of the assignee, read as text: the task is
    sent exactly when one of these texts is the identifier of the actor,
    the creator being read first; and when neither text is that
    identifier, which is the case of the printed form of a user document,
    the answer is 403 if both accounts exist and 500 if one of them does
    not, also for the creator and for the assignee of the task. The world
    is left as it was. *)
Theorem view_access req w :
  (getTaskById req w).2 = w
  ∧ (find_task (params_id req) w = None →
     (getTaskById req w).1 = Val (json_message 404 "Task not found."))
  ∧ (∀ task,
       find_task (params_id req) w = Some task →
       (user_role req = constants.ADMIN →
        (getTaskById req w).1 = Val (mkResponse 200 (TaskJson task)))
       ∧ (user_role req ≠ constants.ADMIN →
          ((getTaskById req w).1 = Val (mkResponse 200 (TaskJson task))
           ↔ createdBy task ∈ users w
             ∧ (inspect_user (createdBy task) = user_id req
                ∨ assignedTo task ∈ users w
                  ∧ inspect_user (assignedTo task) = user_id req))
          ∧ (inspect_user (createdBy task) ≠ user_id req →
             inspect_user (assignedTo task) ≠ user_id req →
             (getTaskById req w).1
             = Val (if bool_decide (createdBy task ∈ users w
                                    ∧ assignedTo task ∈ users w)
                    then json_message 403 "Not authorized to view this task."
                    else json_message 500 "Server error fetching task.")))).
Proof.
  rewrite getTaskById_run. cbn [fst snd]. split; [done|].
  split; [by intros ->|]. intros task ->.
  rewrite view_denied_run. cbn [fst]. unfold populated. split.
  - intros Hadmin. by rewrite bool_decide_eq_true_2 by done.
  - intros Hrole. rewrite (bool_decide_eq_false_2 (user_role req = _)) by done.
    destruct (decide (createdBy task ∈ users w)) as [Hc|Hc];
      [rewrite (bool_decide_eq_true_2 (createdBy task ∈ users w)) by done
      |rewrite (bool_decide_eq_false_2 (createdBy task ∈ users w)) by done].
    2:{ split; [split; [done|tauto]|].
        intros _ _. by rewrite bool_decide_eq_false_2 by tauto. }
    destruct (decide (inspect_user (createdBy task) = user_id req)) as [Hci|Hci];
      [rewrite (bool_decide_eq_true_2 (inspect_user (createdBy task) = _)) by done
      |rewrite (bool_decide_eq_false_2 (inspect_user (createdBy task) = _)) by done].
    1:{ split; [split; [tauto|done]|done]. }
    destruct (decide (assignedTo task ∈ users w)) as [Ha|Ha];
      [rewrite (bool_decide_eq_true_2 (assignedTo task ∈ users w)) by done
      |rewrite (bool_decide_eq_false_2 (assignedTo task ∈ users w)) by done].
    2:{ split; [split; [done|tauto]|].
        intros _ _. by rewrite bool_decide_eq_false_2 by tauto. }
    destruct (decide (inspect_user (assignedTo task) = user_id req)) as [Hai|Hai];
      [rewrite (bool_decide_eq_true_2 (inspect_user (assignedTo task) = _)) by done
      |rewrite (bool_decide_eq_false_2 (inspect_user (assignedTo task) = _)) by done].
    + cbn [negb]. split; [split; [tauto|done]|done].
    + cbn [negb]. split; [split; [done|tauto]|].
      intros _ _. by rewrite bool_decide_eq_true_2 by tauto.
Qed.

(** X2: the reading operations, getTasks, getTaskById and downloadDocument of
    the controller and getTasks, getTaskById and getDocumentPath of the
    service, leave the collection, the accounts and the storage as they
    were, whatever they answer. *)
Theorem reading_changes_nothing req w :
  (getTasks req w).2 = w
  ∧ (getTaskById req w).2 = w
  ∧ (downloadDocument req w).2 = w
  ∧ (taskService.getTasks (query req) (user_id req) (user_role req) w).2 = w
  ∧ (taskService.getTaskById (params_id req) (user_id req) (user_role req) w).2 = w
  ∧ (taskService.getDocumentPath (params_filename req) (user_id req)
       (user_role req) w).2 = w.
Proof.
  unfold getTasks, getTaskById, downloadDocument, taskService.getTasks,
    taskService.getTaskById, taskService.getDocumentPath, Task_find,
    fs_existsSync, view_denied.
  run. split_and!; step_goal; reflexivity.
Qed.

Lemma download_denied (role uid : string) task :
  ¬ (role = constants.ADMIN ∨ uid = createdBy task ∨ uid = assignedTo task) →
  negb (bool_decide (role = constants.ADMIN))
  && negb (bool_decide (createdBy task = uid))
  && negb (bool_decide (assignedTo task = uid)) = true.
Proof.
  intros H. rewrite !andb_true_iff, !negb_true_iff, !bool_decide_eq_false.
  naive_solver.
Qed.

(** X3: for a file name that passes the path check and that a task attaches,
    downloadDocument answers 403 exactly when the actor is neither an
    administrator nor the creator nor the assignee of the first task that
    attaches a document of that name; an actor who may, and whose file is on
    storage, is sent the file under that name. *)
Theorem download_access req w task :
  node_path.startsWith (download_path (params_filename req)) uploads_root
  = true →
  find_by_filename (params_filename req) w = Some task →
  ((downloadDocument req w).1
     = Val (json_message 403 "Not authorized to download this document.")
   ↔ ¬ (user_role req = constants.ADMIN
        ∨ user_id req = createdBy task ∨ user_id req = assignedTo task))
  ∧ (user_role req = constants.ADMIN
     ∨ user_id req = createdBy task ∨ user_id req = assignedTo task →
     download_path (params_filename req) ∈ disk w →
     (downloadDocument req w).1
     = Val (mkResponse 200 (Download (download_path (params_filename req))
                              (params_filename req)))).
Proof.
  intros Hpath Hfind.
  unfold downloadDocument. cbv zeta. rewrite Hpath. cbn [negb]. run.
  rewrite Hfind. cbv beta iota. unfold fs_existsSync.
  destruct (decide (user_role req = constants.ADMIN
                    ∨ user_id req = createdBy task
                    ∨ user_id req = assignedTo task)) as [Hyes|Hno].
  - rewrite (download_allowed_not_denied _ _ _ Hyes). split.
    + split; [|done]. destruct (bool_decide _); unfold json_message; discriminate.
    + intros _ Hdisk. by rewrite bool_decide_eq_true_2.
  - rewrite (download_denied _ _ _ Hno). by split.
Qed.

(** X26: what downloadDocument sends depends on the storage only through
    the upload directory joined with the requested name; the stored path
    of the document plays no part. For a name that passes the path check
    and an actor who may download, the file under that joined path is sent
    when there is one, whatever it is, and otherwise the answer is "File
    not found on server", also when the file of the document is on
    storage under its stored path. *)
Theorem download_probes_requested_name req w task :
  node_path.startsWith (download_path (params_filename req)) uploads_root
  = true →
  find_by_filename (params_filename req) w = Some task →
  user_role req = constants.ADMIN
  ∨ user_id req = createdBy task ∨ user_id req = assignedTo task →
  (download_path (params_filename req) ∈ disk w →
   downloadDocument req w
   = (Val (mkResponse 200 (Download (download_path (params_filename req))
                             (params_filename req))), w))
  ∧ (download_path (params_filename req) ∉ disk w →
     downloadDocument req w
     = (Val (json_message 404 "File not found on server."), w))
  ∧ (∀ d, (downloadDocument req (set_disk (disk w ∪ {[path d]}) w)).1
          = (downloadDocument req w).1
          ∨ path d = download_path (params_filename req)).
Proof.
  intros Hpath Hfind Hallowed.
  unfold downloadDocument. cbv zeta. rewrite Hpath. cbn [negb]. run.
  unfold find_by_filename in *. cbn [tasks set_disk]. rewrite Hfind.
  cbv beta iota. rewrite (download_allowed_not_denied _ _ _ Hallowed).
  unfold fs_existsSync. cbn [disk set_disk]. split_and!.
  - intros Hin. by rewrite bool_decide_eq_true_2.
  - intros Hout. by rewrite bool_decide_eq_false_2.
  - intros d.
    destruct (decide (path d = download_path (params_filename req)))
      as [|Hne]; [by right|]. left.
    destruct (decide (download_path (params_filename req) ∈ disk w)).
    + by rewrite !bool_decide_eq_true_2 by set_solver.
    + by rewrite !bool_decide_eq_false_2 by set_solver.
Qed.

(** *** Uploads are kept or removed *)

Lemma uploads_stored_after fs w w1 (S : gset string) :
  uploads_stored fs w →
  (∀ f, f ∈ fs → file_path f ∉ S) →
  disk w1 = disk w ∖ S →
  discard_uploads fs w1 = (Val tt, set_disk (disk w1 ∖ upload_paths fs) w1).
Proof.
  intros [Hnd Hin] Hout Hdisk. apply discard_uploads_stored.
  split; [done|]. intros f Hf. rewrite Hdisk.
  apply elem_of_difference. auto.
Qed.

Lemma upload_paths_gone fs (d : gset string) f :
  f ∈ fs → file_path f ∉ d ∖ upload_paths fs.
Proof.
  intros Hf [_ Hn]%elem_of_difference. apply Hn.
  apply elem_of_list_to_set, list_elem_of_fmap. eauto.
Qed.

Lemma fresh_documents_paths n fs :
  map path (cast_documents n (map fresh_of_file fs)).1 = map file_path fs.
Proof.
  revert n. induction fs as [|f fs IH]; intros n; simpl; [done|].
  specialize (IH (S n)).
  destruct (cast_documents (S n) (map fresh_of_file fs)). simpl in *.
  by rewrite IH.
Qed.

(** X4: createTask always answers when the uploads are on storage. It
    answers 201 only where [populate] can be chained on the saved
    document; the task is then appended to the collection and the storage
    is untouched. With any other answer every uploaded file has been
    removed from storage, and the collection is unchanged, unless the
    document had been saved before the chained [populate] failed: the
    answer is then 500 and the collection holds the new task, whose
    documents point to the removed files. *)
Theorem create_keeps_or_removes_uploads req w :
  uploads_stored (files req) w →
  ∃ r w',
    createTask req w = (Val r, w')
    ∧ (statusCode r = 201 →
       populate_chains = true
       ∧ disk w' = disk w
       ∧ ∃ t, r = mkResponse 201 (TaskJson t)
              ∧ tasks w' = (tasks w ++ [t])%list)
    ∧ (statusCode r ≠ 201 →
       disk w' = disk w ∖ upload_paths (files req)
       ∧ (tasks w' = tasks w
          ∨ populate_chains = false
            ∧ r = json_message 500 "Server error during task creation."
            ∧ ∃ t, tasks w' = (tasks w ++ [t])%list
                   ∧ map path (attachedDocuments t)
                     = map file_path (files req))).
Proof.
  intros Hup.
  assert (Hdiscard : ∀ w1, disk w1 = disk w →
            discard_uploads (files req) w1
            = (Val tt, set_disk (disk w1 ∖ upload_paths (files req)) w1)).
  { intros w1 Hd. apply (uploads_stored_after _ w _ ∅); [done|set_solver|].
    rewrite Hd. set_solver. }
  unfold createTask. run_all. unfold Task_create, cast_reference.
  cbn [i_title i_description i_status i_priority i_dueDate i_assignedTo
       i_createdBy i_attachedDocuments].
  step_goal.
  all: repeat match goal with
       | H : discard_uploads _ _ = _ |- _ =>
           rewrite Hdiscard in H by done; inversion H; subst; clear H
       end.
  all: eexists _, _; split; [reflexivity|].
  all: cbn [tasks disk set_disk set_tasks set_next_oid statusCode json_message
            i_attachedDocuments].
  all: split; [try (intros; lia)|try (intros; exfalso; lia)].
  all: try (intros _; split; [done|]; by left).
  - intros _. split_and!; [done|done|]. eauto.
  - intros _. split; [done|]. right. split_and!; [done|done|].
    eexists. split; [reflexivity|]. cbn [attachedDocuments].
    match goal with H : cast_documents _ _ = _ |- _ =>
      rewrite <- (fresh_documents_paths (S (next_oid w))), H end. done.
Qed.

(** X25: a valid createTask with at most three uploads, an assignee that
    resolves, an actor whose identifier casts, a due date that casts and
    fields that pass the validators of the schema inserts the document it
    built, with the actor as creator. Where [populate] can be chained on
    the saved document the answer is 201 with that document; where it
    cannot, the failure of the chain is caught after the save, the
    uploads are removed and the answer is 500. *)
Theorem create_stores_then_answers req w due assignee :
  req_valid req = true →
  (List.length (files req) ≤ 3)%nat →
  b_assignedTo (body req) = Some assignee →
  find_user (Some assignee) w = Some assignee →
  isValidObjectId (user_id req) = true →
  cast_date (b_dueDate (body req)) = Some due →
  validateSync
    (mkTask (ObjectId (next_oid w))
       (trim (default "" (b_title (body req))))
       (trim (default "" (b_description (body req))))
       (default "To Do" (b_status (body req)))
       (default "Low" (b_priority (body req)))
       due assignee (user_id req)
       (cast_documents (S (next_oid w)) (map fresh_of_file (files req))).1
       (now w) (now w)) = true →
  createTask req w
    = let t := mkTask (ObjectId (next_oid w))
                 (trim (default "" (b_title (body req))))
                 (trim (default "" (b_description (body req))))
                 (default "To Do" (b_status (body req)))
                 (default "Low" (b_priority (body req)))
                 due assignee (user_id req)
                 (cast_documents (S (next_oid w))
                    (map fresh_of_file (files req))).1
                 (now w) (now w) in
      let saved := set_tasks (tasks w ++ [t])%list
                     (set_next_oid
                        (cast_documents (S (next_oid w))
                           (map fresh_of_file (files req))).2 w) in
      if populate_chains then (Val (mkResponse 201 (TaskJson t)), saved)
      else match discard_uploads (files req) saved with
           | (Val _, w') =>
               (Val (json_message 500 "Server error during task creation."), w')
           | (Thrown e, w') => (Thrown e, w')
           end.
Proof.
  intros Hvalid Hlen Hto Huser Hactor Hdue Hschema.
  unfold createTask. rewrite Hvalid. cbn [negb].
  rewrite (proj2 (andb_false_iff _ _))
    by (right; apply bool_decide_eq_false;
        unfold constants.MAX_DOCUMENTS_PER_TASK; lia).
  run. rewrite Hto.
  rewrite (User_findById_found (Some assignee) w) by (rewrite Huser; eauto).
  rewrite Huser. cbv beta iota. unfold Task_create, cast_reference.
  cbn [i_title i_description i_status i_priority i_dueDate i_assignedTo
       i_createdBy i_attachedDocuments].
  destruct (cast_documents _ _) as [docs n] eqn:Hcast. cbn [fst snd] in *.
  rewrite Hdue, Hactor.
  assert (Hcastable : isValidObjectId assignee = true).
  { unfold find_user in Huser. by destruct (isValidObjectId assignee). }
  rewrite Hcastable, Hschema.
  destruct populate_chains; [done|].
  cbv beta iota.
  destruct (discard_uploads _ _) as [[[]|e] w']; done.
Qed.


Lemma filter_by_id_subset keep parsed docs l :
  filter_by_id keep parsed docs = Val l → ∀ d, d ∈ l → d ∈ docs.
Proof.
  revert l. induction docs as [|x docs IH]; simpl; intros l H d Hd.
  - by inversion H; subst.
  - destruct (some_has_id parsed (doc_id x)); [|done].
    destruct (filter_by_id keep parsed docs) as [ds|]; [|done].
    inversion H; subst. case_bool_decide; set_solver.
Qed.

Lemma reconciled_subset current existing kept removed :
  reconciled current existing = Val (kept, removed) →
  (∀ d, d ∈ kept → d ∈ current) ∧ (∀ d, d ∈ removed → d ∈ current).
Proof.
  unfold reconciled. destruct existing as [entries|].
  - destruct (parse_entries entries) as [parsed|]; [|done].
    destruct (filter_by_id false parsed current) eqn:Hr; [|done].
    destruct (filter_by_id true parsed current) eqn:Hk; [|done].
    intros [= <- <-]. split; by eapply filter_by_id_subset.
  - intros [= <- <-]. split; [set_solver|done].
Qed.

Lemma cast_documents_uploads n kept fs f :
  f ∈ fs →
  file_path f
  ∈ map path (cast_documents n (map Existing kept ++ map fresh_of_file fs)).1.
Proof.
  intros Hf. revert n. induction kept as [|k kept IH]; simpl; intros n.
  - rewrite fresh_documents_paths. apply list_elem_of_fmap. eauto.
  - specialize (IH n).
    destruct (cast_documents n (map Existing kept ++ map fresh_of_file fs)).
    simpl in *. by right.
Qed.

(** X5: updateTask always answers when the uploads are on storage under
    paths no document of the task uses. It answers 200 only where
    [populate] can be chained on the saved document, and every uploaded
    file is then still on storage. With any other answer none of the
    uploaded files is left on storage, and the collection is unchanged,
    unless the task had been saved before the chained [populate] failed:
    the answer is then 500 and the stored task attaches the removed
    uploads. *)
Theorem update_keeps_or_removes_uploads req w :
  uploads_stored (files req) w →
  (∀ task, find_task (params_id req) w = Some task →
     ∀ f, f ∈ files req → file_path f ∉ paths_of (attachedDocuments task)) →
  ∃ r w',
    updateTask req w = (Val r, w')
    ∧ (statusCode r = 200 →
       populate_chains = true
       ∧ (∃ t, r = mkResponse 200 (TaskJson t))
       ∧ ∀ f, f ∈ files req → file_path f ∈ disk w')
    ∧ (statusCode r ≠ 200 →
       (∀ f, f ∈ files req → file_path f ∉ disk w')
       ∧ (tasks w' = tasks w
          ∨ populate_chains = false
            ∧ r = json_message 500 "Server error during task update."
            ∧ ∃ t, tasks w' = replace_task t (tasks w)
                   ∧ ∀ f, f ∈ files req →
                          file_path f ∈ map path (attachedDocuments t))).
Proof.
  intros Hup Hapart.
  assert (Hdiscard : ∀ w1 task removed,
            find_task (params_id req) w = Some task →
            (∀ d, d ∈ removed → d ∈ attachedDocuments task) →
            disk w1 = disk w ∖ paths_of removed →
            discard_uploads (files req) w1
            = (Val tt, set_disk (disk w1 ∖ upload_paths (files req)) w1)).
  { intros w1 task removed Hfind Hsub Hd.
    apply (uploads_stored_after _ w _ (paths_of removed)); [done| |done].
    intros f Hf Hin. apply (Hapart task Hfind f Hf).
    unfold paths_of in *. apply elem_of_list_to_set in Hin.
    apply elem_of_list_to_set.
    apply list_elem_of_fmap in Hin as (d & -> & Hd').
    apply list_elem_of_fmap. eauto. }
  assert (Hdiscard0 : discard_uploads (files req) w
            = (Val tt, set_disk (disk w ∖ upload_paths (files req)) w)).
  { by apply discard_uploads_stored. }
  assert (Hkept : ∀ task removed f,
            find_task (params_id req) w = Some task →
            (∀ d, d ∈ removed → d ∈ attachedDocuments task) →
            f ∈ files req → file_path f ∈ disk w ∖ paths_of removed).
  { intros task removed f Hfind Hsub Hf. apply elem_of_difference.
    split; [by apply Hup|]. intros Hin. apply (Hapart task Hfind f Hf).
    unfold paths_of in *; apply elem_of_list_to_set in Hin;
      apply elem_of_list_to_set;
      apply list_elem_of_fmap in Hin as (d & -> & Hd');
      apply list_elem_of_fmap; eauto. }
  unfold updateTask. run_all. unfold cast_subdocuments, Task_save.
  destruct (req_valid req); cbn [negb]; cbv beta iota.
  2:{ rewrite Hdiscard0. eexists _, _. split; [reflexivity|].
      cbn [statusCode json_message tasks disk set_disk].
      split; [intros; lia|]. intros _. split; [|by left].
      intros f Hf. by apply upload_paths_gone. }
  destruct (find_task (params_id req) w) as [task|] eqn:Hfind; cbv beta iota.
  2:{ rewrite Hdiscard0. eexists _, _. split; [reflexivity|].
      cbn [statusCode json_message tasks disk set_disk].
      split; [intros; lia|]. intros _. split; [|by left].
      intros f Hf. by apply upload_paths_gone. }
  specialize (Hdiscard) with (task := task).
  specialize (Hkept) with (task := task).
  destruct (negb _ && negb _); cbv beta iota.
  { rewrite Hdiscard0. eexists _, _. split; [reflexivity|].
    cbn [statusCode json_message tasks disk set_disk].
    split; [intros; lia|]. intros _. split; [|by left].
    intros f Hf. by apply upload_paths_gone. }
  assert (Hearly : ∀ (e : Exn),
    ∃ r w',
      (let (o, w') := discard_uploads (files req) w in
       match o with
       | Val _ =>
           (if is_ObjectId_error e
            then λ w0, (Val (json_message 404 "Task not found."), w0)
            else λ w0, (Val (json_message 500
                               "Server error during task update."), w0)) w'
       | Thrown e0 => (Thrown e0, w')
       end) = (Val r, w')
      ∧ (statusCode r = 200 →
         populate_chains = true
         ∧ (∃ t, r = mkResponse 200 (TaskJson t))
         ∧ ∀ f, f ∈ files req → file_path f ∈ disk w')
      ∧ (statusCode r ≠ 200 →
         (∀ f, f ∈ files req → file_path f ∉ disk w')
         ∧ (tasks w' = tasks w
            ∨ populate_chains = false
              ∧ r = json_message 500 "Server error during task update."
              ∧ ∃ t, tasks w' = replace_task t (tasks w)
                     ∧ ∀ f, f ∈ files req →
                            file_path f ∈ map path (attachedDocuments t)))).
  { intros e. rewrite Hdiscard0.
    destruct (is_ObjectId_error e); (eexists _, _; split; [reflexivity|]);
      cbn [statusCode json_message tasks disk set_disk];
      (split; [intros; lia|]); intros _; (split; [|by left]);
      intros f Hf; by apply upload_paths_gone. }
  destruct (truthy (b_assignedTo (body req))); cbv beta iota.
  1: destruct (b_assignedTo (body req)) as [u|]; cbv beta iota.
  1: destruct (isValidObjectId u); cbv beta iota; [|by apply Hearly].
  1,2: destruct (negb (bool_decide _)); cbv beta iota.
  1,3: rewrite Hdiscard0; (eexists _, _; split; [reflexivity|]);
       cbn [statusCode json_message tasks disk set_disk];
       (split; [intros; lia|]); intros _; (split; [|by left]);
       intros f Hf; by apply upload_paths_gone.
  all: rewrite retain_documents_run.
  all: destruct (reconciled _ _) as [[kept removed]|e] eqn:Hrec; cbv beta iota.
  2,4,6: by apply Hearly.
  all: destruct (reconciled_subset _ _ _ _ Hrec) as [_ Hsub].
  all: specialize (Hdiscard) with (removed := removed).
  all: specialize (Hkept) with (removed := removed).
  all: step_goal.
  all: repeat match goal with
       | H : discard_uploads _ _ = _ |- _ =>
           rewrite Hdiscard in H by done; inversion H; subst; clear H
       end.
  all: eexists _, _; split; [reflexivity|].
  all: cbn [tasks disk set_disk set_tasks set_next_oid statusCode json_message].
  all: split; [try (intros; lia)|try (intros; exfalso; lia)].
  all: try (intros _; split; [intros f Hf; by apply upload_paths_gone|];
            by left).
  all: try (intros _; split_and!; [done|eauto|]; intros f Hf;
            by apply Hkept).
  all: intros _; split; [intros f Hf; by apply upload_paths_gone|].
  all: right; split_and!; [done|done|].
  all: eexists; split; [reflexivity|].
  all: intros f Hf; cbn [attachedDocuments touch assign_fields].
  all: cbn [next_oid set_disk] in *.
  all: match goal with H : cast_documents _ _ = _ |- _ =>
         pose proof (cast_documents_uploads (next_oid w) kept (files req) f Hf)
           as Hin; by rewrite H in Hin end.
Qed.

(** *** Updates *)

Lemma replace_task_ids t l : map _id (replace_task t l) = map _id l.
Proof.
  induction l as [|x l IH]; simpl; [done|].
  case_bool_decide as Hx; simpl; [by rewrite Hx|by rewrite IH].
Qed.

Lemma replace_task_others t l x :
  x ∈ l → _id x ≠ _id t → x ∈ replace_task t l.
Proof.
  induction l as [|y l IH]; simpl; intros Hx Hid; [done|].
  apply elem_of_cons in Hx as [->|Hx].
  - rewrite bool_decide_eq_false_2 by done. set_solver.
  - case_bool_decide; [set_solver|]. apply elem_of_cons. right. by apply IH.
Qed.

(** X6: whatever updateTask answers, the collection keeps its identifiers
    in their order and every task with another identifier; the task of
    the request is still stored under its identifier, with the creation
    time and the creator it had, and it is either the task that was
    stored or one stamped with the current time. *)
Theorem update_touches_one_record req w :
  map _id (tasks (updateTask req w).2) = map _id (tasks w)
  ∧ (∀ x, x ∈ tasks w → _id x ≠ params_id req →
          x ∈ tasks (updateTask req w).2)
  ∧ (∀ task,
       find_task (params_id req) w = Some task →
       ∃ t', find_task (params_id req) (updateTask req w).2 = Some t'
             ∧ _id t' = params_id req
             ∧ createdAt t' = createdAt task
             ∧ createdBy t' = createdBy task
             ∧ (t' = task ∨ updatedAt t' = now w)).
Proof.
  destruct (updateTask_saved req w)
    as [Hsame|(task & kept & removed & due & _ & Hfind & _ & _ & _ & _ & _ & _
               & Htasks)].
  - rewrite Hsame. split_and!; [done|done|].
    intros task Hfind. exists task. unfold find_task in *. rewrite Hsame.
    split_and!; try done; [|by left].
    by apply (find_task_id _ w).
  - rewrite Htasks. set (t := touch _ _) in *.
    pose proof (find_task_id _ _ _ Hfind) as Hid.
    assert (Hidt : _id t = params_id req) by done.
    split_and!.
    + apply replace_task_ids.
    + intros x Hx Hne. apply replace_task_others; [done|congruence].
    + intros task' Hfind'. simplify_eq. exists t.
      rewrite <- Hidt in Hfind |- *.
      destruct (replace_task_found t task w Hfind) as [_ Hfound].
      unfold find_task in *. cbn [tasks set_tasks] in Hfound.
      rewrite Htasks. split_and!; try done. by right.
Qed.

(** *** Reconciliation of the documents *)

Lemma filter_by_id_split parsed docs kept removed :
  filter_by_id true parsed docs = Val kept →
  filter_by_id false parsed docs = Val removed →
  docs ≡ₚ kept ++ removed
  ∧ kept `sublist_of` docs ∧ removed `sublist_of` docs.
Proof.
  revert kept removed.
  induction docs as [|d docs IH]; simpl; intros kept removed Hk Hr.
  - inversion Hk; inversion Hr; subst. by split_and!.
  - destruct (some_has_id parsed (doc_id d)) as [b|]; [|done].
    destruct (filter_by_id true parsed docs) as [ks|]; [|done].
    destruct (filter_by_id false parsed docs) as [rs|]; [|done].
    destruct (IH _ _ eq_refl eq_refl) as (Hp & Hsk & Hsr).
    inversion Hk; inversion Hr; subst. destruct b; simpl.
    + split_and!; [by constructor | by constructor | by constructor].
    + split_and!; [|by constructor|by constructor].
      rewrite Hp. apply Permutation_middle.
Qed.

Lemma parse_retain_entries ids :
  parse_entries (map retain_entry ids)
  = Val (map (λ i, JValue (Some i)) ids).
Proof.
  induction ids as [|i ids IH]; simpl; [done|]. by rewrite IH.
Qed.

Lemma some_has_id_retained ids id :
  some_has_id (map (λ i, JValue (Some i)) ids) id
  = Val (bool_decide (id ∈ ids)).
Proof.
  induction ids as [|i ids IH]; cbn [some_has_id map].
  - by rewrite bool_decide_eq_false_2 by set_solver.
  - destruct (decide (i = id)) as [->|Hne].
    + rewrite (bool_decide_eq_true_2 (Some id = Some id)) by done.
      by rewrite bool_decide_eq_true_2 by set_solver.
    + rewrite (bool_decide_eq_false_2 (Some i = Some id)) by congruence.
      rewrite IH. f_equal. apply bool_decide_ext. set_solver.
Qed.

Lemma filter_by_id_retained keep ids docs :
  filter_by_id keep (map (λ i, JValue (Some i)) ids) docs
  = Val (List.filter
           (λ d, bool_decide (bool_decide (doc_id d ∈ ids) = keep)) docs).
Proof.
  induction docs as [|d docs IH]; cbn [filter_by_id List.filter]; [done|].
  rewrite some_has_id_retained, IH. done.
Qed.

(** X7: the documents kept and the documents removed by an update partition
    the documents of the task, each in its former order; an absent retain
    list keeps nothing, and a list of entries with identifiers keeps exactly
    the documents whose identifier is listed. *)
Theorem reconciliation_partitions current existing kept removed :
  reconciled current existing = Val (kept, removed) →
  current ≡ₚ kept ++ removed
  ∧ kept `sublist_of` current
  ∧ removed `sublist_of` current
  ∧ (existing = None → kept = [])
  ∧ (∀ ids, existing = Some (map retain_entry ids) →
       ∀ d, (d ∈ kept ↔ d ∈ current ∧ doc_id d ∈ ids)
            ∧ (d ∈ removed ↔ d ∈ current ∧ doc_id d ∉ ids)).
Proof.
  unfold reconciled. destruct existing as [entries|].
  - destruct (parse_entries entries) as [parsed|] eqn:Hparse; [|done].
    destruct (filter_by_id false parsed current) as [rs|] eqn:Hr; [|done].
    destruct (filter_by_id true parsed current) as [ks|] eqn:Hk; [|done].
    intros [= <- <-].
    destruct (filter_by_id_split _ _ _ _ Hk Hr) as (Hp & Hsk & Hsr).
    split_and!; [done..|].
    intros ids [= ->]. rewrite parse_retain_entries in Hparse.
    inversion Hparse; subst.
    rewrite filter_by_id_retained in Hk, Hr. inversion Hk; inversion Hr.
    intros d. rewrite !list_elem_of_In, !filter_In, <- !list_elem_of_In.
    rewrite !bool_decide_eq_true, bool_decide_eq_false. done.
  - intros [= <- <-]. rewrite app_nil_l. split_and!; try done.
    apply sublist_nil_l.
Qed.

Lemma cast_existing n docs :
  cast_documents n (map Existing docs) = (docs, n).
Proof.
  induction docs as [|d docs IH]; simpl; [done|]. by rewrite IH.
Qed.

Lemma filter_all {A} (f : A → bool) (l : list A) :
  (∀ x, x ∈ l → f x = true) → List.filter f l = l.
Proof.
  induction l as [|x l IH]; simpl; intros H; [done|].
  rewrite (H x) by set_solver. f_equal. apply IH. intros y Hy. apply H.
  set_solver.
Qed.

Lemma filter_none {A} (f : A → bool) (l : list A) :
  (∀ x, x ∈ l → f x = false) → List.filter f l = [].
Proof.
  induction l as [|x l IH]; simpl; intros H; [done|].
  rewrite (H x) by set_solver. apply IH. intros y Hy. apply H. set_solver.
Qed.

Lemma reconciled_all docs :
  reconciled docs (Some (map retain_entry (map doc_id docs)))
  = Val (docs, []).
Proof.
  unfold reconciled. rewrite parse_retain_entries, !filter_by_id_retained.
  rewrite filter_all, filter_none; [done| |].
  - intros d Hd. apply bool_decide_eq_false. intros Hf.
    apply bool_decide_eq_false in Hf. apply Hf.
    apply list_elem_of_fmap. eauto.
  - intros d Hd. apply bool_decide_eq_true, bool_decide_eq_true.
    apply list_elem_of_fmap. eauto.
Qed.

(** X8: an update that sends no field value and no file and retains every
    document of a valid task changes nothing but its [updatedAt]: the task
    is saved with the current time as its stamp, storage and accounts are
    as before, and the answer is 200 with the saved task where [populate]
    can be chained on it and 500 where it cannot. *)
Theorem resubmission_changes_nothing req w task :
  req_valid req = true →
  find_task (params_id req) w = Some task →
  user_role req = constants.ADMIN ∨ user_id req = createdBy task →
  validateSync task = true →
  (List.length (attachedDocuments task) ≤ constants.MAX_DOCUMENTS_PER_TASK)%nat →
  files req = [] →
  b_existingAttachedDocuments (body req)
  = Some (map retain_entry (map doc_id (attachedDocuments task))) →
  truthy (b_title (body req)) = false
  ∧ truthy (b_description (body req)) = false
  ∧ truthy (b_status (body req)) = false
  ∧ truthy (b_priority (body req)) = false
  ∧ truthy (b_dueDate (body req)) = false
  ∧ truthy (b_assignedTo (body req)) = false →
  updateTask req w
  = (if populate_chains
     then Val (mkResponse 200 (TaskJson (touch (now w) task)))
     else Val (json_message 500 "Server error during task update."),
     set_tasks (replace_task (touch (now w) task) (tasks w)) w).
Proof.
  intros Hvalid Hfind Hallowed Hschema Hlen Hfiles Hretain
    (Ht & Hd & Hs & Hp & Hdue & Ha).
  assert (Hsame : assign_fields (body req) task (dueDate task)
                    (attachedDocuments task) = task).
  { unfold assign_fields.
    rewrite !or_else_falsy, !or_else_trimmed_falsy by done. by destruct task. }
  rewrite (updateTask_saves req w task (attachedDocuments task) []
             (dueDate task)); try done.
  - cbn zeta. rewrite Hfiles, app_nil_r, cast_existing. cbn [fst snd].
    rewrite Hsame.
    assert (Hw : set_tasks (replace_task (touch (now w) task) (tasks w))
                   (set_next_oid (next_oid w)
                      (set_disk (disk w ∖ paths_of []) w))
                 = set_tasks (replace_task (touch (now w) task) (tasks w)) w).
    { unfold set_tasks, set_next_oid, set_disk, paths_of. cbn.
      f_equal. by rewrite difference_empty_L. }
    rewrite Hw. by destruct populate_chains.
  - by rewrite Ha.
  - by rewrite Hretain, reconciled_all.
  - rewrite Hfiles. unfold constants.MAX_DOCUMENTS_PER_TASK in Hlen.
    simpl. lia.
  - by rewrite Hdue.
  - rewrite Hfiles, app_nil_r, cast_existing. cbn [fst]. by rewrite Hsame.
Qed.

(** *** The service against the controller *)


(** *** Deletion *)

Lemma find_task_removed id l :
  NoDup (map _id l) →
  List.find (λ t, bool_decide (_id t = id)) (remove_first id l) = None.
Proof.
  induction l as [|x l IH]; simpl; [done|]. intros [Hx Hl]%NoDup_cons.
  destruct (decide (_id x = id)) as [<-|Hne].
  - rewrite bool_decide_eq_true_2 by done.
    apply find_all_false. intros y Hy. apply bool_decide_eq_false.
    intros Heq. apply Hx. rewrite <- Heq. apply list_elem_of_fmap. eauto.
  - rewrite bool_decide_eq_false_2 by done. simpl.
    rewrite bool_decide_eq_false_2 by done. by apply IH.
Qed.

Lemma remove_first_others id l t :
  _id t ≠ id → t ∈ remove_first id l ↔ t ∈ l.
Proof.
  intros Hne. induction l as [|x l IH]; simpl; [done|].
  case_bool_decide as Hx.
  - rewrite elem_of_cons. split; [by right|]. intros [->|]; [done|done].
  - rewrite !elem_of_cons, IH. done.
Qed.

Lemma deleteTask_200_inv req w w' :
  deleteTask req w = (Val (json_message 200 "Task deleted successfully."), w') →
  ∃ task,
    find_task (params_id req) w = Some task
    ∧ (user_role req = constants.ADMIN ∨ user_id req = createdBy task)
    ∧ w' = set_tasks (remove_first (params_id req) (tasks w))
             (set_disk (disk w ∖ paths_of (attachedDocuments task)) w).
Proof.
  unfold deleteTask, Task_deleteOne. run. intros Hrun.
  destruct (find_task (params_id req) w) as [task|] eqn:Hfind;
    [|cbn in Hrun; unfold json_message in Hrun; inversion Hrun].
  cbv beta iota in Hrun.
  destruct (negb (bool_decide (user_role req = constants.ADMIN))
            && negb (bool_decide (createdBy task = user_id req))) eqn:Hdenied;
    [cbn in Hrun; unfold json_message in Hrun; inversion Hrun|].
  exists task. split; [done|]. split.
  { destruct (decide (user_role req = constants.ADMIN ∨
                      user_id req = createdBy task)) as [|Hn]; [done|].
    apply not_admin_nor_creator in Hn. congruence. }
  destruct (bool_decide (0 < List.length (attachedDocuments task))%nat) eqn:Hlen.
  - rewrite remove_stored_run in Hrun. cbn in Hrun. by inversion Hrun.
  - cbn in Hrun. inversion Hrun; subst. apply bool_decide_eq_false in Hlen.
    destruct (attachedDocuments task); [|simpl in Hlen; lia].
    unfold paths_of. cbn. rewrite difference_empty_L.
    by rewrite set_disk_same.
Qed.

(** X10: when identifiers are unique, after deleteTask answered 200 the
    task can be neither read nor deleted again (404), every task with
    another identifier is still there, the collection holds one task less,
    and the accounts are untouched. *)
Theorem deleted_task_is_gone req w w' :
  NoDup (map _id (tasks w)) →
  deleteTask req w = (Val (json_message 200 "Task deleted successfully."), w') →
  (∀ again, params_id again = params_id req →
     getTaskById again w' = (Val (json_message 404 "Task not found."), w')
     ∧ deleteTask again w' = (Val (json_message 404 "Task not found."), w'))
  ∧ (∀ t, _id t ≠ params_id req → t ∈ tasks w' ↔ t ∈ tasks w)
  ∧ List.length (tasks w) = S (List.length (tasks w'))
  ∧ users w' = users w.
Proof.
  intros Hids Hrun.
  destruct (deleteTask_200_inv _ _ _ Hrun) as (task & Hfind & _ & ->).
  assert (Hgone : find_task (params_id req)
            (set_tasks (remove_first (params_id req) (tasks w))
               (set_disk (disk w ∖ paths_of (attachedDocuments task)) w))
          = None).
  { unfold find_task. cbn. by apply find_task_removed. }
  split_and!.
  - intros again Hid. rewrite getTaskById_run. unfold deleteTask. run.
    rewrite Hid, Hgone. done.
  - intros t Hne. cbn. by apply remove_first_others.
  - cbn. unfold find_task in Hfind. clear Hgone Hrun Hids.
    induction (tasks w) as [|x l IH]; simpl in *; [done|].
    destruct (bool_decide (_id x = params_id req)); [done|].
    simpl. f_equal. by apply IH.
  - done.
Qed.

(** X11: a deleteTask that answers 403 or 404, and a service deleteTask
    that throws an error with one of these codes, leave the world as it
    was. *)
Theorem refused_delete_changes_nothing req w :
  (∀ r w', deleteTask req w = (Val r, w') →
           statusCode r = 403 ∨ statusCode r = 404 → w' = w)
  ∧ (∀ code message w',
       taskService.deleteTask (params_id req) (user_id req)
         (user_role req) w = (Thrown (HttpError code message), w') →
       (code = 403 ∨ code = 404) ∧ w' = w).
Proof.
  unfold deleteTask, taskService.deleteTask, Task_deleteOne. run.
  split.
  - intros r w' Hrun Hcode.
    step Hrun; inversion Hrun; subst; cbn in *; try done; lia.
  - intros code message w' Hrun.
    step Hrun; inversion Hrun; subst; try done; split; auto.
Qed.

(** *** Identifiers *)

Lemma discard_uploads_only_disk fs w :
  ∃ o d, discard_uploads fs w = (o, set_disk d w).
Proof.
  unfold discard_uploads. revert w.
  induction fs as [|f fs IH]; simpl; intros w.
  - exists (Val tt), (disk w). by rewrite set_disk_same.
  - run. unfold fs_unlinkSync at 1.
    destruct (bool_decide _).
    + destruct (IH (set_disk (disk w ∖ {[file_path f]}) w)) as (o & d & ->).
      by exists o, d.
    + exists (Thrown ENOENT), (disk w). by rewrite set_disk_same.
Qed.

Ltac walk :=
  repeat (cbv beta iota;
          first [ rewrite retain_documents_run
                | rewrite remove_stored_run
                | match goal with
                  | |- context [discard_uploads ?fs ?w] =>
                      destruct (discard_uploads_only_disk fs w) as (? & ? & ->)
                  end
                | inner_destruct_goal ]).


Lemma remove_first_sublist id l : remove_first id l `sublist_of` l.
Proof.
  induction l as [|x l IH]; simpl; [done|].
  destruct (bool_decide (_id x = id)); by constructor.
Qed.

Lemma deleteTask_outcome req w :
  (deleteTask req w).2 = w
  ∨ ∃ d, (deleteTask req w).2
         = set_tasks (remove_first (params_id req) (tasks w)) (set_disk d w).
Proof.
  unfold deleteTask, Task_deleteOne. run. walk; cbn; eauto.
Qed.

(** X12: if task identifiers are unique and the identifier the driver mints
    next is not in use, they are still unique after createTask, updateTask
    and deleteTask, whatever these answer. *)
Theorem identifiers_stay_unique req w :
  NoDup (map _id (tasks w)) →
  ObjectId (next_oid w) ∉ map _id (tasks w) →
  NoDup (map _id (tasks (createTask req w).2))
  ∧ NoDup (map _id (tasks (updateTask req w).2))
  ∧ NoDup (map _id (tasks (deleteTask req w).2)).
Proof.
  intros Hids Hfresh. split_and!.
  - destruct (createTask_saved req w)
      as [->|(due & assignee & _ & _ & _ & _ & _ & _ & _ & ->)]; [done|].
    rewrite map_app. cbn [map _id]. apply NoDup_app. split_and!; [done| |].
    + by intros i Hi ->%list_elem_of_singleton.
    + apply NoDup_singleton.
  - destruct (updateTask_saved req w)
      as [->|(task & kept & removed & due & _ & _ & _ & _ & _ & _ & _ & _
              & ->)]; [done|].
    by rewrite replace_task_ids.
  - destruct (deleteTask_outcome req w) as [->|(d & ->)]; [done|].
    cbn. eapply sublist_NoDup; [done|].
    apply fmap_sublist, remove_first_sublist.
Qed.

(** *** Listing *)

Lemma field_leb_total field a b :
  field_leb field a b = true ∨ field_leb field b a = true.
Proof.
  unfold field_leb.
  repeat (destruct (bool_decide (field = _));
          [first [ apply String.leb_total
                 | destruct (Zle_bool_total (dueDate a) (dueDate b)); eauto ]|]).
  destruct (Zle_bool_total (createdAt a) (createdAt b)); eauto.
Qed.

Lemma listed_before_total field ascending a b :
  listed_before field ascending a b ∨ listed_before field ascending b a.
Proof.
  unfold listed_before. destruct ascending; apply field_leb_total.
Qed.

Lemma insert_by_sorted field ascending t l :
  Sorted (listed_before field ascending) l →
  Sorted (listed_before field ascending)
    (insert_by (λ a b, if ascending then field_leb field a b
                       else field_leb field b a) t l).
Proof.
  induction 1 as [|x l Hl IH Hx]; simpl.
  - by repeat constructor.
  - destruct (if ascending then field_leb field t x else field_leb field x t)
      eqn:Hle.
    + constructor; [by constructor|]. by constructor.
    + constructor; [done|].
      assert (Hxt : listed_before field ascending x t).
      { destruct (listed_before_total field ascending x t) as [|Htx]; [done|].
        unfold listed_before in Htx. congruence. }
      destruct Hx as [|y l Hxy]; simpl; [by constructor|].
      destruct (if ascending then field_leb field t y else field_leb field y t);
        by constructor.
Qed.

Lemma sort_by_sorted field ascending l :
  Sorted (listed_before field ascending) (sort_by field ascending l).
Proof.
  unfold sort_by. induction l as [|x l IH]; simpl; [constructor|].
  by apply insert_by_sorted.
Qed.

Lemma Sorted_drop {A} (R : A → A → Prop) n l :
  Sorted R l → Sorted R (drop n l).
Proof.
  revert l. induction n as [|n IH]; intros l Hl; [by rewrite drop_0|].
  destruct l as [|x l]; [done|]. simpl. apply IH.
  by apply Sorted_inv in Hl as [? _].
Qed.

Lemma Sorted_take {A} (R : A → A → Prop) n l :
  Sorted R l → Sorted R (take n l).
Proof.
  intros Hl. revert n. induction Hl as [|x l Hl IH Hx]; intros n.
  - by rewrite take_nil.
  - destruct n as [|n]; simpl; [constructor|].
    constructor; [apply IH|].
    destruct Hx; destruct n; simpl; by constructor.
Qed.

Lemma Sorted_weaken {A} (R R' : A → A → Prop) l :
  (∀ a b, R a b → R' a b) → Sorted R l → Sorted R' l.
Proof.
  intros HR. induction 1 as [|x l Hl IH Hx]; constructor; [done|].
  destruct Hx; constructor. by apply HR.
Qed.

Lemma limit_to_sorted R n l : Sorted R l → Sorted R (limit_to n l).
Proof.
  unfold limit_to. destruct (n =? 0); [done|]. apply Sorted_take.
Qed.

Lemma limit_to_length n l :
  n ≠ 0 → (List.length (limit_to n l) ≤ Z.abs_nat n)%nat.
Proof.
  intros Hn. unfold limit_to. destruct (Z.eqb_spec n 0); [done|].
  rewrite length_take. lia.
Qed.

Lemma getTasks_200_inv req w w' l :
  getTasks req w = (Val (mkResponse 200 (TasksJson l)), w') →
  ∃ skip limit,
    skip_of (parse_number (q_page (query req)) 1)
            (parse_number (q_limit (query req)) 10) = Some skip
    ∧ parse_number (q_limit (query req)) 10 = Some limit
    ∧ l = limit_to limit
            (drop (Z.to_nat skip)
               (sort_by
                  (sort_options (default "createdAt" (q_sortBy (query req)))
                     (default "desc" (q_sortOrder (query req)))).1
                  (sort_options (default "createdAt" (q_sortBy (query req)))
                     (default "desc" (q_sortOrder (query req)))).2
                  (List.filter
                     (matches (list_query (query req) (user_id req)
                                 (user_role req)))
                     (tasks w)))).
Proof.
  unfold getTasks, Task_find. run. intros Hrun.
  destruct (sort_options _ _) as [field ascending]. cbn [fst snd].
  step Hrun; inversion Hrun; subst; clear Hrun.
  all: eexists _, _; split_and!; reflexivity.
Qed.

Lemma sort_order_given (order : option string) :
  bool_decide (default "desc" order = "asc")
  = bool_decide (order = Some "asc").
Proof.
  destruct order as [o|]; cbn [default].
  - apply bool_decide_ext. naive_solver.
  - by rewrite !bool_decide_eq_false_2.
Qed.

(** X13: the tasks getTasks returns are in the requested order: by the given
    sort key when it is one of the five the handler accepts, ascending
    exactly when sortOrder is "asc"; by creation time in that same direction
    when no key is given; and newest first when the key is unknown, or when
    neither key nor order is given. *)
Theorem listing_is_ordered req w w' l :
  getTasks req w = (Val (mkResponse 200 (TasksJson l)), w') →
  (∀ field,
     q_sortBy (query req) = Some field →
     field ∈ ["createdAt"; "dueDate"; "priority"; "status"; "title"] →
     Sorted (listed_before field
               (bool_decide (q_sortOrder (query req) = Some "asc"))) l)
  ∧ (q_sortBy (query req) = None →
     Sorted (listed_before "createdAt"
               (bool_decide (q_sortOrder (query req) = Some "asc"))) l)
  ∧ (∀ field,
       q_sortBy (query req) = Some field →
       field ∉ ["createdAt"; "dueDate"; "priority"; "status"; "title"] →
       Sorted (λ a b, createdAt b ≤ createdAt a) l)
  ∧ (q_sortBy (query req) = None → q_sortOrder (query req) = None →
     Sorted (λ a b, createdAt b ≤ createdAt a) l).
Proof.
  intros Hrun.
  apply getTasks_200_inv in Hrun as (skip & limit & _ & _ & ->).
  assert (Hnewest : Sorted (λ a b, createdAt b ≤ createdAt a)
            (limit_to limit (drop (Z.to_nat skip)
               (sort_by "createdAt" false
                  (List.filter
                     (matches (list_query (query req) (user_id req)
                                 (user_role req))) (tasks w)))))).
  { eapply Sorted_weaken; [|apply limit_to_sorted, Sorted_drop, sort_by_sorted].
    intros a b Hab. unfold listed_before, field_leb in Hab. cbn in Hab.
    by apply Z.leb_le. }
  split_and!.
  - intros field Hby Hknown. rewrite Hby.
    change (default "createdAt" (Some field)) with field.
    unfold sort_options. rewrite (bool_decide_eq_true_2 (field ∈ _)) by done.
    cbn [fst snd]. rewrite sort_order_given.
    apply limit_to_sorted, Sorted_drop, sort_by_sorted.
  - intros Hby. rewrite Hby.
    change (default "createdAt" None) with "createdAt".
    unfold sort_options.
    rewrite (bool_decide_eq_true_2 ("createdAt" ∈ _)) by set_solver.
    cbn [fst snd]. rewrite sort_order_given.
    apply limit_to_sorted, Sorted_drop, sort_by_sorted.
  - intros field Hby Hunknown. rewrite Hby.
    change (default "createdAt" (Some field)) with field.
    unfold sort_options. by rewrite (bool_decide_eq_false_2 (field ∈ _)).
  - intros Hby Horder. by rewrite Hby, Horder.
Qed.

Lemma insert_by_permutation le t l : insert_by le t l ≡ₚ t :: l.
Proof.
  induction l as [|x l IH]; simpl; [done|].
  destruct (le t x); [done|]. rewrite IH. apply Permutation_swap.
Qed.

Lemma sort_by_permutation field ascending l : sort_by field ascending l ≡ₚ l.
Proof.
  unfold sort_by. induction l as [|x l IH]; simpl; [done|].
  by rewrite insert_by_permutation, IH.
Qed.

(** X14: without page and limit parameters, with a due date filter that
    is a date, a search text and an assignee filter that the database
    accepts and, for an actor who is no administrator, an identifier that
    casts, getTasks answers 200 with at most ten tasks, taken in order
    from the tasks that match the query; when no more than ten match, the
    answer holds each of them once. *)
Theorem first_page_is_complete req w :
  q_page (query req) = None →
  q_limit (query req) = None →
  (truthy (q_dueDate (query req)) = true →
   is_Some (new_Date (or_else (q_dueDate (query req)) ""))) →
  (truthy (q_search (query req)) = true →
   regex_valid (or_else (q_search (query req)) "") = true) →
  (truthy (q_assignedTo (query req)) = true →
   isValidObjectId (or_else (q_assignedTo (query req)) "") = true) →
  (user_role req ≠ constants.ADMIN → isValidObjectId (user_id req) = true) →
  ∃ l,
    getTasks req w = (Val (mkResponse 200 (TasksJson l)), w)
    ∧ (List.length l ≤ 10)%nat
    ∧ l `sublist_of` sort_by
          (sort_options (default "createdAt" (q_sortBy (query req)))
             (default "desc" (q_sortOrder (query req)))).1
          (sort_options (default "createdAt" (q_sortBy (query req)))
             (default "desc" (q_sortOrder (query req)))).2
          (visible_tasks req w)
    ∧ ((List.length (visible_tasks req w) ≤ 10)%nat →
       l ≡ₚ visible_tasks req w).
Proof.
  intros Hpage Hlimit Hdate Hsearch Hassignee Hactor. unfold visible_tasks.
  unfold getTasks, Task_find. run. rewrite Hpage, Hlimit. cbn [parse_number skip_of].
  destruct (sort_options _ _) as [field ascending]. cbn [fst snd].
  assert (Hq : m_dueDate (list_query (query req) (user_id req) (user_role req))
               ≠ Some None).
  { unfold list_query. destruct (truthy (q_dueDate (query req))) eqn:Ht.
    - destruct (Hdate eq_refl) as [d Hd]. rewrite Hd.
      by destruct (negb _).
    - by destruct (negb _). }
  assert (Hcasts : query_casts
            (list_query (query req) (user_id req) (user_role req)) = true).
  { assert (Hfilter : from_option isValidObjectId true
                        (keep_truthy (q_assignedTo (query req))) = true).
    { unfold keep_truthy.
      destruct (truthy (q_assignedTo (query req))) eqn:Ha; [|done].
      destruct (truthy_Some _ Ha) as (u & Hu & Hne).
      rewrite Hu in Hassignee |- *. specialize (Hassignee eq_refl).
      unfold or_else in Hassignee.
      by rewrite bool_decide_eq_false_2 in Hassignee by done. }
    unfold query_casts, list_query.
    destruct (decide (user_role req = constants.ADMIN)) as [Hadmin|Hrole].
    - rewrite (bool_decide_eq_true_2 _ Hadmin). cbn [negb m_assignedTo m_or].
      rewrite Hfilter. by destruct (truthy (q_search (query req))).
    - rewrite (bool_decide_eq_false_2 _ Hrole). cbn [negb m_assignedTo m_or].
      rewrite Hfilter.
      destruct (truthy (q_search (query req))); cbn; by rewrite (Hactor Hrole). }
  assert (Hcompiles : query_compiles
            (list_query (query req) (user_id req) (user_role req)) = true).
  { unfold query_compiles, list_query.
    destruct (negb (bool_decide (user_role req = constants.ADMIN)));
      cbn [m_or]; destruct (truthy (q_search (query req))) eqn:Hs; cbn;
      try rewrite (Hsearch eq_refl); done. }
  rewrite Hcasts, Hcompiles. cbn [negb orb].
  destruct (m_dueDate _) as [[d|]|] eqn:Hm; [|done|].
  all: cbn; eexists; split; [reflexivity|].
  all: unfold limit_to; cbn.
  all: change (Z.to_nat ((1 - 1) * 10)) with 0%nat.
  all: change (Pos.to_nat 10) with 10%nat; rewrite drop_0.
  all: split_and!; [rewrite length_take; lia | apply sublist_take |].
  all: intros Hlen; rewrite take_ge;
    [apply sort_by_permutation
    |by rewrite (Permutation_length (sort_by_permutation _ _ _))].
Qed.

Lemma sort_options_default (field : string) (order : option string) :
  sort_options field (default "desc" order)
  = sort_options field (default "" order).
Proof.
  unfold sort_options. destruct order as [o|]; [done|].
  by destruct (bool_decide (field ∈ _)).
Qed.

(** X15: when sortBy, page and limit are given, getTasks of the service
    returns a list exactly when the controller answers 200 with that list. *)
Theorem service_listing_matches_controller req w :
  is_Some (q_sortBy (query req)) →
  is_Some (q_page (query req)) →
  is_Some (q_limit (query req)) →
  ∀ l w',
    taskService.getTasks (query req) (user_id req) (user_role req) w
    = (Val l, w')
    ↔ getTasks req w = (Val (mkResponse 200 (TasksJson l)), w').
Proof.
  intros [field Hfield] [page Hpage] [limit Hlimit] l w'.
  unfold taskService.getTasks, getTasks. run.
  rewrite Hfield, Hpage, Hlimit.
  change (default "createdAt" (Some field)) with field.
  change (default "" (Some field)) with field.
  rewrite sort_options_default. cbn [parse_number from_option].
  destruct (sort_options _ _) as [key ascending].
  destruct (Task_find _ _ _ _ _ w) as [[found|e] w1].
  - split; intros H; inversion H; subst; done.
  - split; intros H; [done|]. unfold json_message in H. inversion H.
Qed.


(** *** Documents and the upload filter *)

Lemma cast_documents_elem n kept fs d :
  d ∈ (cast_documents n (map Existing kept ++ map fresh_of_file fs)).1 →
  d ∈ kept ∨ ∃ f, f ∈ fs ∧ mimetype d = file_mimetype f.
Proof.
  revert n. induction kept as [|k kept IH]; simpl; intros n.
  - revert n. induction fs as [|f fs IH]; simpl; intros n Hd.
    + by apply elem_of_nil in Hd.
    + specialize (IH (S n)).
      destruct (cast_documents (S n) (map fresh_of_file fs)) as [ds n'].
      simpl in *. apply elem_of_cons in Hd as [->|Hd].
      * right. exists f. split; [by left|done].
      * destruct (IH Hd) as [Hk|(g & Hg & Hm)]; [by left|].
        right. exists g. split; [by right|done].
  - specialize (IH n).
    destruct (cast_documents n (map Existing kept ++ map fresh_of_file fs))
      as [ds n'].
    simpl in *. intros [->|Hd]%elem_of_cons; [left; by left|].
    destruct (IH Hd) as [Hk|?]; [left; by right|by right].
Qed.

Lemma documents_allowed_check w :
  forallb (λ t, forallb (λ d, bool_decide
                           (mimetype d ∈ constants.ALLOWED_DOCUMENT_MIMETYPES))
                  (attachedDocuments t)) (tasks w) = true →
  documents_allowed w.
Proof.
  intros Hall t d Ht Hd. rewrite forallb_forall in Hall.
  apply list_elem_of_In, Hall in Ht. rewrite forallb_forall in Ht.
  apply list_elem_of_In, Ht in Hd. by apply bool_decide_eq_true in Hd.
Qed.

(** X16: if every document in the collection has an allowed MIME type and
    the uploads of the request passed the file filter of the upload
    middleware, this still holds after createTask, updateTask and
    deleteTask. *)
Theorem stored_documents_are_allowed req w :
  (∀ f, f ∈ files req → uploadMiddleware.fileFilter f = true) →
  documents_allowed w →
  documents_allowed (createTask req w).2
  ∧ documents_allowed (updateTask req w).2
  ∧ documents_allowed (deleteTask req w).2.
Proof.
  intros Hfilter Hw.
  assert (Hcast : ∀ n kept d,
            (∀ k, k ∈ kept →
               mimetype k ∈ constants.ALLOWED_DOCUMENT_MIMETYPES) →
            d ∈ (cast_documents n
                   (map Existing kept ++ map fresh_of_file (files req))).1 →
            mimetype d ∈ constants.ALLOWED_DOCUMENT_MIMETYPES).
  { intros n kept d Hkept [Hk|(f & Hf & ->)]%cast_documents_elem; [eauto|].
    apply Hfilter in Hf. by apply bool_decide_eq_true in Hf. }
  split_and!.
  - destruct (createTask_saved req w)
      as [Htasks|(due & assignee & _ & _ & _ & _ & _ & _ & _ & Htasks)];
      unfold documents_allowed; rewrite Htasks; [done|].
    intros x d [Hx| ->%list_elem_of_singleton]%elem_of_app; [by apply Hw|].
    cbn [attachedDocuments]. apply (Hcast _ []). intros k Hk.
    by apply elem_of_nil in Hk.
  - destruct (updateTask_saved req w)
      as [Htasks|(task & kept & removed & due & _ & Hfind & _ & _ & Hrec & _
                  & _ & _ & Htasks)];
      unfold documents_allowed; rewrite Htasks; [done|].
    intros x d [->|Hx]%replace_task_elem; [|by apply Hw].
    cbn [attachedDocuments touch assign_fields].
    apply Hcast. intros k Hk.
    apply (Hw task).
    + by apply (find_task_elem (params_id req)).
    + destruct (reconciled_subset _ _ _ _ Hrec) as [Hsub _]. by apply Hsub.
  - destruct (deleteTask_outcome req w) as [->|(d & ->)]; [done|].
    intros t doc Ht. apply Hw.
    eapply elem_of_sublist; [done|apply remove_first_sublist].
Qed.

Lemma Task_create_frame i w :
  disk (Task_create i w).2 = disk w ∧ users (Task_create i w).2 = users w.
Proof.
  unfold Task_create. destruct (cast_documents _ _) as [docs n].
  repeat inner_destruct_goal; done.
Qed.

(** X17: with the actor as [createdBy], a task that createTask of the
    controller puts in the collection is put there by createTask of the
    service too. For a valid request with at most three files whose
    assignee exists, the three checks the service does not make, both
    leave the same collection, and the service returns a task exactly
    when the controller answers 201 with it. The service never touches
    the storage, whereas the controller removes the uploads when it does
    not answer 201. *)
Theorem service_create_matches_controller req w :
  b_createdBy (body req) = Some (user_id req) →
  (tasks (createTask req w).2 = tasks w
   ∨ tasks (createTask req w).2
     = tasks (taskService.createTask (body req) (files req) w).2)
  ∧ disk (taskService.createTask (body req) (files req) w).2 = disk w
  ∧ (req_valid req = true →
     (List.length (files req) ≤ constants.MAX_DOCUMENTS_PER_TASK)%nat →
     is_Some (find_user (b_assignedTo (body req)) w) →
     tasks (createTask req w).2
     = tasks (taskService.createTask (body req) (files req) w).2
     ∧ ∀ t, (taskService.createTask (body req) (files req) w).1 = Val t
            ↔ (createTask req w).1 = Val (mkResponse 201 (TaskJson t))).
Proof.
  intros Hby.
  assert (Hchecked :
    req_valid req = true →
    (List.length (files req) ≤ constants.MAX_DOCUMENTS_PER_TASK)%nat →
    is_Some (find_user (b_assignedTo (body req)) w) →
    tasks (createTask req w).2
    = tasks (taskService.createTask (body req) (files req) w).2
    ∧ ∀ t, (taskService.createTask (body req) (files req) w).1 = Val t
           ↔ (createTask req w).1 = Val (mkResponse 201 (TaskJson t))).
  { intros Hvalid Hcap Hfound.
    unfold taskService.createTask, createTask. rewrite Hby, Hvalid.
    cbn [negb].
    rewrite (proj2 (andb_false_iff _ _))
      by (right; apply bool_decide_eq_false; lia).
    run. rewrite (User_findById_found _ _ Hfound).
    destruct Hfound as [u Hu]. rewrite Hu. cbv beta iota.
    destruct (Task_create _ w) as [[t'|e] w1]; cbv beta iota.
    - destruct populate_chains; cbv beta iota.
      + cbn [fst snd]. split; [done|]. intros t.
        split; intros [= ->]; done.
      + destruct (discard_uploads _ _) as [[[]|e] w2] eqn:Hd; cbn [fst snd];
          apply discard_uploads_frame in Hd; (split; [done|]); intros t;
          split; intros [=].
    - destruct (discard_uploads _ _) as [[[]|e'] w2] eqn:Hd; cbn [fst snd];
        apply discard_uploads_frame in Hd; (split; [done|]); intros t;
        split; intros [=]. }
  split_and!; [| |done].
  - destruct (createTask_saved req w)
      as [Hsame|(due & assignee & Hvalid & Hlen & Hto & Huser & _)];
      [by left|].
    right. apply Hchecked; [done|done|]. rewrite Hto, Huser. eauto.
  - unfold taskService.createTask. run.
    pose proof (Task_create_frame
      (mkTaskInit (b_title (body req)) (b_description (body req))
         (b_status (body req)) (b_priority (body req)) (b_dueDate (body req))
         (b_assignedTo (body req)) (b_createdBy (body req))
         (map fresh_of_file (files req))) w) as [Hdisk _].
    destruct (Task_create _ w) as [[t'|e] w1]; cbv beta iota; [|done].
    by destruct populate_chains.
Qed.

(** *** Accounts *)

Import userController.

Lemma deleteUser_outcome req w :
  deleteUser req w
  = (Val (json_message 200 "User deleted successfully."),
     set_users (users w ∖ {[params_id req]}) w)
    ∧ user_role req = constants.ADMIN
    ∧ user_id req ≠ params_id req
    ∧ params_id req ∈ users w
    ∧ isValidObjectId (params_id req) = true
  ∨ ∃ r, deleteUser req w = (Val r, w) ∧ statusCode r ≠ 200.
Proof.
  unfold deleteUser, User_deleteOne. run_all. unfold find_user.
  destruct (decide (user_role req = constants.ADMIN)) as [Hadmin|Hrole].
  - rewrite bool_decide_eq_true_2 by done. cbn [negb].
    destruct (decide (user_id req = params_id req)) as [Hself|Hother].
    + rewrite bool_decide_eq_true_2 by done. right. eexists. split; [done|].
      cbn. lia.
    + rewrite bool_decide_eq_false_2 by done.
      destruct (isValidObjectId (params_id req)) eqn:Hcast.
      2:{ right. eexists. split; [done|]. cbn. lia. }
      cbn [andb].
      destruct (decide (params_id req ∈ users w)) as [Hin|Hout].
      * rewrite bool_decide_eq_true_2 by done. by left.
      * rewrite bool_decide_eq_false_2 by done. right. eexists.
        split; [done|]. cbn. lia.
  - rewrite bool_decide_eq_false_2 by done. right. eexists. split; [done|].
    cbn. lia.
Qed.


(** X19: once deleteUser has removed an account, a valid createTask with at
    most three uploads that assigns the task to that account answers
    "Assigned user not found." and removes the uploads. *)
Theorem deleted_user_cannot_be_assigned req w w' create :
  deleteUser req w
  = (Val (json_message 200 "User deleted successfully."), w') →
  req_valid create = true →
  b_assignedTo (body create) = Some (params_id req) →
  (List.length (files create) ≤ constants.MAX_DOCUMENTS_PER_TASK)%nat →
  uploads_stored (files create) w' →
  createTask create w'
  = (Val (json_message 400 "Assigned user not found."),
     set_disk (disk w' ∖ upload_paths (files create)) w').
Proof.
  intros Hrun Hvalid Hto Hcap Hup.
  destruct (deleteUser_outcome req w)
    as [(Hdone & _ & _ & _ & Hcast)|(r & Hr & Hne)].
  2:{ rewrite Hr in Hrun. inversion Hrun; subst. cbn in Hne. lia. }
  rewrite Hdone in Hrun. inversion Hrun; subst; clear Hrun.
  unfold createTask. rewrite Hvalid. cbn [negb].
  rewrite (proj2 (andb_false_iff _ _))
    by (right; apply bool_decide_eq_false; lia).
  run. rewrite Hto.
  rewrite User_findById_missing; [|done|].
  - cbv beta iota. by rewrite (discard_uploads_stored _ _ Hup).
  - unfold find_user. cbn [users set_users]. rewrite Hcast. cbn [andb].
    by rewrite bool_decide_eq_false_2 by set_solver.
Qed.

(** X20: on the delete route an administrator reaches deleteUser; anyone else
    is answered 401 or 403 by authorizeRoles with the world unchanged, so
    the 403 of deleteUser itself is never sent. *)
Theorem route_guard_precedes_handler req w :
  (user_role req = constants.ADMIN → delete_route req w = deleteUser req w)
  ∧ (user_role req ≠ constants.ADMIN →
     ∃ r, delete_route req w = (Val r, w)
          ∧ statusCode r ∈ [401; 403]
          ∧ r ≠ json_message 403
                  "Access denied. Only administrators can delete users.").
Proof.
  unfold delete_route, roleMiddleware.authorizeRoles. split; intros Hrole.
  - rewrite Hrole. done.
  - destruct (bool_decide (user_role req = "")).
    + eexists. split; [done|]. split; [set_solver|done].
    + rewrite bool_decide_eq_false_2 by set_solver. cbn [negb].
      eexists. split; [done|]. split; [set_solver|done].
Qed.

(** *** The reducer of the frontend *)

Lemma filter_permutation {A} (f : A → bool) (l k : list A) :
  l ≡ₚ k → List.filter f l ≡ₚ List.filter f k.
Proof.
  induction 1 as [|x l k _ IH|x y l|l k m _ IH1 _ IH2]; simpl.
  - done.
  - destruct (f x); [by constructor|done].
  - destruct (f x), (f y); try done. apply Permutation_swap.
  - by etrans.
Qed.

Lemma filter_is_remove_first id l :
  NoDup (map _id l) →
  List.filter (λ task, negb (bool_decide (_id task = id))) l
  = remove_first id l.
Proof.
  induction l as [|x l IH]; simpl; [done|]. intros [Hx Hl]%NoDup_cons.
  destruct (decide (_id x = id)) as [<-|Hne].
  - rewrite bool_decide_eq_true_2 by done. cbn [negb].
    apply filter_all. intros y Hy. apply negb_true_iff, bool_decide_eq_false.
    intros Heq. apply Hx. rewrite <- Heq. apply list_elem_of_fmap. eauto.
  - rewrite bool_decide_eq_false_2 by done. cbn [negb]. f_equal. by apply IH.
Qed.


(** X21: if the task list of the reducer holds the tasks of the collection,
    identifiers being unique, it still does after DELETE_TASK is reduced
    with the identifier of a task that deleteTask has deleted. *)
Theorem client_list_follows_server st req w w' :
  NoDup (map _id (tasks w)) →
  taskReducer.s_tasks st ≡ₚ tasks w →
  deleteTask req w
  = (Val (json_message 200 "Task deleted successfully."), w') →
  taskReducer.s_tasks
    (taskReducer.taskReducer st (taskReducer.DELETE_TASK (params_id req)))
  ≡ₚ tasks w'.
Proof.
  intros Hids Hmirror Hrun.
  apply deleteTask_200_inv in Hrun as (task & _ & _ & ->).
  cbn. rewrite <- filter_is_remove_first by done.
  by apply filter_permutation.
Qed.

(** X22: UPDATE_TASK keeps the identifiers of the list in order and that of
    the selected task, and leaves no other task under the payload's
    identifier; DELETE_TASK keeps the remaining tasks in order, leaves none
    with the identifier and is idempotent; deleting a task just added under
    a fresh identifier gives the list back. *)
Theorem reducer_list_laws st t id :
  map _id (taskReducer.s_tasks
             (taskReducer.taskReducer st (taskReducer.UPDATE_TASK t)))
  = map _id (taskReducer.s_tasks st)
  ∧ option_map _id
      (taskReducer.selectedTask
         (taskReducer.taskReducer st (taskReducer.UPDATE_TASK t)))
    = option_map _id (taskReducer.selectedTask st)
  ∧ (∀ x, x ∈ taskReducer.s_tasks
                (taskReducer.taskReducer st (taskReducer.UPDATE_TASK t)) →
       _id x = _id t → x = t)
  ∧ taskReducer.s_tasks
      (taskReducer.taskReducer st (taskReducer.DELETE_TASK id))
    `sublist_of` taskReducer.s_tasks st
  ∧ (id ∉ map _id (taskReducer.s_tasks
                     (taskReducer.taskReducer st (taskReducer.DELETE_TASK id))))
  ∧ taskReducer.taskReducer
      (taskReducer.taskReducer st (taskReducer.DELETE_TASK id))
      (taskReducer.DELETE_TASK id)
    = taskReducer.taskReducer st (taskReducer.DELETE_TASK id)
  ∧ (id ∉ map _id (taskReducer.s_tasks st) →
     _id t = id →
     taskReducer.s_tasks
       (taskReducer.taskReducer
          (taskReducer.taskReducer st (taskReducer.ADD_TASK t))
          (taskReducer.DELETE_TASK id))
     = taskReducer.s_tasks st).
Proof.
  cbn. split_and!.
  - induction (taskReducer.s_tasks st) as [|x l IH]; simpl; [done|].
    rewrite IH. f_equal. by case_bool_decide.
  - destruct (taskReducer.selectedTask st) as [s|]; [|done].
    case_bool_decide; cbn; congruence.
  - intros x (y & Hx & Hy)%list_elem_of_fmap Hid.
    case_bool_decide; [done|]. by subst.
  - induction (taskReducer.s_tasks st) as [|x l IH]; simpl; [done|].
    destruct (negb _); by constructor.
  - intros (x & Hx & Hin)%list_elem_of_fmap.
    apply list_elem_of_In, filter_In in Hin as [_ Hne].
    apply negb_true_iff, bool_decide_eq_false in Hne. done.
  - f_equal. apply filter_all. intros x Hx.
    by apply list_elem_of_In, filter_In in Hx as [_ Hne].
  - intros Hfresh Hid. rewrite bool_decide_eq_true_2 by done. cbn [negb].
    apply filter_all. intros x Hx. apply negb_true_iff, bool_decide_eq_false.
    intros Heq. apply Hfresh. rewrite <- Heq. apply list_elem_of_fmap. eauto.
Qed.


(** ** Paths under the upload directory *)

Import node_path.

Lemma append_cons x (a b : string) : String x a ++ b = String x (a ++ b).
Proof. reflexivity. Qed.

Lemma append_nil_l (b : string) : "" ++ b = b.
Proof. reflexivity. Qed.

Lemma append_assoc (a b c : string) : (a ++ b) ++ c = a ++ (b ++ c).
Proof.
  induction a as [|x a IH]; [done|]. rewrite !append_cons. by rewrite IH.
Qed.

Lemma prefix_append (p s : string) : String.prefix p (p ++ s) = true.
Proof.
  induction p as [|x p IH]; [by destruct s|]. rewrite append_cons. simpl.
  destruct (ascii_dec x x); [done|done].
Qed.

Lemma prefix_of_append (p s t : string) :
  t = p ++ s → String.prefix p t = true.
Proof. intros ->. apply prefix_append. Qed.

Lemma split_slash_nonempty s : split_slash s ≠ [].
Proof.
  destruct s as [|c s]; simpl; [done|].
  destruct (Ascii.eqb c "/"); [done|]. by destruct (split_slash s).
Qed.

Lemma split_slash_append a b :
  split_slash (a ++ "/" ++ b) = (split_slash a ++ split_slash b)%list.
Proof.
  induction a as [|c a IH]; [done|]. rewrite append_cons. simpl.
  destruct (Ascii.eqb c "/"); [by rewrite IH|].
  rewrite IH.
  pose proof (split_slash_nonempty a). by destruct (split_slash a).
Qed.

Lemma split_slash_segments s : Forall single_segment (split_slash s).
Proof.
  induction s as [|c s IH]; simpl.
  - by repeat constructor.
  - destruct (Ascii.eqb c "/") eqn:Hc; [by constructor|].
    pose proof (split_slash_nonempty s) as Hne.
    destruct (split_slash s) as [|h t] eqn:Hs; [done|].
    apply Forall_cons in IH as [Hh Ht]. constructor; [|done].
    unfold single_segment in *. simpl. by rewrite Hc, Hh.
Qed.

Lemma join_slash_cons x l :
  l ≠ [] → join_slash (x :: l) = x ++ "/" ++ join_slash l.
Proof. by destruct l. Qed.

Lemma join_slash_snoc l x :
  l ≠ [] → join_slash (l ++ [x]) = join_slash l ++ "/" ++ x.
Proof.
  induction l as [|y l IH]; [done|]. intros _.
  destruct l as [|z l]; [done|].
  change (join_slash ((y :: z :: l) ++ [x]))
    with (y ++ "/" ++ join_slash ((z :: l) ++ [x])).
  rewrite IH by done.
  change (join_slash (y :: z :: l)) with (y ++ "/" ++ join_slash (z :: l)).
  by rewrite !append_assoc.
Qed.

Lemma split_join_slash l :
  l ≠ [] → Forall single_segment l → split_slash (join_slash l) = l.
Proof.
  induction l as [|x l IH]; [done|]. intros _ [Hx Hl]%Forall_cons.
  destruct l as [|y l]; [done|].
  rewrite join_slash_cons by done. rewrite split_slash_append, Hx, IH; done.
Qed.

Lemma normalize_segments_app b l1 l2 acc :
  normalize_segments b (l1 ++ l2) acc
  = normalize_segments b l2 (rev (normalize_segments b l1 acc)).
Proof.
  revert acc. induction l1 as [|s l1 IH]; intros acc; simpl.
  - by rewrite rev_involutive.
  - destruct (bool_decide (s = "") || bool_decide (s = ".")); [apply IH|].
    destruct (bool_decide (s = "..")); [|apply IH].
    destruct acc as [|top acc]; [destruct b; apply IH|].
    destruct (bool_decide (top = "..")); apply IH.
Qed.

Lemma normal_stack_step b acc s :
  normal_stack b acc →
  normal_stack b (rev (normalize_segments b [s] acc)).
Proof.
  intros Hacc. cbn [normalize_segments].
  destruct (bool_decide (s = "") || bool_decide (s = ".")) eqn:Hskip;
    [by rewrite rev_involutive|].
  apply orb_false_iff in Hskip as [H1%bool_decide_eq_false H2%bool_decide_eq_false].
  destruct (decide (s = "..")) as [->|Hup].
  - rewrite bool_decide_eq_true_2 by done.
    destruct acc as [|top acc].
    + destruct b; rewrite rev_involutive; simpl; [|done]. split_and!; done.
    + destruct (decide (top = "..")) as [->|Htop].
      * rewrite bool_decide_eq_true_2 by done. rewrite rev_involutive.
        destruct Hacc as (_ & _ & Hall & Hrest). destruct (Hall eq_refl).
        simpl. split_and!; try done. intros _. split; [done|].
        by constructor.
      * rewrite bool_decide_eq_false_2 by done. rewrite rev_involutive.
        by destruct Hacc as (_ & _ & _ & Hrest).
  - rewrite bool_decide_eq_false_2 by done. rewrite rev_involutive. simpl.
    split_and!; done.
Qed.

Lemma normal_stack_run b l acc :
  normal_stack b acc → normal_stack b (rev (normalize_segments b l acc)).
Proof.
  revert acc. induction l as [|s l IH]; intros acc Hacc.
  - simpl. by rewrite rev_involutive.
  - change (s :: l) with ([s] ++ l)%list. rewrite normalize_segments_app.
    by apply IH, normal_stack_step.
Qed.

Lemma normal_stack_suffix b a c :
  normal_stack b (a ++ c) → normal_stack b c.
Proof.
  induction a as [|x a IH]; simpl; [done|]. intros (_ & _ & _ & H). by apply IH.
Qed.

Lemma Forall_up_suffix (a c : list string) :
  Forall (eq "..") (a ++ c) → Forall (eq "..") c.
Proof. by intros [_ ?]%Forall_app. Qed.

(** Replaying a normal stack from the bottom rebuilds it. *)
Lemma normalize_segments_replay b top acc :
  normal_stack b (top ++ acc) →
  normalize_segments b (rev top) acc = rev (top ++ acc).
Proof.
  revert acc. induction top as [|s top IH] using rev_ind; intros acc Hn.
  - done.
  - rewrite rev_app_distr. simpl rev at 1. cbn [app].
    rewrite <- app_assoc in Hn. cbn [app] in Hn.
    pose proof (normal_stack_suffix _ _ _ Hn) as Hs.
    destruct Hs as (H1 & H2 & Hup & Hacc).
    change (s :: rev top) with ([s] ++ rev top)%list.
    rewrite normalize_segments_app.
    assert (Hstep : rev (normalize_segments b [s] acc) = s :: acc).
    { cbn [normalize_segments].
      rewrite (bool_decide_eq_false_2 (s = "")) by done.
      rewrite (bool_decide_eq_false_2 (s = ".")) by done. cbn [orb].
      destruct (decide (s = "..")) as [->|Hne].
      - rewrite bool_decide_eq_true_2 by done.
        destruct (Hup eq_refl) as [-> Hall].
        destruct acc as [|t acc]; [by rewrite rev_involutive|].
        apply Forall_cons in Hall as [<- _].
        rewrite bool_decide_eq_true_2 by done. by rewrite rev_involutive.
      - rewrite bool_decide_eq_false_2 by done. by rewrite rev_involutive. }
    rewrite Hstep, IH by done. by rewrite <- app_assoc.
Qed.

Lemma normalize_segments_idem b l :
  normalize_segments b (normalize_segments b l []) []
  = normalize_segments b l [].
Proof.
  pose proof (normal_stack_run b l [] I) as Hn.
  pose proof (normalize_segments_replay b
                (rev (normalize_segments b l [])) []) as Hr.
  rewrite app_nil_r, rev_involutive in Hr. by apply Hr.
Qed.

Lemma single_segment_up : single_segment "..".
Proof. reflexivity. Qed.

Lemma normalize_segments_single b l acc :
  Forall single_segment l → Forall single_segment acc →
  Forall single_segment (normalize_segments b l acc).
Proof.
  revert acc. induction l as [|s l IH]; intros acc Hl Hacc;
    cbn [normalize_segments].
  - by apply Forall_rev.
  - apply Forall_cons in Hl as [Hs Hl].
    destruct (bool_decide (s = "") || bool_decide (s = ".")); [by apply IH|].
    destruct (bool_decide (s = "..")); [|apply IH; [done|by constructor]].
    destruct acc as [|top acc].
    + destruct b; apply IH; try done. constructor; [|done].
      apply single_segment_up.
    + apply Forall_cons in Hacc as [Htop Hacc].
      destruct (bool_decide (top = "..")); apply IH; try done.
      constructor; [apply single_segment_up|by constructor].
Qed.

Lemma normal_stack_nonempty b acc : normal_stack b acc → Forall (λ s, s ≠ "") acc.
Proof.
  induction acc as [|s acc IH]; simpl; [done|].
  intros (H & _ & _ & Hr). constructor; [done|by apply IH].
Qed.

Lemma single_segment_no_slash c s :
  single_segment (String c s) → Ascii.eqb c "/" = false.
Proof.
  unfold single_segment. simpl. by destruct (Ascii.eqb c "/").
Qed.

Lemma prefix_slash_cons c s :
  String.prefix "/" (String c s) = Ascii.eqb c "/".
Proof.
  change (String.prefix "/" (String c s))
    with (if ascii_dec "/" c then String.prefix "" s else false).
  destruct (ascii_dec "/" c) as [<-|Hne]; [by destruct s|].
  symmetry. apply Ascii.eqb_neq. congruence.
Qed.

Lemma prefix_slash_append (a b : string) :
  a ≠ "" → String.prefix "/" (a ++ b) = String.prefix "/" a.
Proof.
  destruct a as [|c a]; [done|]. intros _.
  by rewrite append_cons, !prefix_slash_cons.
Qed.

Lemma append_nonempty_r (a b : string) : b ≠ "" → a ++ b ≠ "".
Proof. destruct a; [done|]. by rewrite append_cons. Qed.

Lemma append_nonempty_l (a b : string) : a ≠ "" → a ++ b ≠ "".
Proof. destruct a; [done|]. by rewrite append_cons. Qed.

Lemma list_ascii_of_string_append (a b : string) :
  list_ascii_of_string (a ++ b)
  = (list_ascii_of_string a ++ list_ascii_of_string b)%list.
Proof.
  induction a as [|c a IH]; [done|]. rewrite append_cons. simpl. by rewrite IH.
Qed.

Lemma ends_with_slash_append (a s : string) :
  s ≠ "" → ends_with_slash (a ++ s) = ends_with_slash s.
Proof.
  intros Hs. unfold ends_with_slash.
  rewrite list_ascii_of_string_append, rev_app_distr.
  destruct s as [|c s]; [done|].
  cbn [list_ascii_of_string].
  destruct (rev (c :: list_ascii_of_string s)) as [|x r] eqn:Hr; [|done].
  apply (f_equal (@List.length _)) in Hr. rewrite length_rev in Hr. done.
Qed.

Lemma join_slash_first x l :
  x ≠ "" → String.prefix "/" (join_slash (x :: l)) = String.prefix "/" x.
Proof.
  intros Hx. destruct l as [|y l]; [done|].
  rewrite join_slash_cons by done. by apply prefix_slash_append.
Qed.

Lemma join_slash_nonempty l x : join_slash (l ++ [x]) ≠ "" ↔ l ≠ [] ∨ x ≠ "".
Proof.
  destruct l as [|y l].
  - simpl. naive_solver.
  - rewrite join_slash_snoc by done. split; [by left|]. intros _.
    apply append_nonempty_r. done.
Qed.

(** [normalize] on a path that is not empty. *)
Lemma normalize_nonempty p :
  p ≠ "" →
  normalize p
  = let body :=
      join_slash (normalize_segments (negb (String.prefix "/" p))
                    (split_slash p) []) in
    if bool_decide (body = "") then
      if String.prefix "/" p then "/"
      else if ends_with_slash p then "./" else "."
    else
      let body := if ends_with_slash p then body ++ "/" else body in
      if String.prefix "/" p then "/" ++ body else body.
Proof. intros Hp. unfold normalize. by rewrite bool_decide_eq_false_2. Qed.

Lemma normalize_root root :
  rooted root →
  normalize root
  = (if String.prefix "/" root then "/" else "")
    ++ join_slash (kept_segments root).
Proof.
  intros (Hne & Hopen & Hnamed).
  rewrite normalize_nonempty by done. cbv zeta. fold (kept_segments root).
  rewrite bool_decide_eq_false_2 by done. rewrite Hopen.
  by destruct (String.prefix "/" root).
Qed.

Lemma kept_nonempty root : rooted root → kept_segments root ≠ [].
Proof. intros (_ & _ & Hnamed) H. apply Hnamed. by rewrite H. Qed.

Lemma kept_single root : Forall single_segment (kept_segments root).
Proof.
  apply normalize_segments_single; [apply split_slash_segments|done].
Qed.

Lemma kept_normal root :
  normal_stack (negb (String.prefix "/" root)) (rev (kept_segments root)).
Proof. by apply normal_stack_run. Qed.

Lemma normalize_root_absolute root :
  rooted root →
  String.prefix "/" (normalize root) = String.prefix "/" root.
Proof.
  intros Hroot. rewrite normalize_root by done.
  pose proof (kept_nonempty _ Hroot) as Hne.
  pose proof (kept_single root) as Hsingle.
  pose proof (normal_stack_nonempty _ _ (kept_normal root)) as Hfull.
  apply Forall_rev in Hfull. rewrite rev_involutive in Hfull.
  destruct (String.prefix "/" root) eqn:Habs.
  - by destruct (join_slash (kept_segments root)).
  - rewrite append_nil_l.
    destruct (kept_segments root) as [|x l]; [done|].
    apply Forall_cons in Hsingle as [Hx _]. apply Forall_cons in Hfull as [Hx' _].
    rewrite join_slash_first by done.
    destruct x as [|c x]; [done|].
    rewrite prefix_slash_cons. by eapply single_segment_no_slash.
Qed.

Lemma normalize_root_nonempty root : rooted root → normalize root ≠ "".
Proof.
  intros Hroot. rewrite normalize_root by done.
  apply append_nonempty_r. apply Hroot.
Qed.

Lemma normalize_root_segments root rest :
  rooted root →
  normalize_segments (negb (String.prefix "/" root))
    (split_slash (normalize root) ++ rest) []
  = normalize_segments (negb (String.prefix "/" root))
      (split_slash root ++ rest) [].
Proof.
  intros Hroot.
  rewrite !(normalize_segments_app _ _ rest). f_equal. f_equal.
  fold (kept_segments root). rewrite normalize_root by done.
  assert (Hsplit : split_slash (join_slash (kept_segments root))
                   = kept_segments root)
    by (apply split_join_slash; [by apply kept_nonempty|apply kept_single]).
  unfold kept_segments in *.
  destruct (String.prefix "/" root).
  - rewrite <- (append_nil_l ("/" ++ _)).
    rewrite split_slash_append, Hsplit. cbn [split_slash app normalize_segments].
    rewrite bool_decide_eq_true_2 by done. cbn [orb].
    apply normalize_segments_idem.
  - rewrite append_nil_l, Hsplit. apply normalize_segments_idem.
Qed.

Lemma normalize_under_root root name :
  rooted root → name ≠ "" →
  normalize (normalize root ++ "/" ++ name) = normalize (root ++ "/" ++ name).
Proof.
  intros Hroot Hname.
  pose proof (normalize_root_nonempty _ Hroot) as Hnorm.
  assert (Hne : root ≠ "") by apply Hroot.
  rewrite (normalize_nonempty (normalize root ++ _))
    by (by apply append_nonempty_l).
  rewrite (normalize_nonempty (root ++ _)) by (by apply append_nonempty_l).
  cbv zeta.
  rewrite !prefix_slash_append by done.
  rewrite normalize_root_absolute by done.
  rewrite !split_slash_append, normalize_root_segments by done.
  by rewrite !(ends_with_slash_append _ ("/" ++ name)).
Qed.

Lemma single_segment_chars s :
  single_segment s →
  Forall (λ c, Ascii.eqb c "/" = false) (list_ascii_of_string s).
Proof.
  induction s as [|c s IH]; intros Hs; [constructor|].
  pose proof (single_segment_no_slash _ _ Hs) as Hc.
  cbn [list_ascii_of_string]. constructor; [done|]. apply IH.
  unfold single_segment in *. cbn [split_slash] in Hs. rewrite Hc in Hs.
  pose proof (split_slash_nonempty s) as Hne.
  destruct (split_slash s) as [|h t]; [done|].
  by inversion Hs; subst.
Qed.

Lemma single_segment_open s : single_segment s → ends_with_slash s = false.
Proof.
  intros Hs%single_segment_chars%Forall_rev. unfold ends_with_slash.
  destruct (rev (list_ascii_of_string s)) as [|c r]; [done|].
  by apply Forall_cons in Hs as [Hc _].
Qed.

Lemma join_slash_open l :
  Forall single_segment l → Forall (λ s, s ≠ "") l →
  ends_with_slash (join_slash l) = false.
Proof.
  induction l as [|x l IH] using rev_ind; [done|].
  intros [Hl Hx]%Forall_app [Hl' Hx']%Forall_app.
  apply Forall_cons in Hx as [Hx _]. apply Forall_cons in Hx' as [Hx' _].
  destruct l as [|y l]; [by apply single_segment_open|].
  rewrite join_slash_snoc by done.
  rewrite <- append_assoc, ends_with_slash_append by done.
  by apply single_segment_open.
Qed.

Lemma normalize_root_idem root :
  rooted root → normalize (normalize root) = normalize root.
Proof.
  intros Hroot.
  rewrite (normalize_nonempty (normalize root))
    by (by apply normalize_root_nonempty).
  cbv zeta. rewrite normalize_root_absolute by done.
  pose proof (normalize_root_segments root [] Hroot) as Hsegs.
  rewrite !app_nil_r in Hsegs. rewrite Hsegs. fold (kept_segments root).
  rewrite bool_decide_eq_false_2 by apply Hroot.
  assert (Hopen : ends_with_slash (normalize root) = false).
  { rewrite normalize_root by done.
    rewrite ends_with_slash_append by apply Hroot.
    apply join_slash_open; [apply kept_single|].
    pose proof (normal_stack_nonempty _ _ (kept_normal root)) as Hfull.
    apply Forall_rev in Hfull. by rewrite rev_involutive in Hfull. }
  rewrite Hopen, normalize_root by done.
  by destruct (String.prefix "/" root).
Qed.

Lemma uploads_rooted d :
  d ≠ "" → rooted (d ++ "/" ++ ".." ++ "/" ++ "uploads").
Proof.
  intros Hd. split_and!.
  - by apply append_nonempty_l.
  - by rewrite (ends_with_slash_append d).
  - unfold kept_segments.
    rewrite !split_slash_append.
    change (split_slash "uploads") with ["uploads"].
    rewrite !app_assoc, normalize_segments_app.
    cbn [normalize_segments].
    rewrite !(bool_decide_eq_false_2 ("uploads" = _)) by done. cbn [orb].
    cbn [rev]. apply join_slash_nonempty. by right.
Qed.

Lemma join_under_uploads d name :
  join [join [d; ".."; "uploads"]; name] = join [d; ".."; "uploads"; name].
Proof.
  unfold join. cbn [List.filter].
  rewrite !(bool_decide_eq_false_2 (".." = "")) by done.
  rewrite !(bool_decide_eq_false_2 ("uploads" = "")) by done. cbn [negb].
  destruct (decide (d = "")) as [->|Hd].
  - rewrite !(bool_decide_eq_true_2 ("" = "")) by done. cbn [negb].
    change (normalize (join_slash [".."; "uploads"])) with "../uploads".
    rewrite (bool_decide_eq_false_2 ("../uploads" = "")) by done. cbn [negb].
    destruct (decide (name = "")) as [->|Hname].
    + by rewrite !(bool_decide_eq_true_2 ("" = "")).
    + by rewrite !(bool_decide_eq_false_2 (name = "")).
  - rewrite !(bool_decide_eq_false_2 (d = "")) by done. cbn [negb].
    pose proof (uploads_rooted d Hd) as Hroot.
    change (join_slash [d; ".."; "uploads"])
      with (d ++ "/" ++ ".." ++ "/" ++ "uploads").
    rewrite (bool_decide_eq_false_2 (normalize _ = ""))
      by (by apply normalize_root_nonempty).
    cbn [negb].
    destruct (decide (name = "")) as [->|Hname].
    + rewrite !(bool_decide_eq_true_2 ("" = "")) by done. cbn [negb].
      by apply normalize_root_idem.
    + rewrite !(bool_decide_eq_false_2 (name = "")) by done. cbn [negb].
      change (join_slash [?a; name]) with (a ++ "/" ++ name).
      rewrite normalize_under_root by done.
      change (join_slash [d; ".."; "uploads"; name])
        with (d ++ "/" ++ ".." ++ "/" ++ "uploads" ++ "/" ++ name).
      by rewrite !append_assoc.
Qed.

Lemma prefix_normalize_under root name :
  rooted root → single_segment name → name ∉ [""; "."; ".."] →
  String.prefix (normalize root) (normalize (root ++ "/" ++ name)) = true.
Proof.
  intros Hroot Hsingle Hname.
  assert (name ≠ "" ∧ name ≠ "." ∧ name ≠ "..") as (H1 & H2 & H3)
    by set_solver.
  assert (Hne : root ≠ "") by apply Hroot.
  rewrite (normalize_nonempty (root ++ _)) by (by apply append_nonempty_l).
  cbv zeta. rewrite prefix_slash_append by done.
  rewrite split_slash_append, Hsingle, normalize_segments_app.
  fold (kept_segments root). cbn [normalize_segments].
  rewrite (bool_decide_eq_false_2 (name = "")) by done.
  rewrite (bool_decide_eq_false_2 (name = ".")) by done.
  rewrite (bool_decide_eq_false_2 (name = "..")) by done.
  cbn [orb rev]. rewrite rev_involutive.
  rewrite join_slash_snoc by (by apply kept_nonempty).
  rewrite bool_decide_eq_false_2
    by (apply append_nonempty_l; apply Hroot).
  rewrite normalize_root by done.
  destruct (String.prefix "/" root), (ends_with_slash _).
  all: eapply prefix_of_append.
  all: rewrite ?append_nil_l, ?append_assoc; reflexivity.
Qed.

Lemma uploads_directory d :
  ∃ root,
    rooted root
    ∧ node_path.join [d; ".."; "uploads"] = node_path.normalize root
    ∧ ∀ name, name ≠ "" →
        node_path.join [d; ".."; "uploads"; name]
        = node_path.normalize (root ++ "/" ++ name).
Proof.
  unfold node_path.join. cbn [List.filter].
  rewrite !(bool_decide_eq_false_2 (".." = "")) by done.
  rewrite !(bool_decide_eq_false_2 ("uploads" = "")) by done. cbn [negb].
  destruct (decide (d = "")) as [->|Hd].
  - exists "../uploads". split_and!.
    + by split_and!.
    + done.
    + intros name Hname.
      rewrite (bool_decide_eq_true_2 ("" = "")) by done. cbn [negb].
      by rewrite (bool_decide_eq_false_2 (name = "")).
  - exists (d ++ "/" ++ ".." ++ "/" ++ "uploads"). split_and!.
    + by apply uploads_rooted.
    + by rewrite (bool_decide_eq_false_2 (d = "")).
    + intros name Hname.
      rewrite (bool_decide_eq_false_2 (d = "")) by done.
      rewrite (bool_decide_eq_false_2 (name = "")) by done. cbn [negb].
      change (node_path.join_slash [d; ".."; "uploads"; name])
        with (d ++ "/" ++ ".." ++ "/" ++ "uploads" ++ "/" ++ name).
      by rewrite !append_assoc.
Qed.

(** X23: a file name that is a single path segment other than "", "." and
    ".." passes the path check of getDocumentPath, and that of
    downloadDocument when UPLOAD_PATH is not set. *)
Theorem plain_name_passes_path_check name :
  single_segment name →
  name ∉ [""; "."; ".."] →
  node_path.startsWith (node_path.join [dirname; ".."; "uploads"; name])
    (node_path.join [dirname; ".."; "uploads"]) = true
  ∧ (truthy UPLOAD_PATH = false →
     node_path.startsWith (download_path name) uploads_root = true).
Proof.
  intros Hsingle Hname.
  assert (Hcheck : node_path.startsWith
                     (node_path.join [dirname; ".."; "uploads"; name])
                     (node_path.join [dirname; ".."; "uploads"]) = true).
  { destruct (uploads_directory dirname) as (root & Hroot & -> & Hunder).
    rewrite Hunder by set_solver.
    by apply prefix_normalize_under. }
  split; [done|]. intros Hdefault.
  unfold download_path, uploads_root. rewrite Hdefault.
  by rewrite join_under_uploads.
Qed.

(** X24: when UPLOAD_PATH is not set, getDocumentPath and downloadDocument
    agree for every file name: same world, the path the service returns is
    the file the controller sends, and the status and message of the error
    the service throws are those of the controller's answer. *)
Theorem service_matches_download req w :
  truthy UPLOAD_PATH = false →
  corresponds (λ p, mkResponse 200 (Download p (params_filename req)))
    (taskService.getDocumentPath (params_filename req) (user_id req)
       (user_role req) w)
    (downloadDocument req w).
Proof.
  intros Hdefault.
  unfold corresponds, taskService.getDocumentPath, downloadDocument,
    download_path, uploads_root, fs_existsSync. rewrite Hdefault. run.
  rewrite join_under_uploads.
  destruct (negb (node_path.startsWith _ _)); cbn; [done|].
  destruct (find_by_filename (params_filename req) w) as [task|]; cbn; [|done].
  destruct (negb (bool_decide (user_role req = constants.ADMIN))
            && negb (bool_decide (createdBy task = user_id req))
            && negb (bool_decide (assignedTo task = user_id req)));
    cbn; [done|].
  by destruct (bool_decide (_ ∈ disk w)).
Qed.


End Properties.

(** * Runs on the sample data *)

Import sample.

(** C1: a non-admin actor who supplies a search text is shown a task they
    neither created nor are assigned to, and one of their own tasks that
    the search text does not match: the two regular expressions are put in
    the same disjunction as the two ownership clauses. *)
Theorem search_text_widens_listing :
  let req := search alice constants.USER "report" in
  (taskController.getTasks req world).1
    = Val (mkResponse 200 (TasksJson [plan; report]))
  ∧ (taskService.getTasks (query req) alice constants.USER world).1
    = Val [plan; report]
  ∧ createdBy report ≠ alice
  ∧ assignedTo report ≠ alice
  ∧ spec_listed (query req) alice report = false
  ∧ spec_listed (query req) alice plan = false.
Proof.
  split_and!; try (vm_compute; reflexivity); by vm_compute.
Qed.

(** C4: the service function updateTask copies every key of [updateData]
    onto the task, [createdBy] included: an administrator who submits the
    edit form, which carries their own identifier as [createdBy], becomes
    the creator of the stored task. The task is stored on every version
    of Mongoose; it is returned where [populate] can be chained on the
    saved document, and where it cannot the TypeError of the chain
    escapes after the save. *)
Theorem service_update_reassigns_creator :
  let updateData : gmap string string :=
    {[ "title" := "Quarterly report, reviewed"; "createdBy" := root ]} in
  let r :=
    taskService.updateTask report_id updateData []
      [JValue (Some doc_a); JValue (Some doc_b); JValue (Some doc_e)]
      root constants.ADMIN world in
  createdBy report = bob
  ∧ ∃ t, createdBy t = root
         ∧ title t = "Quarterly report, reviewed"
         ∧ find_task report_id r.2 = Some t
         ∧ r.1 = Thrown TypeError
         ∧ @taskService.updateTask legacy report_id updateData []
             [JValue (Some doc_a); JValue (Some doc_b); JValue (Some doc_e)]
             root constants.ADMIN world
           = (Val t, r.2).
Proof.
  split; [reflexivity|].
  exists (mkTask report_id "Quarterly report, reviewed"
            "Figures of the quarter" "To Do" "High" 1767139200000 bob root
            [stored doc_a "a"; stored doc_b "b"; stored doc_e "e"] 1000 5000).
  split_and!; vm_compute; reflexivity.
Qed.

(** C7, as stated, fails: the creator of a task sends back the assignee
    it already has, whose account is gone: updateTask answers "Assigned user not found" although
    the assignee does not change. *)
Lemma unchanged_assignee_is_checked :
  ¬ (∀ (req : Request) (w : World) (task : Task),
       req_valid req = true →
       find_task (params_id req) w = Some task →
       user_role req = constants.ADMIN ∨ user_id req = createdBy task →
       ((taskController.updateTask req w).1
          = Val (json_message 400 "Assigned user not found.")
        ↔ ∃ a, b_assignedTo (body req) = Some a
               ∧ a ≠ ""
               ∧ a ≠ assignedTo task
               ∧ find_user (Some a) w = None)).
Proof.
  intros H.
  destruct (H (request alice constants.USER plan_id
                 (mkBody (Some "Plan, second draft") None None None None
                    (Some carol) None (retain ["64d000000000000000000003"]))
                 [])
              world plan) as [Hto _];
    [reflexivity | reflexivity | by right |].
  destruct Hto as (a & Ha & _ & Hdiffers & _); [vm_compute; reflexivity|].
  apply Hdiffers. by inversion Ha.
Qed.

(** C8, as stated, fails: two tasks attach a document of the same
    original name, and after the deletion of one, downloadDocument still resolves the name, to the
    other task. And where the upload directory is configured outside the
    default one, the path check answers before any lookup. *)
Lemma shared_name_outlives_delete :
  (let gone := request alice constants.USER plan_id no_body [] in
   let w' := (taskController.deleteTask gone world).2 in
   (taskController.deleteTask gone world).1
     = Val (json_message 200 "Task deleted successfully.")
   ∧ has_filename "a.pdf" plan = true
   ∧ (taskController.downloadDocument (download bob constants.USER "a.pdf") w').1
     = Val (json_message 404 "File not found on server."))
  ∧ (let gone := request bob constants.USER report_id no_body [] in
     let w' := (taskController.deleteTask gone world).2 in
     (taskController.deleteTask gone world).1
       = Val (json_message 200 "Task deleted successfully.")
     ∧ has_filename "b.pdf" report = true
     ∧ (@taskController.downloadDocument relocated
          (download bob constants.USER "b.pdf") w').1
       = Val (json_message 400 "Invalid file path.")).
Proof.
  split; intros gone w'; split_and!; vm_compute; reflexivity.
Qed.

(** C9, as stated, fails: no task attaches a document named "..", yet
    the answer is not "Document not found": the path check of the handler comes first. *)
Lemma parent_directory_name_is_rejected :
  find_by_filename ".." world = None
  ∧ (taskController.downloadDocument (download bob constants.USER "..") world).1
    = Val (json_message 400 "Invalid file path.")
  ∧ (taskService.getDocumentPath ".." bob constants.USER world).1
    = Thrown (HttpError 400 "Invalid file path.").
Proof.
  split_and!; vm_compute; reflexivity.
Qed.

(** *** Instances of the theorems *)

(** C2 at work: carol is the assignee of [plan] and nothing more. *)
Lemma update_delete_access_witness :
  let req := request carol constants.USER plan_id
               (mkBody (Some "Mine now") None (Some "Done") None None None None
                  (retain ["64d000000000000000000003"]))
               [upload "c"] in
  (taskController.updateTask req world).1
    = Val (json_message 403 "Not authorized to update this task.")
  ∧ (taskController.deleteTask req world).1
    = Val (json_message 403 "Not authorized to delete this task.")
  ∧ tasks (taskController.updateTask req world).2 = tasks world.
Proof.
  intros req.
  destruct (update_delete_access req world plan) as (Hupdate & Hdelete & Hsame).
  - reflexivity.
  - reflexivity.
  - apply uploads_stored_check. vm_compute. reflexivity.
  - assert (Hdenied : ¬ (user_role req = constants.ADMIN
                         ∨ user_id req = createdBy plan))
      by (intros [H|H]; discriminate H).
    split_and!.
    + by apply Hupdate.
    + by apply Hdelete.
    + by apply Hsame.
Defined.

(** C3 at work: bob keeps two documents of the report and uploads one.
    The task is stored with three documents, although the chained
    [populate] then fails and the answer is 500. *)
Lemma attachment_cap_witness :
  let req := request bob constants.USER report_id
               (with_retain (retain [doc_a; doc_b])) [upload "c"] in
  let r := taskController.updateTask req world in
  let t := mkTask report_id "Quarterly report" "Figures of the quarter"
             "To Do" "High" 1767139200000 bob bob
             [stored doc_a "a"; stored doc_b "b"; stored (hex 24 7) "c"]
             1000 5000 in
  find_task report_id r.2 = Some t
  ∧ r.1 = Val (json_message 500 "Server error during task update.")
  ∧ (List.length (attachedDocuments t)
     ≤ constants.MAX_DOCUMENTS_PER_TASK)%nat.
Proof.
  intros req r t. split_and!; [vm_compute; reflexivity..|].
  apply (attachment_cap req world t).
  - right. apply (find_task_elem report_id). vm_compute. reflexivity.
  - apply restamped_check. vm_compute. reflexivity.
Defined.

(** C5 at work: no retain set and one upload. *)
Lemma retain_set_absent_witness :
  let req := request bob constants.USER report_id no_body [upload "c"] in
  let r := taskController.updateTask req world in
  let t := mkTask report_id "Quarterly report" "Figures of the quarter"
             "To Do" "High" 1767139200000 bob bob
             [stored (hex 24 7) "c"] 1000 5000 in
  find_task report_id r.2 = Some t
  ∧ map (λ d, (filename d, path d, mimetype d)) (attachedDocuments t)
    = [("c.pdf", "/app/backend/uploads/attachedDocuments-c.pdf",
        "application/pdf")]
  ∧ List.length (attachedDocuments t) = 1%nat
  ∧ (∀ d, d ∈ attachedDocuments report → path d ∉ disk r.2).
Proof.
  intros req r t.
  assert (Hafter : find_task (params_id req) r.2 = Some t)
    by (vm_compute; reflexivity).
  destruct (retain_set_absent req world report t) as [Hstored _].
  - reflexivity.
  - reflexivity.
  - exact Hafter.
  - destruct Hstored as (Hdocs & Hlen & Hgone); [discriminate|].
    split_and!; [exact Hafter | exact Hdocs | exact Hlen | exact Hgone].
Defined.

(** C6 at work: two documents kept, one dropped, two uploads. *)
Lemma too_many_documents_witness :
  let req := request bob constants.USER report_id
               (with_retain (retain [doc_a; doc_b]))
               [upload "c"; upload "d"] in
  ∃ w',
    taskController.updateTask req world
      = (Val (json_message 400 "Maximum 3 documents allowed."), w')
    ∧ tasks w' = tasks world
    ∧ disk w' = disk world ∖ paths_of [stored doc_e "e"]
                  ∖ upload_paths [upload "c"; upload "d"]
    ∧ (∀ f, f ∈ [upload "c"; upload "d"] → file_path f ∉ disk w')
    ∧ (∀ d, d ∈ [stored doc_e "e"] → path d ∉ disk w').
Proof.
  intros req.
  apply (too_many_documents req world report
           [stored doc_a "a"; stored doc_b "b"] [stored doc_e "e"]).
  - reflexivity.
  - reflexivity.
  - by right.
  - intros H. discriminate H.
  - vm_compute. reflexivity.
  - vm_compute. lia.
  - apply uploads_stored_check. vm_compute. reflexivity.
  - apply uploads_apart_check. vm_compute. reflexivity.
Defined.

(** C7 at work: carol has no account any more. *)
Lemma assigned_user_not_found_witness :
  let req := request bob constants.USER report_id
               (mkBody (Some "Budget") (Some "Next year") None None
                  (Some "2026-01-31") (Some carol) None
                  (retain [doc_a; doc_b; doc_e]))
               [upload "c"] in
  let cleaned := set_disk (disk world ∖ upload_paths [upload "c"]) world in
  taskController.createTask req world
    = (Val (json_message 400 "Assigned user not found."), cleaned)
  ∧ taskController.updateTask req world
    = (Val (json_message 400 "Assigned user not found."), cleaned).
Proof.
  intros req cleaned.
  destruct (assigned_user_not_found req world) as (_ & _ & Hcreate & Hupdate).
  - reflexivity.
  - apply uploads_stored_check. vm_compute. reflexivity.
  - intros u Hu _. inversion Hu. vm_compute. reflexivity.
  - split.
    + apply Hcreate;
        [vm_compute; lia | discriminate | vm_compute; reflexivity].
    + destruct (Hupdate report) as [Hiff Hrun];
        [reflexivity | by right |].
      apply Hrun, Hiff. split; vm_compute; reflexivity.
Defined.

(** C8 at work: "b.pdf" is attached to [report] only. *)
Lemma cascade_delete_witness :
  let gone := request bob constants.USER report_id no_body [] in
  ∃ w',
    taskController.deleteTask gone world
      = (Val (json_message 200 "Task deleted successfully."), w')
    ∧ find_task report_id w' = None
    ∧ taskController.downloadDocument
        (download alice constants.USER "b.pdf") w'
      = (Val (json_message 404
                "Document not found or not associated with any task."), w').
Proof.
  intros gone.
  destruct (cascade_delete gone world report)
    as (w1 & w' & _ & _ & Hrun & _ & _ & Hafter).
  - reflexivity.
  - by right.
  - exists w'. destruct Hafter as [Hnone Hdownload].
    + compute_done.
    + split_and!; [exact Hrun | exact Hnone |].
      apply (Hdownload (stored doc_b "b")).
      * apply elem_of_cons. right. apply elem_of_cons. by left.
      * reflexivity.
      * apply name_unshared_check. vm_compute. reflexivity.
      * vm_compute. reflexivity.
Defined.

(** C9 at work: an unknown name; and a name that the report attaches,
    asked for by its creator after the stored file was lost. *)
Lemma download_errors_witness :
  taskController.downloadDocument (download alice constants.USER "z.pdf") world
    = (Val (json_message 404
              "Document not found or not associated with any task."), world)
  ∧ ("/app/backend/uploads/attachedDocuments-b.pdf" ∉ disk damaged)
  ∧ taskController.downloadDocument (download bob constants.USER "b.pdf")
      damaged
    = (Val (json_message 404 "File not found on server."), damaged).
Proof.
  split_and!.
  - destruct (download_errors (download alice constants.USER "z.pdf") world)
      as (_ & Hcontroller & _).
    destruct Hcontroller as [Hnone _]; [vm_compute; reflexivity|].
    specialize (Hnone eq_refl (disk world)).
    by rewrite (set_disk_same world) in Hnone.
  - compute_done.
  - destruct (download_errors (download bob constants.USER "b.pdf") damaged)
      as (_ & Hcontroller & _).
    destruct Hcontroller as [_ Hmissing]; [vm_compute; reflexivity|].
    apply (Hmissing report); [reflexivity | by right; left | |].
    + apply files_absent_check. vm_compute. reflexivity.
    + compute_done.
Defined.

(** C10 at work: an empty title and an empty due date. *)
Lemma falsy_field_keeps_value_witness :
  let req := request bob constants.USER report_id
               (mkBody (Some "") (Some "Figures, revised") None None
                  (Some "") None None (retain [doc_a]))
               [] in
  let r := taskController.updateTask req world in
  let t := mkTask report_id "Quarterly report" "Figures, revised"
             "To Do" "High" 1767139200000 bob bob
             [stored doc_a "a"] 1000 5000 in
  find_task report_id r.2 = Some t
  ∧ title t = title report
  ∧ dueDate t = dueDate report.
Proof.
  intros req r t.
  assert (Hafter : find_task (params_id req) r.2 = Some t)
    by (vm_compute; reflexivity).
  destruct (falsy_field_keeps_value req world report t)
    as (Htitle & _ & _ & _ & Hdue & _).
  - reflexivity.
  - exact Hafter.
  - split_and!.
    + exact Hafter.
    + by apply Htitle.
    + by apply Hdue.
Defined.

(** *** The scenarios of the specification *)

(** On Mongoose 5: a task created with two attachments has two documents
    and the actor as creator; an update retaining one of them and
    uploading one leaves two documents and removes the file of the
    dropped one; an update retaining both and uploading two more is
    refused. *)
Example scenario_reconciliation :
  let start := receive [upload "c"; upload "d"]
                 (mkWorld [] {[alice; bob]} ∅ 0 1000) in
  let created :=
    @taskController.createTask legacy
      (request alice constants.USER ""
         (mkBody (Some "T") (Some "D") None None (Some "2025-12-31")
            (Some alice) None None)
         [upload "c"; upload "d"]) start in
  let first :=
    mkTask (hex 24 0) "T" "D" "To Do" "Low" (epoch_ms 2025 12 31) alice alice
      [stored (hex 24 1) "c"; stored (hex 24 2) "d"] 1000 1000 in
  let updated :=
    @taskController.updateTask legacy
      (request alice constants.USER (hex 24 0)
         (with_retain (retain [hex 24 1])) [upload "e"])
      (receive [upload "e"] created.2) in
  let second :=
    mkTask (hex 24 0) "T" "D" "To Do" "Low" (epoch_ms 2025 12 31) alice alice
      [stored (hex 24 1) "c"; stored (hex 24 3) "e"] 1000 1000 in
  let refused :=
    @taskController.updateTask legacy
      (request alice constants.USER (hex 24 0)
         (with_retain (retain [hex 24 1; hex 24 3]))
         [upload "f"; upload "g"])
      (receive [upload "f"; upload "g"] updated.2) in
  created.1 = Val (mkResponse 201 (TaskJson first))
  ∧ find_task (hex 24 0) created.2 = Some first
  ∧ updated.1 = Val (mkResponse 200 (TaskJson second))
  ∧ find_task (hex 24 0) updated.2 = Some second
  ∧ (file_path (upload "d") ∉ disk updated.2)
  ∧ refused.1 = Val (json_message 400 "Maximum 3 documents allowed.")
  ∧ find_task (hex 24 0) refused.2 = Some second
  ∧ (file_path (upload "f") ∉ disk refused.2)
  ∧ (file_path (upload "g") ∉ disk refused.2).
Proof.
  cbv zeta. split_and!; try (vm_compute; reflexivity); compute_done.
Qed.

(** On Mongoose 6 and later the same creation stores the same task, but
    the chained [populate] fails after the save: the answer is 500 and
    the two uploads, which the stored task attaches, are removed. *)
Example scenario_creation_after_save :
  let start := receive [upload "c"; upload "d"]
                 (mkWorld [] {[alice; bob]} ∅ 0 1000) in
  let created :=
    taskController.createTask
      (request alice constants.USER ""
         (mkBody (Some "T") (Some "D") None None (Some "2025-12-31")
            (Some alice) None None)
         [upload "c"; upload "d"]) start in
  let first :=
    mkTask (hex 24 0) "T" "D" "To Do" "Low" (epoch_ms 2025 12 31) alice alice
      [stored (hex 24 1) "c"; stored (hex 24 2) "d"] 1000 1000 in
  created.1 = Val (json_message 500 "Server error during task creation.")
  ∧ tasks created.2 = [first]
  ∧ disk created.2 = ∅.
Proof.
  cbv zeta. split_and!; vm_compute; reflexivity.
Qed.

(** A third, non-admin user can neither update nor view the task. *)
Example scenario_forbidden :
  (taskController.updateTask
     (request alice constants.USER report_id
        (mkBody (Some "Taken over") None None None None None None None) [])
     world).1
    = Val (json_message 403 "Not authorized to update this task.")
  ∧ (taskController.getTaskById
       (request alice constants.USER report_id no_body []) world).1
    = Val (json_message 403 "Not authorized to view this task.").
Proof.
  split; vm_compute; reflexivity.
Qed.

(** With no retain set and no upload every document goes. *)
Example scenario_retain_default :
  let r := taskController.updateTask
             (request bob constants.USER report_id no_body []) world in
  find_task report_id r.2
  = Some (mkTask report_id "Quarterly report" "Figures of the quarter"
            "To Do" "High" 1767139200000 bob bob [] 1000 5000)
  ∧ disk r.2 = {[ "/app/backend/uploads/attachedDocuments-a2.pdf";
                  "/app/backend/uploads/attachedDocuments-c.pdf";
                  "/app/backend/uploads/attachedDocuments-d.pdf" ]}.
Proof.
  cbv zeta. split_and!; vm_compute; reflexivity.
Qed.

(** ** Further runs on the sample data *)

(** X1 at work: bob, creator and assignee of the report, is refused; alice,
    creator of the plan, whose assignee has no account any more, is
    answered 500; the administrator is sent the plan. *)
Lemma view_access_witness :
  (taskController.getTaskById
     (request bob constants.USER report_id no_body []) world).1
  = Val (json_message 403 "Not authorized to view this task.")
  ∧ (taskController.getTaskById
       (request alice constants.USER plan_id no_body []) world).1
    = Val (json_message 500 "Server error fetching task.")
  ∧ (taskController.getTaskById
       (request root constants.ADMIN plan_id no_body []) world).1
    = Val (mkResponse 200 (TaskJson plan)).
Proof.
  split_and!.
  - destruct (view_access (request bob constants.USER report_id no_body [])
                world) as (_ & _ & Hfound).
    destruct (Hfound report eq_refl) as [_ Hother].
    destruct Hother as [_ Hrefused]; [discriminate|].
    rewrite Hrefused; [reflexivity|discriminate|discriminate].
  - destruct (view_access (request alice constants.USER plan_id no_body [])
                world) as (_ & _ & Hfound).
    destruct (Hfound plan eq_refl) as [_ Hother].
    destruct Hother as [_ Hrefused]; [discriminate|].
    rewrite Hrefused; [reflexivity|discriminate|discriminate].
  - destruct (view_access (request root constants.ADMIN plan_id no_body [])
                world) as (_ & _ & Hfound).
    destruct (Hfound plan eq_refl) as [Hadmin _].
    by apply Hadmin.
Defined.

(** X3 at work: alice is neither creator nor assignee of the report. *)
Lemma download_access_witness :
  (taskController.downloadDocument (download alice constants.USER "b.pdf")
     world).1
  = Val (json_message 403 "Not authorized to download this document.").
Proof.
  destruct (download_access (download alice constants.USER "b.pdf") world
              report) as [[_ Hdenied] _].
  - vm_compute. reflexivity.
  - reflexivity.
  - apply Hdenied. compute_done.
Defined.

(** X26 at work: the file of "b.pdf" is on storage under its stored path,
    and bob, who created the report, is told that it is missing. *)
Lemma download_probes_requested_name_witness :
  ("/app/backend/uploads/attachedDocuments-b.pdf" ∈ disk world)
  ∧ path (stored doc_b "b") = "/app/backend/uploads/attachedDocuments-b.pdf"
  ∧ taskController.downloadDocument (download bob constants.USER "b.pdf")
      world
    = (Val (json_message 404 "File not found on server."), world).
Proof.
  split_and!; [compute_done | reflexivity |].
  destruct (download_probes_requested_name
              (download bob constants.USER "b.pdf") world report)
    as (_ & Hmissing & _).
  - vm_compute. reflexivity.
  - reflexivity.
  - by right; left.
  - apply Hmissing. compute_done.
Defined.

(** X4 at work: alice creates a task for bob with one upload. The task is
    stored, the answer is 500 and the upload is removed. *)
Lemma create_keeps_or_removes_uploads_witness :
  let req := request alice constants.USER ""
               (mkBody (Some "Minutes") (Some "Of the meeting") None None
                  (Some "2026-01-01") (Some bob) None None)
               [upload "c"] in
  ∃ r w',
    taskController.createTask req world = (Val r, w')
    ∧ r = json_message 500 "Server error during task creation."
    ∧ disk w' = disk world ∖ upload_paths [upload "c"]
    ∧ List.length (tasks w') = 3%nat.
Proof.
  intros req.
  destruct (create_keeps_or_removes_uploads req world)
    as (r & w' & Hrun & _ & Hother).
  { apply uploads_stored_check. vm_compute. reflexivity. }
  assert (Hr : (taskController.createTask req world).1
               = Val (json_message 500 "Server error during task creation."))
    by (vm_compute; reflexivity).
  assert (Hlen : List.length (tasks (taskController.createTask req world).2)
                 = 3%nat) by (vm_compute; reflexivity).
  rewrite Hrun in Hr, Hlen. cbn [fst snd] in Hr, Hlen.
  assert (Hr' : r = json_message 500 "Server error during task creation.")
    by congruence.
  exists r, w'. destruct Hother as [Hdisk _]; [rewrite Hr'; discriminate|].
  split_and!; [exact Hrun | exact Hr' | exact Hdisk | exact Hlen].
Defined.

(** X25 at work: the same request, with what is stored. *)
Lemma create_stores_then_answers_witness :
  let req := request alice constants.USER ""
               (mkBody (Some "  Minutes ") (Some "Of the meeting") None None
                  (Some "2026-01-01") (Some bob) None None)
               [upload "c"] in
  let t := mkTask (hex 24 7) "Minutes" "Of the meeting" "To Do" "Low"
             (epoch_ms 2026 1 1) bob alice [stored (hex 24 8) "c"]
             5000 5000 in
  (taskController.createTask req world).1
  = Val (json_message 500 "Server error during task creation.")
  ∧ tasks (taskController.createTask req world).2 = [report; plan; t]
  ∧ (file_path (upload "c") ∉ disk (taskController.createTask req world).2).
Proof.
  intros req t.
  rewrite (create_stores_then_answers req world (epoch_ms 2026 1 1) bob).
  - split_and!; [vm_compute; reflexivity..|]. compute_done.
  - reflexivity.
  - vm_compute. lia.
  - reflexivity.
  - vm_compute. reflexivity.
  - vm_compute. reflexivity.
  - vm_compute. reflexivity.
  - vm_compute. reflexivity.
Defined.

(** X5 at work: two documents kept and two uploads are one too many. *)
Lemma update_keeps_or_removes_uploads_witness :
  let req := request bob constants.USER report_id
               (with_retain (retain [doc_a; doc_b]))
               [upload "c"; upload "d"] in
  ∃ r w',
    taskController.updateTask req world = (Val r, w')
    ∧ r = json_message 400 "Maximum 3 documents allowed."
    ∧ ∀ f, f ∈ [upload "c"; upload "d"] → file_path f ∉ disk w'.
Proof.
  intros req.
  destruct (update_keeps_or_removes_uploads req world)
    as (r & w' & Hrun & _ & Hother).
  { apply uploads_stored_check. vm_compute. reflexivity. }
  { intros task Hfind. assert (task = report) as ->.
    { assert (Hreport : find_task (params_id req) world = Some report)
        by reflexivity.
      congruence. }
    apply uploads_apart_check. vm_compute. reflexivity. }
  assert (Hr : (taskController.updateTask req world).1
               = Val (json_message 400 "Maximum 3 documents allowed."))
    by (vm_compute; reflexivity).
  rewrite Hrun in Hr. cbn [fst] in Hr.
  assert (Hr' : r = json_message 400 "Maximum 3 documents allowed.")
    by congruence.
  exists r, w'. destruct Hother as [Hgone _]; [rewrite Hr'; discriminate|].
  split_and!; [exact Hrun | exact Hr' | exact Hgone].
Defined.

(** X6 at work: bob renames the report. *)
Lemma update_touches_one_record_witness :
  let req := request bob constants.USER report_id
               (mkBody (Some "Annual report") None None None None None None
                  (retain [doc_a]))
               [] in
  let r := taskController.updateTask req world in
  map _id (tasks r.2) = [report_id; plan_id]
  ∧ plan ∈ tasks r.2
  ∧ ∃ t', find_task report_id r.2 = Some t'
          ∧ createdAt t' = 1000
          ∧ createdBy t' = bob.
Proof.
  intros req r.
  destruct (update_touches_one_record req world) as (Hids & Hothers & Hkept).
  destruct (Hkept report eq_refl) as (t' & Hafter & _ & Hat & Hby & _).
  split_and!.
  - exact Hids.
  - apply Hothers; [|discriminate].
    apply (list_elem_of_lookup_2 _ 1%nat). reflexivity.
  - exists t'. split_and!; [exact Hafter | exact Hat | exact Hby].
Defined.

(** X7 at work: one of the three documents of the report is retained. *)
Lemma reconciliation_partitions_witness :
  attachedDocuments report
  ≡ₚ [stored doc_b "b"] ++ [stored doc_a "a"; stored doc_e "e"]
  ∧ [stored doc_b "b"] `sublist_of` attachedDocuments report.
Proof.
  destruct (reconciliation_partitions (attachedDocuments report)
              (retain [doc_b]) [stored doc_b "b"]
              [stored doc_a "a"; stored doc_e "e"])
    as (Hperm & Hkept & _).
  - vm_compute. reflexivity.
  - split; [exact Hperm | exact Hkept].
Defined.

(** X8 at work: bob submits the report as it is. The report is stamped and
    stored, and the answer is 500. *)
Lemma resubmission_changes_nothing_witness :
  let req := request bob constants.USER report_id
               (with_retain (Some (map retain_entry [doc_a; doc_b; doc_e])))
               [] in
  taskController.updateTask req world
  = (Val (json_message 500 "Server error during task update."),
     set_tasks [touch 5000 report; plan] world).
Proof.
  intros req.
  rewrite (resubmission_changes_nothing req world report).
  - reflexivity.
  - reflexivity.
  - reflexivity.
  - by right.
  - vm_compute. reflexivity.
  - vm_compute. lia.
  - reflexivity.
  - reflexivity.
  - by split_and!.
Defined.

(** X10 at work: bob deletes the report; the plan stays. *)
Lemma deleted_task_is_gone_witness :
  let gone := request bob constants.USER report_id no_body [] in
  let w' := (taskController.deleteTask gone world).2 in
  taskController.getTaskById gone w'
  = (Val (json_message 404 "Task not found."), w')
  ∧ taskController.deleteTask gone w'
    = (Val (json_message 404 "Task not found."), w')
  ∧ List.length (tasks world) = S (List.length (tasks w')).
Proof.
  intros gone w'.
  destruct (deleted_task_is_gone gone world w') as (Hagain & _ & Hless & _).
  - compute_done.
  - vm_compute. reflexivity.
  - destruct (Hagain gone eq_refl) as [Hread Hdelete].
    split_and!; [exact Hread | exact Hdelete | exact Hless].
Defined.

(** X11 at work: carol may not delete the plan. *)
Lemma refused_delete_changes_nothing_witness :
  let req := request carol constants.USER plan_id no_body [] in
  taskController.deleteTask req world
  = (Val (json_message 403 "Not authorized to delete this task."), world).
Proof.
  intros req.
  destruct (refused_delete_changes_nothing req world) as [Hcontroller _].
  assert (Hr : (taskController.deleteTask req world).1
               = Val (json_message 403 "Not authorized to delete this task."))
    by (vm_compute; reflexivity).
  destruct (taskController.deleteTask req world) as [o w'] eqn:Hrun.
  cbn [fst] in Hr. subst o.
  rewrite (Hcontroller _ w' eq_refl); [reflexivity|by left].
Defined.

(** X12 at work: the identifier minted next is not one of the two in use. *)
Lemma identifiers_stay_unique_witness :
  let req := request alice constants.USER report_id
               (mkBody (Some "Minutes") (Some "Of the meeting") None None
                  (Some "2026-01-01") (Some bob) None None)
               [] in
  NoDup (map _id (tasks (taskController.createTask req world).2))
  ∧ NoDup (map _id (tasks (taskController.updateTask req world).2))
  ∧ NoDup (map _id (tasks (taskController.deleteTask req world).2)).
Proof.
  intros req. apply (identifiers_stay_unique req world); compute_done.
Defined.

(** X13 at work: the administrator lists by title, ascending. *)
Lemma listing_is_ordered_witness :
  Sorted (listed_before "title" true) [plan; report].
Proof.
  destruct (listing_is_ordered
              (mkRequest root constants.ADMIN true "" ""
                 (mkQueryString None None None None None
                    (Some "title") (Some "asc") (Some "1") (Some "10"))
                 no_body [])
              world world [plan; report]) as (Hby & _).
  - vm_compute. reflexivity.
  - apply (Hby "title"); [reflexivity|compute_done].
Defined.

(** X14 at work: carol lists without parameters and sees the plan. *)
Lemma first_page_is_complete_witness :
  let req := mkRequest carol constants.USER true "" "" no_query no_body [] in
  ∃ l,
    taskController.getTasks req world
    = (Val (mkResponse 200 (TasksJson l)), world)
    ∧ l ≡ₚ [plan].
Proof.
  intros req.
  destruct (first_page_is_complete req world) as (l & Hrun & _ & _ & Hall).
  - reflexivity.
  - reflexivity.
  - intros Hdate. discriminate Hdate.
  - intros Hsearch. discriminate Hsearch.
  - intros Hfilter. discriminate Hfilter.
  - intros _. vm_compute. reflexivity.
  - exists l. split; [exact Hrun|]. apply Hall. vm_compute. lia.
Defined.

(** X15 at work: alice lists by title with page and limit. *)
Lemma service_listing_matches_controller_witness :
  taskService.getTasks
    (mkQueryString None None None None None
       (Some "title") (Some "asc") (Some "1") (Some "10"))
    alice constants.USER world
  = (Val [plan], world).
Proof.
  apply (service_listing_matches_controller
           (mkRequest alice constants.USER true "" ""
              (mkQueryString None None None None None
                 (Some "title") (Some "asc") (Some "1") (Some "10"))
              no_body [])
           world).
  - by eexists.
  - by eexists.
  - by eexists.
  - vm_compute. reflexivity.
Defined.

(** X16 at work: bob keeps one document and uploads a PDF. *)
Lemma stored_documents_are_allowed_witness :
  let req := request bob constants.USER report_id
               (with_retain (retain [doc_a])) [upload "c"] in
  documents_allowed (taskController.createTask req world).2
  ∧ documents_allowed (taskController.updateTask req world).2
  ∧ documents_allowed (taskController.deleteTask req world).2.
Proof.
  intros req. apply (stored_documents_are_allowed req world).
  - intros f Hf. apply list_elem_of_singleton in Hf. rewrite Hf. reflexivity.
  - apply documents_allowed_check. vm_compute. reflexivity.
Defined.

(** X17 at work: the service stores the task the controller stores, and
    neither returns it. *)
Lemma service_create_matches_controller_witness :
  let req := request alice constants.USER ""
               (mkBody (Some "Minutes") (Some "Of the meeting") None None
                  (Some "2026-01-01") (Some bob) (Some alice) None)
               [] in
  tasks (taskController.createTask req world).2
  = tasks (taskService.createTask (body req) (files req) world).2
  ∧ List.length (tasks (taskController.createTask req world).2) = 3%nat
  ∧ (taskService.createTask (body req) (files req) world).1
    = Thrown TypeError.
Proof.
  intros req.
  destruct (service_create_matches_controller req world)
    as (_ & _ & Hchecked).
  - reflexivity.
  - destruct Hchecked as [Hsame _].
    + reflexivity.
    + vm_compute. lia.
    + vm_compute. eauto.
    + split_and!; [exact Hsame | vm_compute; reflexivity..].
Defined.

(** X19 at work: the administrator deletes bob's account, then alice
    assigns a task to bob. *)
Lemma deleted_user_cannot_be_assigned_witness :
  let req := request root constants.ADMIN bob no_body [] in
  let w' := (userController.deleteUser req world).2 in
  let create := request alice constants.USER ""
                  (mkBody (Some "Minutes") (Some "Of the meeting") None None
                     (Some "2026-01-01") (Some bob) None None)
                  [upload "c"] in
  taskController.createTask create w'
  = (Val (json_message 400 "Assigned user not found."),
     set_disk (disk w' ∖ upload_paths [upload "c"]) w').
Proof.
  intros req w' create.
  apply (deleted_user_cannot_be_assigned req world w' create).
  - vm_compute. reflexivity.
  - reflexivity.
  - reflexivity.
  - vm_compute. lia.
  - apply uploads_stored_check. vm_compute. reflexivity.
Defined.

(** X21 at work: the client holds both tasks, bob deletes the report. *)
Lemma client_list_follows_server_witness :
  let req := request bob constants.USER report_id no_body [] in
  let st := taskReducer.mkState [plan; report] None false None in
  taskReducer.s_tasks
    (taskReducer.taskReducer st (taskReducer.DELETE_TASK report_id))
  ≡ₚ tasks (taskController.deleteTask req world).2.
Proof.
  intros req st.
  apply (client_list_follows_server st req world
           (taskController.deleteTask req world).2).
  - compute_done.
  - apply Permutation_swap.
  - vm_compute. reflexivity.
Defined.

(** X23 at work: the original name of a document of the report. *)
Lemma plain_name_passes_path_check_witness :
  node_path.startsWith (taskController.download_path "b.pdf")
    taskController.uploads_root = true.
Proof.
  destruct (plain_name_passes_path_check "b.pdf") as [_ Hcontroller].
  - reflexivity.
  - compute_done.
  - apply Hcontroller. reflexivity.
Defined.

(** X24 at work: alice asks for a document of bob's report. *)
Lemma service_matches_download_witness :
  corresponds (λ p, mkResponse 200 (Download p "b.pdf"))
    (taskService.getDocumentPath "b.pdf" alice constants.USER world)
    (taskController.downloadDocument (download alice constants.USER "b.pdf")
       world).
Proof.
  apply (service_matches_download (download alice constants.USER "b.pdf") world).
  reflexivity.
Defined.
